(** * Risk scoring and escalation pipeline of the Digital Psychological
      Intervention System

    A shallow embedding of
    - [assessRiskBasedOnKeywords], [generateAIResponse] and [sendMessage]
      (components/student-dashboard.tsx),
    - the routes of the server: signup, profile, chat, appointment,
      assessment, analytics and counsellors,
    - the appointment lists of the counsellor dashboard, and
    - [processRiskData] / [getOverallStats] of the admin dashboard,
    with the properties of the risk pipeline proved over it. *)

From Stdlib Require Import ZArith Ascii String List Floats Uint63.
From Stdlib Require QArith Qround Sorted.
From stdpp Require Import base gmap strings list fin_maps pretty.

Local Open Scope Z_scope.

(* ===================================================================== *)
(** * JavaScript string primitives used by the classifier *)
(* ===================================================================== *)

Module JsString.

(** Text is modelled by the bytes of its UTF-8 encoding, one [ascii] per
    byte, which is what a string literal of this file holds; a character
    outside ASCII takes two to four bytes.  Keys, prefixes and keywords are
    compared byte by byte, which on encoded text is the comparison of the
    characters. *)

(** The lower-case form of one ASCII character: only the letters A-Z have
    one, every other byte is kept. *)
Definition lowerChar (c : ascii) : ascii :=
  let n := N_of_ascii c in
  if ((65 <=? n) && (n <=? 90))%N then ascii_of_N (n + 32) else c.

(** U+212A KELVIN SIGN and U+0130 LATIN CAPITAL LETTER I WITH DOT ABOVE. *)
Definition kelvinSign : string := String "226" (String "132" (String "170" "")).
Definition capitalIWithDot : string := String "196" (String "176" "").

(** [String.prototype.toLowerCase].  Besides the letters A-Z two characters
    have a lower-case form that holds an ASCII letter: the Kelvin sign (k)
    and the capital I with dot above (i followed by U+0307).  Any other
    character outside ASCII is kept as it is; its lower-case form holds no
    ASCII character, so which ASCII keywords the lower-cased text includes
    is as in the code. *)
Fixpoint toLowerCase (s : string) : string :=
  match s with
  | String "226" (String "132" (String "170" rest)) => String "k" (toLowerCase rest)
  | String "196" (String "176" rest) =>
      String "i" (String "204" (String "135" (toLowerCase rest)))
  | String c rest => String (lowerChar c) (toLowerCase rest)
  | EmptyString => EmptyString
  end.

(** [s.startsWith(p)] *)
Fixpoint startsWith (s p : string) {struct p} : bool :=
  match p with
  | EmptyString => true
  | String c p' =>
      match s with
      | EmptyString => false
      | String d s' => if Ascii.eqb c d then startsWith s' p' else false
      end
  end.

(** [s.includes(k)]: [k] starts at some position of [s]. *)
Fixpoint includes (s k : string) : bool :=
  if startsWith s k then true
  else match s with
       | EmptyString => false
       | String _ s' => includes s' k
       end.

End JsString.

(* ===================================================================== *)
(** * Lexical risk classifier (student-dashboard.tsx) *)
(* ===================================================================== *)

Module Classifier.
Import JsString.

Definition crisisKeywords : list string :=
  ["suicide"; "kill myself"; "end it all"; "die"; "harm myself"].
Definition highRiskKeywords : list string :=
  ["hopeless"; "worthless"; "desperate"; "can't cope"; "overwhelming"].
Definition moderateRiskKeywords : list string :=
  ["sad"; "anxious"; "worried"; "stressed"; "depressed"].

Definition assessRiskBasedOnKeywords (message : string) : string :=
  let lowerMessage := toLowerCase message in
  if existsb (fun keyword => includes lowerMessage keyword) crisisKeywords
  then "crisis"
  else if existsb (fun keyword => includes lowerMessage keyword) highRiskKeywords
  then "high"
  else if existsb (fun keyword => includes lowerMessage keyword) moderateRiskKeywords
  then "moderate"
  else "low".

End Classifier.

(* ===================================================================== *)
(** * Platform services used by the server: dates, the clock, UUIDs *)
(* ===================================================================== *)

Module Platform.

(** Time values are milliseconds since the epoch, as [Date.now()] returns
    them.  [epochDay t] is the UTC day number of [t] (ECMAScript's
    [Day(t) = floor(t / msPerDay)]). *)
Definition msPerDay : Z := 24 * 60 * 60 * 1000.
Definition epochDay (t : Z) : Z := t / msPerDay.

(** Decimal rendering of a non-negative number, left-padded with zeros. *)
Fixpoint zeros (n : nat) : string :=
  match n with
  | O => ""
  | S n' => String "0" (zeros n')
  end.
Definition padStart (targetLength : nat) (s : string) : string :=
  zeros (targetLength - String.length s) +:+ s.
Definition digits (width : nat) (n : Z) : string := padStart width (pretty (Z.to_N n)).

(** Civil date (year, month, day) of a day number in the proleptic
    Gregorian calendar. *)
Definition civilFromDays (day : Z) : Z * Z * Z :=
  let z := day + 719468 in
  let era := z / 146097 in
  let doe := z - era * 146097 in
  let yoe := (doe - doe / 1460 + doe / 36524 - doe / 146096) / 365 in
  let doy := doe - (365 * yoe + yoe / 4 - yoe / 100) in
  let mp := (5 * doy + 2) / 153 in
  let d := doy - (153 * mp + 2) / 5 + 1 in
  let m := if mp <? 10 then mp + 3 else mp - 9 in
  let y := yoe + era * 400 + (if m <=? 2 then 1 else 0) in
  (y, m, d).

(** [new Date(t).toISOString().split('T')[0]] as a function of the day
    number of [t]: [YYYY-MM-DD], with ECMAScript's signed six-digit year
    outside 0..9999. *)
Definition isoDate (day : Z) : string :=
  let '(y, m, d) := civilFromDays day in
  let year :=
    if (0 <=? y) && (y <=? 9999) then digits 4 y
    else (if y <? 0 then "-" else "+") +:+ digits 6 (Z.abs y) in
  year +:+ "-" +:+ digits 2 m +:+ "-" +:+ digits 2 d.

End Platform.

(* ===================================================================== *)
(** * Stored records and the key-value store *)
(* ===================================================================== *)

(** The objects the server stores.  Instants ([new Date().toISOString()])
    are kept as their time value in milliseconds. *)

Module User.
(** The authenticated user returned by [supabase.auth.getUser]. *)
Record t := mk { id : string }.
End User.

Module Profile.
Record t := mk { id : string; email : string; name : string; role : string;
                 created_at : Z }.
End Profile.

Module ChatMessage.
Record t := mk { id : string; userId : string; message : string; isUser : bool;
                 riskLevel : option string; timestamp : Z }.
End ChatMessage.

Module Appointment.
Record t := mk { id : string; studentId : string; counsellorId : string;
                 date : string; time : string; status : string;
                 riskLevel : option string; created_at : Z }.
End Appointment.

Module Assessment.
Record t := mk { id : string; userId : string; type : string;
                 scores : list Z; responses : list Z;
                 result : string; riskLevel : string; timestamp : Z }.
End Assessment.

(** A counter object such as [{ low: 0, moderate: 0, high: 0, crisis: 0 }]:
    the map from the names of its own properties to the numbers they
    hold. *)
Abbreviation Counts := (gmap string Z).

(** JavaScript objects used as counters, with what the code does to them:
    [obj[name] = (obj[name] || 0) + 1]. *)
Module JsObject.

(** The properties every object inherits from [Object.prototype], as
    ECMAScript has them (Annex B included): eleven functions and the
    accessor [__proto__].  A runtime that removes the accessor from
    [Object.prototype] treats [__proto__] as any other name. *)
Inductive Inherited :=
| IConstructor | IHasOwnProperty | IIsPrototypeOf | IPropertyIsEnumerable
| IToLocaleString | IToString | IValueOf
| IDefineGetter | IDefineSetter | ILookupGetter | ILookupSetter
| IProto.

#[global] Instance Inherited_eq_dec : EqDecision Inherited.
Proof. solve_decision. Defined.

#[global] Instance Inherited_countable : Countable Inherited.
Proof.
  apply (inj_countable'
           (λ i, match i with
                 | IConstructor => 0 | IHasOwnProperty => 1 | IIsPrototypeOf => 2
                 | IPropertyIsEnumerable => 3 | IToLocaleString => 4 | IToString => 5
                 | IValueOf => 6 | IDefineGetter => 7 | IDefineSetter => 8
                 | ILookupGetter => 9 | ILookupSetter => 10 | IProto => 11
                 end%nat)
           (λ n, match n with
                 | 0 => IConstructor | 1 => IHasOwnProperty | 2 => IIsPrototypeOf
                 | 3 => IPropertyIsEnumerable | 4 => IToLocaleString | 5 => IToString
                 | 6 => IValueOf | 7 => IDefineGetter | 8 => IDefineSetter
                 | 9 => ILookupGetter | 10 => ILookupSetter | _ => IProto
                 end%nat)).
  by intros [].
Defined.

Definition nameOf (i : Inherited) : string :=
  match i with
  | IConstructor => "constructor"
  | IHasOwnProperty => "hasOwnProperty"
  | IIsPrototypeOf => "isPrototypeOf"
  | IPropertyIsEnumerable => "propertyIsEnumerable"
  | IToLocaleString => "toLocaleString"
  | IToString => "toString"
  | IValueOf => "valueOf"
  | IDefineGetter => "__defineGetter__"
  | IDefineSetter => "__defineSetter__"
  | ILookupGetter => "__lookupGetter__"
  | ILookupSetter => "__lookupSetter__"
  | IProto => "__proto__"
  end.

Definition allInherited : list Inherited :=
  [ IConstructor; IHasOwnProperty; IIsPrototypeOf; IPropertyIsEnumerable;
    IToLocaleString; IToString; IValueOf; IDefineGetter; IDefineSetter;
    ILookupGetter; ILookupSetter; IProto ].

(** The inherited property of that name, if there is one. *)
Definition inheritedName (name : string) : option Inherited :=
  head (List.filter (λ i, String.eqb (nameOf i) name) allInherited).

(** The names an object answers to without having them as own properties. *)
Definition inherited (name : string) : bool :=
  match inheritedName name with
  | Some _ => true
  | None => false
  end.

(** An object used as a counter: the numbers its own properties hold, and
    the texts that own properties with an inherited name hold.  A text
    under any other name is not modelled; the counting never writes one. *)
Record t := mk { numbers : Counts; texts : gmap Inherited string }.

(** The object all of whose own properties are the given numbers. *)
Definition ofCounts (c : Counts) : t := mk c ∅.

(** What an own property holds. *)
Inductive Property :=
| PNumber (n : Z)
| PString (s : string).

(** [obj !! name] is the own property [name] of [obj]. *)
#[global] Instance own_property : Lookup string Property t := λ name obj,
  match numbers obj !! name with
  | Some n => Some (PNumber n)
  | None => i ← inheritedName name; PString <$> texts obj !! i
  end.

(** The text of a built-in function, as V8 prints it; [constructor] is
    the function [Object]. *)
Definition functionText (i : Inherited) : string :=
  "function " +:+ (match i with IConstructor => "Object" | _ => nameOf i end)
  +:+ "() { [native code] }".

(** [obj[name] = (obj[name] || 0) + 1], by what [obj[name]] reads:
    - an own number [n]: [n + 1] (zero is falsy, and [0 + 1] is [n + 1] too);
    - undefined, for a name that is neither own nor inherited: [1];
    - an own text: the empty text is falsy and gives [1], any other text
      has "1" appended;
    - an inherited function: its text with "1" appended becomes an own
      property;
    - the prototype, for [__proto__]: the text "[object Object]1" is assigned
      through the setter of [Object.prototype], which ignores a value that
      is neither an object nor null, so that nothing changes. *)
Definition countOne (obj : t) (name : string) : t :=
  match numbers obj !! name with
  | Some n => mk (<[name := n + 1]> (numbers obj)) (texts obj)
  | None =>
      match inheritedName name with
      | None => mk (<[name := 1]> (numbers obj)) (texts obj)
      | Some i =>
          match texts obj !! i with
          | Some EmptyString => mk (<[name := 1]> (numbers obj)) (delete i (texts obj))
          | Some s => mk (numbers obj) (<[i := s +:+ "1"]> (texts obj))
          | None =>
              match i with
              | IProto => obj
              | _ => mk (numbers obj) (<[i := functionText i +:+ "1"]> (texts obj))
              end
          end
      end
  end.

End JsObject.

(** The objects in the store.  [VCounts c] is an object all of whose own
    properties are numbers; [VObject c texts] is an object with the
    numbers [c] of which some properties with an inherited name hold
    texts. *)
Inductive Value :=
| VProfile (p : Profile.t)
| VChatMessage (m : ChatMessage.t)
| VAppointment (a : Appointment.t)
| VAssessment (a : Assessment.t)
| VCounts (c : Counts)
| VObject (c : Counts) (texts : gmap JsObject.Inherited string).

Abbreviation Store := (gmap string Value).

(** The state a handler runs in: the store, and the sequences of values the
    clock and [crypto.randomUUID] will return, with the number of readings
    made so far. *)
Record World := mkWorld {
  store : Store;
  clock : nat → Z;  ticks : nat;
  uuid : nat → string;  uuids : nat
}.

(** Handlers are computations over the world.  [None] stands for a run that
    leaves the typed model: a stored record (a profile, a message, an
    appointment or an assessment) where the code updates a counter. *)
Definition M (A : Type) : Type := World → option (A * World).

#[global] Instance M_ret : MRet M := λ A a w, Some (a, w).
#[global] Instance M_bind : MBind M := λ A B f m w,
  match m w with
  | Some (a, w') => f a w'
  | None => None
  end.

Module Env.

(** A run that leaves the typed model. *)
Definition stuck {A} : M A := λ _, None.

(** [Date.now()] and [new Date()]: the next reading of the clock. *)
Definition dateNow : M Z :=
  λ w, Some (clock w (ticks w),
             mkWorld (store w) (clock w) (S (ticks w)) (uuid w) (uuids w)).

(** [crypto.randomUUID()] *)
Definition randomUUID : M string :=
  λ w, Some (uuid w (uuids w),
             mkWorld (store w) (clock w) (ticks w) (uuid w) (S (uuids w))).

End Env.

(** The module [kv_store.tsx] that the server imports is not part of the
    sources.  Its three operations are modelled from the description of the
    persistent store: addressable by string key, with [get], [set] and
    [getByPrefix]; store operations are taken to succeed. *)
Module Kv.
Import JsString.

(** Modelled from the spec: [get(key)] of the missing kv_store.tsx; the
    value stored under the key, or undefined. *)
Definition get (key : string) : M (option Value) :=
  λ w, Some (store w !! key, w).

(** Modelled from the spec: [set(key, value)] of the missing kv_store.tsx;
    writes the value under the key, replacing an earlier one. *)
Definition set (key : string) (value : Value) : M unit :=
  λ w, Some (tt, mkWorld (<[key := value]> (store w))
                         (clock w) (ticks w) (uuid w) (uuids w)).

(** Modelled from the spec: [getByPrefix(prefix)] of the missing
    kv_store.tsx; the values of the keys that start with the prefix.  The
    order is the store's own and unspecified; the model takes the
    enumeration order of the map. *)
Definition getByPrefix (prefix : string) : M (list Value) :=
  λ w, Some ((List.filter (λ kv, startsWith kv.1 prefix) (map_to_list (store w))).*2, w).

End Kv.

(* ===================================================================== *)
(** * The server's handlers *)
(* ===================================================================== *)

Module Server.
Import Platform.

Inductive Response :=
| json_error (error : string) (status : Z)
| json_chat (chatMessage : ChatMessage.t)            (* { success: true, chatMessage } *)
| json_assessment (assessment : Assessment.t).       (* { success: true, assessment } *)

(** Truthiness of an optional string: undefined, null and the empty
    string are falsy. *)
Definition truthy (s : option string) : bool :=
  match s with
  | Some (String _ _) => true
  | _ => false
  end.

(** [riskLevel === lit] *)
Definition strictEq (s : option string) (lit : string) : bool :=
  match s with
  | Some r => String.eqb r lit
  | None => false
  end.

(** [counsellors.filter(profile => profile.role === 'counsellor')] *)
Definition counsellorProfiles (counsellors : list Value) : list Profile.t :=
  omap (λ v, match v with
             | VProfile p => if String.eqb (Profile.role p) "counsellor" then Some p else None
             | _ => None
             end) counsellors.

(** A stored object that is used as a counter. *)
Definition properties (v : Value) : option JsObject.t :=
  match v with
  | VCounts c => Some (JsObject.ofCounts c)
  | VObject c texts => Some (JsObject.mk c texts)
  | _ => None
  end.

(** The stored form of an object used as a counter. *)
Definition objectValue (o : JsObject.t) : Value :=
  if decide (JsObject.texts o = ∅) then VCounts (JsObject.numbers o)
  else VObject (JsObject.numbers o) (JsObject.texts o).

(** [await kv.get(analyticsKey) || default]: the stored analytics object,
    or the default when the key is unset. *)
Definition counterObject (existing : option Value) (default : Counts) : M JsObject.t :=
  match existing with
  | None => mret (JsObject.ofCounts default)
  | Some v =>
      match properties v with
      | Some o => mret o
      | None => Env.stuck
      end
  end.

(** ** POST /chat *)

Record ChatBody := mkChatBody {
  message : string; isUser : bool; riskLevel : option string
}.

(** "If high risk or crisis, create automatic appointment" *)
Definition createAutomaticAppointment (user : User.t) (riskLevel : option string) : M unit :=
  if strictEq riskLevel "crisis" || strictEq riskLevel "high" then
    counsellors ← Kv.getByPrefix "user:";
    match counsellorProfiles counsellors with
    | first :: _ =>
        id ← Env.randomUUID;
        now ← Env.dateNow;
        created ← Env.dateNow;
        let appointment :=
          Appointment.mk id (User.id user) (Profile.id first)
            (isoDate (epochDay (now + 24 * 60 * 60 * 1000)))
            "10:00" "auto-scheduled" riskLevel created in
        Kv.set ("appointment:" +:+ id) (VAppointment appointment);;
        Kv.set ("student-appointment:" +:+ User.id user +:+ ":" +:+ id)
               (VAppointment appointment);;
        Kv.set ("counsellor-appointment:" +:+ Profile.id first +:+ ":" +:+ id)
               (VAppointment appointment)
    | [] => mret tt
    end
  else mret tt.

Definition defaultRiskAnalytics : Counts :=
  <["low" := 0]> (<["moderate" := 0]> (<["high" := 0]> (<["crisis" := 0]> ∅))).

(** "Store analytics data" of the chat handler *)
Definition storeRiskAnalytics (riskLevel : option string) : M unit :=
  today ← Env.dateNow;
  let analyticsKey := "analytics:risk:" +:+ isoDate (epochDay today) in
  existing ← Kv.get analyticsKey;
  match riskLevel with
  | Some (String _ _ as level) =>
      existingAnalytics ← counterObject existing defaultRiskAnalytics;
      Kv.set analyticsKey (objectValue (JsObject.countOne existingAnalytics level))
  | _ => mret tt
  end.

Definition post_chat (user : option User.t) (body : ChatBody) : M Response :=
  match user with
  | None => mret (json_error "Unauthorized" 401)
  | Some user =>
      let riskLevel := riskLevel body in
      id ← Env.randomUUID;
      timestamp ← Env.dateNow;
      let chatMessage :=
        ChatMessage.mk id (User.id user) (message body) (isUser body)
          (if truthy riskLevel then riskLevel else None) timestamp in
      now ← Env.dateNow;
      let chatKey := "chat:" +:+ User.id user +:+ ":" +:+ pretty now in
      Kv.set chatKey (VChatMessage chatMessage);;
      createAutomaticAppointment user riskLevel;;
      storeRiskAnalytics riskLevel;;
      mret (json_chat chatMessage)
  end.

(** ** POST /assessment *)

Record AssessmentBody := mkAssessmentBody {
  type : string; scores : list Z; responses : list Z
}.

(** [scores.reduce((sum, score) => sum + score, 0)].  The items are
    integers and the sum is taken in [Z]; the additions of the code, on
    binary64 numbers, give the same as long as the items and the partial
    sums stay below 2^53 in absolute value ([Notions.exactlySummed]). *)
Definition total (scores : list Z) : Z :=
  fold_left (λ sum score, sum + score) scores 0.

(** The scoring part of the handler: the pair [(result, riskLevel)]. *)
Definition scoreAssessment (type : string) (scores : list Z) : string * string :=
  let result := "" in
  let riskLevel := "low" in
  (* PHQ-9 Depression Assessment *)
  let '(result, riskLevel) :=
    if String.eqb type "PHQ-9" then
      let total := total scores in
      if total <=? 4 then ("Minimal Depression", "low")
      else if total <=? 9 then ("Mild Depression", "low")
      else if total <=? 14 then ("Moderate Depression", "moderate")
      else if total <=? 19 then ("Moderately Severe Depression", "high")
      else ("Severe Depression", "crisis")
    else (result, riskLevel) in
  (* GAD-7 Anxiety Assessment *)
  let '(result, riskLevel) :=
    if String.eqb type "GAD-7" then
      let total := total scores in
      if total <=? 4 then ("Minimal Anxiety", "low")
      else if total <=? 9 then ("Mild Anxiety", "low")
      else if total <=? 14 then ("Moderate Anxiety", "moderate")
      else ("Severe Anxiety", "high")
    else (result, riskLevel) in
  (result, riskLevel).

(** "Store analytics data" of the assessment handler *)
Definition storeAssessmentAnalytics (type : string) : M unit :=
  today ← Env.dateNow;
  let analyticsKey := "analytics:assessment:" +:+ isoDate (epochDay today) in
  existing ← Kv.get analyticsKey;
  existingAnalytics ← counterObject existing ∅;
  Kv.set analyticsKey (objectValue (JsObject.countOne existingAnalytics type)).

Definition post_assessment (user : option User.t) (body : AssessmentBody) : M Response :=
  match user with
  | None => mret (json_error "Unauthorized" 401)
  | Some user =>
      let '(result, riskLevel) := scoreAssessment (type body) (scores body) in
      id ← Env.randomUUID;
      timestamp ← Env.dateNow;
      let assessment :=
        Assessment.mk id (User.id user) (type body) (scores body) (responses body)
          result riskLevel timestamp in
      Kv.set ("assessment:" +:+ User.id user +:+ ":" +:+ id) (VAssessment assessment);;
      storeAssessmentAnalytics (type body);;
      mret (json_assessment assessment)
  end.

End Server.

(* ===================================================================== *)
(** * JavaScript numbers used by the admin dashboard *)
(* ===================================================================== *)

Module JsNumber.

(** Counts are integers; as long as they are safe integers (below 2^53 in
    absolute value) JavaScript's additions on them are exact, so sums are
    taken in [Z].  Division, multiplication by 100 and [toFixed] are
    taken on IEEE 754 binary64 numbers. *)
Definition ofZ (z : Z) : float :=
  if z <? 0 then PrimFloat.opp (PrimFloat.of_uint63 (Uint63.of_Z (- z)))
  else PrimFloat.of_uint63 (Uint63.of_Z z).

(** [Number.prototype.toFixed(1)]: with [x] the exact value of the number,
    the integer [n] for which [n / 10 - x] is as close to zero as possible
    (the larger one on a tie), written with one digit after the point.
    Values that are not finite or not below 10^21 are rendered by
    [Number::toString], which is not modelled: [None]. *)
Definition toFixed1 (x : float) : option string :=
  let render (negative : bool) (n : Z) : string :=
    let m := pretty (Z.to_N n) in
    let m := if (String.length m <=? 1)%nat
             then Platform.zeros (2 - String.length m) +:+ m else m in
    let k := String.length m in
    (if negative then "-" else "") +:+
    String.substring 0 (k - 1) m +:+ "." +:+ String.substring (k - 1) 1 m in
  match Prim2SF x with
  | S754_zero _ => Some (render false 0)
  | S754_finite negative m e =>
      if 0 <=? e then
        if 10 ^ 21 <=? Z.pos m * 2 ^ e then None
        else Some (render negative (Z.pos m * 2 ^ e * 10))
      else
        let d := 2 ^ (- e) in
        Some (render negative ((20 * Z.pos m + d) / (2 * d)))
  | S754_infinity _ | S754_nan => None
  end.

End JsNumber.

(* ===================================================================== *)
(** * Analytics of the admin dashboard *)
(* ===================================================================== *)

Module AdminDashboard.

(** One row of [processRiskData].  The [date] column (a locale-dependent
    rendering that the statistics do not read) is left out. *)
Record RiskDay := mkRiskDay {
  Low : Z; Moderate : Z; High : Z; Crisis : Z; Total : Z
}.

(** [xs.slice(-n)] *)
Definition sliceLast {A} (n : nat) (xs : list A) : list A :=
  drop (length xs - n) xs.

(** [riskAnalytics] is [None] when [analytics?.riskAnalytics] is missing. *)
Definition processRiskData (riskAnalytics : option (list Counts)) : list RiskDay :=
  match riskAnalytics with
  | None => []
  | Some items =>
      sliceLast 7
        (map (λ item : Counts,
                let count (name : string) : Z := default 0 (item !! name) in
                mkRiskDay (count "low") (count "moderate") (count "high") (count "crisis")
                          (count "low" + count "moderate" + count "high" + count "crisis"))
             items)
  end.

Record OverallStats := mkOverallStats {
  totalInteractions : Z; crisisCases : Z; highRiskCases : Z; crisisRate : string
}.

(** [None] when the rate is a number [toFixed1] does not render. *)
Definition getOverallStats (riskAnalytics : option (list Counts)) : option OverallStats :=
  let riskData := processRiskData riskAnalytics in
  let totalInteractions := fold_left (λ sum day, sum + Total day) riskData 0 in
  let crisisCases := fold_left (λ sum day, sum + Crisis day) riskData 0 in
  let highRiskCases := fold_left (λ sum day, sum + High day) riskData 0 in
  crisisRate ←
    (if 0 <? totalInteractions
     then JsNumber.toFixed1
            (PrimFloat.mul (PrimFloat.div (JsNumber.ofZ crisisCases)
                                          (JsNumber.ofZ totalInteractions))
                           (JsNumber.ofZ 100))
     else Some "0");
  Some (mkOverallStats totalInteractions crisisCases highRiskCases crisisRate).

End AdminDashboard.

(* ===================================================================== *)
(** * Notions used to state the properties *)
(* ===================================================================== *)

Module Notions.
Import JsString Platform Server.

(** The sum of the items of a questionnaire. *)
Fixpoint sumOf (items : list Z) : Z :=
  match items with
  | [] => 0
  | item :: rest => item + sumOf rest
  end.

(** The items are added without rounding: their absolute values sum to
    less than 2^53, so that every item and every partial sum is a number
    that binary64 holds exactly. *)
Definition exactlySummed (items : list Z) : Prop :=
  sumOf (map Z.abs items) < 2 ^ 53.

(** A questionnaire is valid when it has the expected number of items,
    each in [0,3]. *)
Definition validItems (expected : nat) (items : list Z) : Prop :=
  length items = expected ∧ Forall (λ item, 0 ≤ item ≤ 3) items.

(** ASCII bytes, and strings made of them. *)
Definition isAscii (c : ascii) : bool := (N_of_ascii c <? 128)%N.
Fixpoint asciiString (s : string) : bool :=
  match s with
  | EmptyString => true
  | String c s' => isAscii c && asciiString s'
  end.

(** The first byte of [s], if there is one, does not continue a
    character. *)
Definition startsCharacter (s : string) : bool :=
  match s with
  | EmptyString => true
  | String c _ => negb ((128 <=? N_of_ascii c) && (N_of_ascii c <? 192))%N
  end.

(** A keyword made of ASCII characters whose last one is not the letter i. *)
Fixpoint plainKeyword (k : string) : bool :=
  match k with
  | EmptyString => true
  | String c k' =>
      isAscii c && negb (Ascii.eqb c "i" && String.eqb k' "") && plainKeyword k'
  end.

(** [keyword] occurs in [text] in some letter case: a segment of the text
    has it as its lower-case form. *)
Definition occursIn (keyword text : string) : Prop :=
  ∃ pre mid post, text = pre +:+ mid +:+ post ∧ toLowerCase mid = keyword.

(** The text mentions one of the keywords. *)
Definition mentions (keywords : list string) (text : string) : Prop :=
  ∃ keyword, In keyword keywords ∧ occursIn keyword text.

(** Every object stored under an [analytics:] key is a counter object. *)
Definition analyticsTyped (s : Store) : Prop :=
  ∀ key v, startsWith key "analytics:" = true → s !! key = Some v → ∃ c, v = VCounts c.

(** The count of [name] in the counter object stored under [key]; zero
    when there is no such object or no such property. *)
Definition countAt (s : Store) (key name : string) : Z :=
  match s !! key with
  | Some (VCounts c) => default 0 (c !! name)
  | Some (VObject c _) => default 0 (c !! name)
  | _ => 0
  end.

(** Every object stored under an [analytics:] key is an object used as a
    counter, whose properties may hold strings as well. *)
Definition analyticsObjects (s : Store) : Prop :=
  ∀ key v, startsWith key "analytics:" = true → s !! key = Some v →
           is_Some (properties v).

Definition riskKey (day : Z) : string := "analytics:risk:" +:+ isoDate day.
Definition assessmentCounterKey (day : Z) : string :=
  "analytics:assessment:" +:+ isoDate day.

(** Keys under which appointments are stored, and keys of the daily risk
    counters. *)
Definition isAppointmentKey (key : string) : bool :=
  startsWith key "appointment:" || startsWith key "student-appointment:"
  || startsWith key "counsellor-appointment:".
Definition isRiskCounterKey (key : string) : bool :=
  startsWith key "analytics:risk:".

(** Two prefixes clash when they differ at a position both have. *)
Fixpoint clash (p q : string) : bool :=
  match p, q with
  | String c p', String d q' => if Ascii.eqb c d then clash p' q' else true
  | _, _ => false
  end.

(** The counsellor pool the chat handler reads from the store. *)
Definition counsellorPool (w : World) : list Profile.t :=
  counsellorProfiles
    ((List.filter (λ kv, startsWith kv.1 "user:") (map_to_list (store w))).*2).

(** A sequence of chat submissions handled one after the other. *)
Fixpoint post_chats (requests : list (User.t * ChatBody)) : M unit :=
  match requests with
  | [] => mret tt
  | (user, body) :: rest => post_chat (Some user) body;; post_chats rest
  end.

(** What a run leaves in the store under a key, and the count it leaves
    for a name of a counter. *)
Definition valueAfter {A} (run : option (A * World)) (key : string) : option Value :=
  run ≫= λ r, store r.2 !! key.
Definition countAfter {A} (run : option (A * World)) (key name : string) : option Z :=
  (λ r, countAt (store r.2) key name) <$> run.

(** A world with one student and one counsellor registered, used in the
    examples; its clock starts on 2026-11-01 at 18:20 UTC and advances by
    a millisecond per reading, for a second. *)
Definition exampleWorld : World :=
  mkWorld
    (<["user:c1" := VProfile (Profile.mk "c1" "carol@campus.example" "Carol" "counsellor" 0)]>
       (<["user:s1" := VProfile (Profile.mk "s1" "sam@campus.example" "Sam" "student" 0)]> ∅))
    (λ n, 1793557200123 + Z.of_nat (n `min` 1000)) 0
    (λ n, "uuid-" +:+ pretty n) 0.

Definition sam : User.t := User.mk "s1".

End Notions.

(* ===================================================================== *)
(** * The other handlers of the server *)
(* ===================================================================== *)

Module AuthUser.
(** The user [supabase.auth.admin.createUser] returns in [data.user]. *)
Record t := mk { id : string; email : string }.
End AuthUser.

Module Handlers.
Import JsString Platform Server.

(** The analytics the admin route returns. *)
Record Analytics := mkAnalytics {
  riskAnalytics : list Value;
  assessmentAnalytics : list Value;
  usersByRole : JsObject.t;
  totalAppointments : nat;
  totalUsers : nat
}.

Inductive Reply :=
| reply_error (error : string) (status : Z)
| reply_user (user : AuthUser.t)                      (* { user: data.user } *)
| reply_profile (profile : option Value)              (* { profile } *)
| reply_messages (messages : list Value)              (* { messages } *)
| reply_appointment (appointment : Appointment.t)     (* { success: true, appointment } *)
| reply_appointments (appointments : list Value)      (* { appointments } *)
| reply_analytics (analytics : Analytics)
| reply_counsellors (counsellors : list Value).       (* { counsellors } *)

(** [value.role] compared with a string: only a profile has a string
    [role]. *)
Definition roleIs (v : Value) (lit : string) : bool :=
  match v with
  | VProfile p => String.eqb (Profile.role p) lit
  | _ => false
  end.

(** ** POST /signup *)

Record SignupBody := mkSignupBody {
  email : string; password : string; name : string; role : string
}.

(** What [supabase.auth.admin.createUser] answered: an error with its
    message, or the created user. *)
Inductive CreateUserResult :=
| createUser_error (message : string)
| createUser_data (user : AuthUser.t).

Definition post_signup (created : CreateUserResult) (body : SignupBody) : M Reply :=
  match created with
  | createUser_error message => mret (reply_error message 400)
  | createUser_data user =>
      created_at ← Env.dateNow;
      Kv.set ("user:" +:+ AuthUser.id user)
        (VProfile (Profile.mk (AuthUser.id user) (AuthUser.email user)
                     (name body) (role body) created_at));;
      mret (reply_user user)
  end.

(** ** GET /profile *)

Definition get_profile (user : option User.t) : M Reply :=
  match user with
  | None => mret (reply_error "Unauthorized" 401)
  | Some user =>
      profile ← Kv.get ("user:" +:+ User.id user);
      mret (reply_profile profile)
  end.

(** ** GET /chat/:userId *)

(** [new Date(value.timestamp).getTime()]; undefined for the objects that
    have no [timestamp]. *)
Definition timestampOf (v : Value) : option Z :=
  match v with
  | VChatMessage m => Some (ChatMessage.timestamp m)
  | VAssessment a => Some (Assessment.timestamp a)
  | _ => None
  end.

(** [Array.prototype.sort] with the comparator [(a, b) => time(a) - time(b)].
    The sort is stable, which fixes its result; it is taken here as an
    insertion sort that puts an element before the equal ones that followed
    it. *)
Fixpoint insertByTime (x : Z * Value) (sorted : list (Z * Value)) : list (Z * Value) :=
  match sorted with
  | [] => [x]
  | y :: rest => if x.1 <=? y.1 then x :: y :: rest else y :: insertByTime x rest
  end.

Definition sortByTime (keyed : list (Z * Value)) : list (Z * Value) :=
  foldr insertByTime [] keyed.

(** The messages sorted by timestamp.  When some object has no timestamp
    the comparator yields NaN and the order is the engine's: such runs are
    left out of the model. *)
Definition sortByTimestamp (messages : list Value) : M (list Value) :=
  match mapM (λ v, (λ t, (t, v)) <$> timestampOf v) messages with
  | Some keyed => mret ((sortByTime keyed).*2)
  | None => Env.stuck
  end.

Definition get_chat (user : option User.t) (userId : string) : M Reply :=
  match user with
  | None => mret (reply_error "Unauthorized" 401)
  | Some _ =>
      chatMessages ← Kv.getByPrefix ("chat:" +:+ userId +:+ ":");
      messages ← sortByTimestamp chatMessages;
      mret (reply_messages messages)
  end.

(** ** POST /appointment *)

Record AppointmentBody := mkAppointmentBody {
  counsellorId : string; date : string; time : string
}.

Definition post_appointment (user : option User.t) (body : AppointmentBody) : M Reply :=
  match user with
  | None => mret (reply_error "Unauthorized" 401)
  | Some user =>
      id ← Env.randomUUID;
      created_at ← Env.dateNow;
      let appointment :=
        Appointment.mk id (User.id user) (counsellorId body) (date body) (time body)
          "scheduled" None created_at in
      Kv.set ("appointment:" +:+ id) (VAppointment appointment);;
      Kv.set ("student-appointment:" +:+ User.id user +:+ ":" +:+ id)
             (VAppointment appointment);;
      Kv.set ("counsellor-appointment:" +:+ counsellorId body +:+ ":" +:+ id)
             (VAppointment appointment);;
      mret (reply_appointment appointment)
  end.

(** ** GET /appointments *)

(** Reading [profile.role] of a missing profile throws; the handler's
    [catch] answers 500. *)
Definition get_appointments (user : option User.t) : M Reply :=
  match user with
  | None => mret (reply_error "Unauthorized" 401)
  | Some user =>
      profile ← Kv.get ("user:" +:+ User.id user);
      match profile with
      | None => mret (reply_error "Failed to fetch appointments" 500)
      | Some profile =>
          appointments ←
            (if roleIs profile "student" then
               Kv.getByPrefix ("student-appointment:" +:+ User.id user +:+ ":")
             else if roleIs profile "counsellor" then
               Kv.getByPrefix ("counsellor-appointment:" +:+ User.id user +:+ ":")
             else mret []);
          mret (reply_appointments appointments)
      end
  end.

(** ** GET /analytics *)

(** The property name [user.role] turns into when used as a key: the role
    of a profile, the decimal form of a numeric [role] property of an
    object used as a counter, and "undefined" for an object without
    [role]. *)
Definition roleKey (v : Value) : string :=
  match v with
  | VProfile p => Profile.role p
  | VCounts c =>
      match c !! "role" with
      | Some n => pretty n
      | None => "undefined"
      end
  | VObject c _ =>
      match c !! "role" with
      | Some n => pretty n
      | None => "undefined"
      end
  | _ => "undefined"
  end.

(** [allUsers.reduce((acc, user) => { acc[user.role] = (acc[user.role] || 0) + 1;
    return acc }, {})] *)
Definition countByRole (allUsers : list Value) : JsObject.t :=
  fold_left (λ (acc : JsObject.t) user, JsObject.countOne acc (roleKey user))
            allUsers (JsObject.ofCounts ∅).

Definition get_analytics (user : option User.t) : M Reply :=
  match user with
  | None => mret (reply_error "Unauthorized" 401)
  | Some user =>
      profile ← Kv.get ("user:" +:+ User.id user);
      match profile with
      | None => mret (reply_error "Failed to fetch analytics" 500)
      | Some profile =>
          if negb (roleIs profile "admin") then
            mret (reply_error "Access denied - Admin only" 403)
          else
            riskAnalytics ← Kv.getByPrefix "analytics:risk:";
            assessmentAnalytics ← Kv.getByPrefix "analytics:assessment:";
            allUsers ← Kv.getByPrefix "user:";
            let usersByRole := countByRole allUsers in
            appointments ← Kv.getByPrefix "appointment:";
            mret (reply_analytics
                    (mkAnalytics riskAnalytics assessmentAnalytics usersByRole
                       (length appointments) (length allUsers)))
      end
  end.

(** ** GET /counsellors *)

Definition get_counsellors : M Reply :=
  allUsers ← Kv.getByPrefix "user:";
  let counsellors := List.filter (λ user, roleIs user "counsellor") allUsers in
  mret (reply_counsellors counsellors).

End Handlers.

(* ===================================================================== *)
(** * The counsellor dashboard (counsellor-dashboard.tsx) *)
(* ===================================================================== *)

Module CounsellorDashboard.
Import Platform.

(** The state update of [updateAppointmentStatus]:
    [prev.map(apt => apt.id === appointmentId ? { ...apt, status: newStatus } : apt)]. *)
Definition updateAppointmentStatus
    (appointments : list Appointment.t) (appointmentId newStatus : string)
    : list Appointment.t :=
  map (λ apt,
         if String.eqb (Appointment.id apt) appointmentId
         then Appointment.mk (Appointment.id apt) (Appointment.studentId apt)
                (Appointment.counsellorId apt) (Appointment.date apt)
                (Appointment.time apt) newStatus (Appointment.riskLevel apt)
                (Appointment.created_at apt)
         else apt)
      appointments.

(** [now] is the time [new Date()] reads. *)
Definition getTodaysAppointments (now : Z) (appointments : list Appointment.t)
    : list Appointment.t :=
  let today := isoDate (epochDay now) in
  List.filter (λ apt, String.eqb (Appointment.date apt) today
                      && negb (String.eqb (Appointment.status apt) "cancelled"))
              appointments.

Definition getEmergencyAppointments (appointments : list Appointment.t)
    : list Appointment.t :=
  List.filter (λ apt, String.eqb (Appointment.status apt) "auto-scheduled"
                      || Server.strictEq (Appointment.riskLevel apt) "crisis")
              appointments.

End CounsellorDashboard.

(* ===================================================================== *)
(** * The charts of the admin dashboard *)
(* ===================================================================== *)

Module AdminCharts.
Import AdminDashboard.

Record PieSlice := mkPieSlice { name : string; value : Z; color : string }.

Definition getRiskPieData (riskAnalytics : option (list Counts)) : list PieSlice :=
  let riskData := processRiskData riskAnalytics in
  let totals :=
    fold_left (λ acc day,
                 mkRiskDay (Low acc + Low day) (Moderate acc + Moderate day)
                           (High acc + High day) (Crisis acc + Crisis day) 0)
              riskData (mkRiskDay 0 0 0 0 0) in
  List.filter (λ item, 0 <? value item)
    [ mkPieSlice "Low Risk" (Low totals) "#00C49F";
      mkPieSlice "Moderate Risk" (Moderate totals) "#FFBB28";
      mkPieSlice "High Risk" (High totals) "#FF8042";
      mkPieSlice "Crisis" (Crisis totals) "#FF4444" ].

(** The rows the dashboard reads out of the objects the analytics route
    returns: the numbers of an object used as a counter; of any other
    object every count reads as undefined. *)
Definition rowsOf (riskAnalytics : list Value) : list Counts :=
  map (λ v, match v with
            | VCounts c => c
            | VObject c _ => c
            | _ => ∅
            end) riskAnalytics.

End AdminCharts.

(* ===================================================================== *)
(** * Sending a chat message (student-dashboard.tsx) *)
(* ===================================================================== *)

Module StudentDashboard.
Import JsString Classifier Server.

(** The string with the given bytes. *)
Definition utf8 (bytes : list N) : string :=
  fold_right (λ b s, String (ascii_of_N b) s) "" bytes.

(** The white space and line terminators that [String.prototype.trim]
    strips, each in its UTF-8 encoding: tab, line feed, vertical tab, form
    feed, carriage return, space, U+00A0, U+1680, U+2000 to U+200A, U+2028,
    U+2029, U+202F, U+205F, U+3000 and U+FEFF. *)
Definition whiteSpace : list string :=
  [ utf8 [9]; utf8 [10]; utf8 [11]; utf8 [12]; utf8 [13]; utf8 [32];
    utf8 [194; 160]; utf8 [225; 154; 128];
    utf8 [226; 128; 128]; utf8 [226; 128; 129]; utf8 [226; 128; 130];
    utf8 [226; 128; 131]; utf8 [226; 128; 132]; utf8 [226; 128; 133];
    utf8 [226; 128; 134]; utf8 [226; 128; 135]; utf8 [226; 128; 136];
    utf8 [226; 128; 137]; utf8 [226; 128; 138];
    utf8 [226; 128; 168]; utf8 [226; 128; 169]; utf8 [226; 128; 175];
    utf8 [226; 129; 159]; utf8 [227; 128; 128]; utf8 [239; 187; 191] ]%N.

(** [s] without the prefix [p], when it starts with it. *)
Fixpoint dropPrefix (s p : string) {struct p} : option string :=
  match p with
  | EmptyString => Some s
  | String c p' =>
      match s with
      | EmptyString => None
      | String d s' => if Ascii.eqb c d then dropPrefix s' p' else None
      end
  end.

(** [s] without the first of the prefixes it starts with. *)
Fixpoint dropOneOf (prefixes : list string) (s : string) : option string :=
  match prefixes with
  | [] => None
  | p :: rest =>
      match dropPrefix s p with
      | Some s' => Some s'
      | None => dropOneOf rest s
      end
  end.

(** [s] without the white space character it starts with, if any. *)
Definition dropWhiteSpace (s : string) : option string := dropOneOf whiteSpace s.

(** [String.prototype.trimStart]: white space is dropped from the start as
    long as there is some, which takes no more steps than the string has
    bytes. *)
Fixpoint trimStartFrom (steps : nat) (s : string) : string :=
  match steps with
  | O => s
  | S steps' =>
      match dropWhiteSpace s with
      | Some rest => trimStartFrom steps' rest
      | None => s
      end
  end.

Definition trimStart (s : string) : string := trimStartFrom (String.length s) s.

(** [String.prototype.trimEnd]: the string up to the point from which on
    there is white space only. *)
Fixpoint trimEnd (s : string) : string :=
  match s with
  | EmptyString => EmptyString
  | String c s' =>
      match trimStart s with
      | EmptyString => EmptyString
      | _ => String c (trimEnd s')
      end
  end.

(** [String.prototype.trim] *)
Definition trim (s : string) : string := trimEnd (trimStart s).

Definition crisisResponses : list string :=
  [ "I'm very concerned about what you're going through. Your safety is my " +:+
    "top priority. I've scheduled an emergency appointment for you with a " +:+
    "counsellor. Please also contact emergency services if you're in " +:+
    "immediate danger: National Suicide Prevention Lifeline: 988. You are not " +:+
    "alone, and help is available.";
    "This sounds like you're in crisis, and I want you to know that your life " +:+
    "has value. I've arranged urgent support for you. Please reach out to " +:+
    "crisis helpline: 988 or visit your nearest emergency room if you're in " +:+
    "immediate danger. A counsellor appointment has been automatically " +:+
    "scheduled." ].

Definition highResponses : list string :=
  [ "I can hear that you're struggling with something really difficult right " +:+
    "now. These feelings are valid, and seeking help shows strength. I've " +:+
    "found some resources that might help, and I'd strongly encourage you to " +:+
    "book an appointment with one of our counsellors. Would you like me to " +:+
    "help you with that?";
    "It sounds like you're going through a really tough time. Please know " +:+
    "that you don't have to face this alone. I'd recommend speaking with a " +:+
    "professional counsellor who can provide personalized support. Check out " +:+
    "our resources section for immediate coping strategies." ].

Definition moderateResponses : list string :=
  [ "Thank you for sharing that with me. It's completely normal to feel this " +:+
    "way sometimes. Here are some coping strategies that might help: deep " +:+
    "breathing exercises, grounding techniques, or talking to someone you " +:+
    "trust. Our resources section has some helpful videos and guides.";
    "I understand you're dealing with some challenging feelings. Self-care is " +:+
    "important during times like this. Consider activities like mindfulness, " +:+
    "gentle exercise, or journaling. If these feelings persist, don't " +:+
    "hesitate to reach out to a counsellor." ].

Definition lowResponses : list string :=
  [ "I hear you, and I'm glad you felt comfortable sharing. It's great that " +:+
    "you're being proactive about your mental health. Our resources section " +:+
    "has some helpful materials on maintaining wellness and building " +:+
    "resilience.";
    "Thank you for reaching out. Taking care of your mental health is " +:+
    "important. Feel free to explore our peer support forums to connect with " +:+
    "others, or check out our resources for wellness tips." ].

(** [responses[riskLevel as keyof typeof responses] || responses.low].  For
    a name that [responses] inherits from [Object.prototype] the value is
    the inherited function or object, none of whose indexed properties is
    defined: the empty list. *)
Definition categoryResponses (riskLevel : string) : list string :=
  if String.eqb riskLevel "crisis" then crisisResponses
  else if String.eqb riskLevel "high" then highResponses
  else if String.eqb riskLevel "moderate" then moderateResponses
  else if JsObject.inherited riskLevel then []
  else lowResponses.

(** [random] is the number [Math.random()] returns, a dyadic rational in
    [0, 1); its product with the number of responses and the floor are
    exact.  The result is undefined ([None]) when the index is out of range:
    for no [random] in [0, 1) in one of the four categories, and always for
    an inherited name. *)
Definition generateAIResponse (message riskLevel : string) (random : QArith_base.Q)
    : option string :=
  let categoryResponses := categoryResponses riskLevel in
  categoryResponses !!
    Z.to_nat (Qround.Qfloor
                (QArith_base.Qmult random
                   (QArith_base.inject_Z (Z.of_nat (length categoryResponses))))).

(** What [sendMessage] does on the server: nothing for a blank message,
    otherwise the message is posted with the tier the classifier gives it,
    then the reply is posted without a tier.  [user] is the user the access
    token stands for.  The updates of the component's own state (the chat
    list shown and the notifications) are not part of this model. *)
Definition sendMessage (user : option User.t) (currentMessage : string)
    (random : QArith_base.Q) : M unit :=
  match trim currentMessage with
  | EmptyString => mret tt
  | _ =>
      let riskLevel := assessRiskBasedOnKeywords currentMessage in
      post_chat user (mkChatBody currentMessage true (Some riskLevel));;
      match generateAIResponse currentMessage riskLevel random with
      | Some aiResponse =>
          post_chat user (mkChatBody aiResponse false None);;
          mret tt
      | None => Env.stuck
      end
  end.

End StudentDashboard.

(* ===================================================================== *)
(** * Further notions used to state the properties *)
(* ===================================================================== *)

Module Views.
Import JsString Platform Server Handlers.

(** The values [getByPrefix] returns on a store. *)
Definition valuesWithPrefix (s : Store) (prefix : string) : list Value :=
  (List.filter (λ kv, startsWith kv.1 prefix) (map_to_list s)).*2.

(** [a] is not later than [b], for objects that carry a timestamp. *)
Definition notLater (a b : Value) : Prop :=
  match timestampOf a, timestampOf b with
  | Some ta, Some tb => ta ≤ tb
  | _, _ => False
  end.

(** The appointment with another status. *)
Definition withStatus (apt : Appointment.t) (status : string) : Appointment.t :=
  Appointment.mk (Appointment.id apt) (Appointment.studentId apt)
    (Appointment.counsellorId apt) (Appointment.date apt) (Appointment.time apt)
    status (Appointment.riskLevel apt) (Appointment.created_at apt).

(** The strings one after the other. *)
Fixpoint join (parts : list string) : string :=
  match parts with
  | [] => ""
  | part :: rest => part +:+ join rest
  end.

(** A message made of white space only (the empty message included). *)
Definition blank (s : string) : Prop :=
  ∃ spaces,
    Forall (λ space, space ∈ StudentDashboard.whiteSpace) spaces ∧ s = join spaces.

(** The number of the users listed whose role, as a property name, is
    [role]. *)
Definition usersWithRole (role : string) (allUsers : list Value) : nat :=
  length (List.filter (λ user, String.eqb (roleKey user) role) allUsers).

(** The sum of the values of the slices of a pie chart. *)
Definition pieTotal (slices : list AdminCharts.PieSlice) : Z :=
  foldr (λ slice sum, AdminCharts.value slice + sum) 0 slices.

(** All counts of the rows are non-negative. *)
Definition nonNegative (rows : list Counts) : Prop :=
  Forall (λ row : Counts, ∀ name n, row !! name = Some n → 0 ≤ n) rows.

(** The example world after two messages of the student, stored under keys
    whose order is not the order of their times. *)
Definition exampleChatWorld : World :=
  mkWorld
    (<["chat:s1:1793557100900" :=
         VChatMessage (ChatMessage.mk "m-2" "s1" "and worried" true (Some "moderate")
                         1793557100900)]>
       (<["chat:s1:1793557100100" :=
            VChatMessage (ChatMessage.mk "m-1" "s1" "I feel sad" true (Some "moderate")
                            1793557100100)]>
          (store Notions.exampleWorld)))
    (clock Notions.exampleWorld) 0 (uuid Notions.exampleWorld) 0.

(** The example world with an admin registered as well. *)
Definition exampleAdminWorld : World :=
  mkWorld
    (<["user:a1" := VProfile (Profile.mk "a1" "root@campus.example" "Root" "admin" 0)]>
       (store Notions.exampleWorld))
    (clock Notions.exampleWorld) 0 (uuid Notions.exampleWorld) 0.

End Views.

(* ===================================================================== *)
(** * Properties of the string primitives *)
(* ===================================================================== *)

Module JsStringFacts.
Import JsString Notions.

Lemma lower_kelvin rest : toLowerCase (kelvinSign +:+ rest) = String "k" (toLowerCase rest).
Proof. reflexivity. Qed.
Lemma lower_idot rest :
  toLowerCase (capitalIWithDot +:+ rest) = String "i" (String "204" (String "135" (toLowerCase rest))).
Proof. reflexivity. Qed.

Lemma lower_other c rest :
  startsWith (String c rest) kelvinSign = false →
  startsWith (String c rest) capitalIWithDot = false →
  toLowerCase (String c rest) = String (lowerChar c) (toLowerCase rest).
Proof.
  intros H1 H2.
  destruct c as [[] [] [] [] [] [] [] []]; try reflexivity;
    (destruct rest as [|d rest]; [reflexivity|]);
    destruct d as [[] [] [] [] [] [] [] []]; try reflexivity;
    try (cbn in H2; discriminate H2);
    (destruct rest as [|e rest]; [reflexivity|]);
    destruct e as [[] [] [] [] [] [] [] []]; try reflexivity;
    cbn in H1; discriminate H1.
Qed.

Lemma append_nil (t : string) : "" +:+ t = t.
Proof. reflexivity. Qed.
Lemma append_cons (c : ascii) (s t : string) : String c s +:+ t = String c (s +:+ t).
Proof. reflexivity. Qed.

Lemma startsWith_app (k t : string) : startsWith (k +:+ t) k = true.
Proof.
  induction k as [|c k IH]; simpl; [reflexivity|].
  now rewrite Ascii.eqb_refl.
Qed.

Lemma startsWith_inv (s k : string) :
  startsWith s k = true → ∃ t, s = k +:+ t.
Proof.
  revert s; induction k as [|c k IH]; intros s H; simpl in *.
  - now exists s.
  - destruct s as [|d s]; [discriminate|].
    destruct (Ascii.eqb_spec c d) as [->|]; [|discriminate].
    destruct (IH _ H) as [t ->]. now exists t.
Qed.

Lemma includes_startsWith (s k : string) :
  startsWith s k = true → includes s k = true.
Proof. intros H. destruct s; simpl; now rewrite H. Qed.

Lemma includes_app (pre k post : string) :
  includes (pre +:+ k +:+ post) k = true.
Proof.
  induction pre as [|c pre IH].
  - change (includes (k +:+ post) k = true).
    apply includes_startsWith, startsWith_app.
  - change (includes (String c (pre +:+ k +:+ post)) k = true).
    simpl. rewrite IH. now destruct (startsWith _ _).
Qed.

Lemma includes_inv (s k : string) :
  includes s k = true → ∃ pre post, s = pre +:+ k +:+ post.
Proof.
  induction s as [|c s IH]; simpl; intros H.
  - destruct (startsWith "" k) eqn:E; [|discriminate].
    destruct (startsWith_inv _ _ E) as [t Ht]. now exists "", t.
  - destruct (startsWith (String c s) k) eqn:E.
    + destruct (startsWith_inv _ _ E) as [t Ht]. now exists "", t.
    + destruct (IH H) as (pre & post & ->). now exists (String c pre), post.
Qed.

(** Induction along the cases of [toLowerCase]. *)
Lemma toLowerCase_cases (P : string → Prop) :
  P "" →
  (∀ rest, P rest → P (kelvinSign +:+ rest)) →
  (∀ rest, P rest → P (capitalIWithDot +:+ rest)) →
  (∀ c rest,
      startsWith (String c rest) kelvinSign = false →
      startsWith (String c rest) capitalIWithDot = false →
      P rest → P (String c rest)) →
  ∀ s, P s.
Proof.
  intros Hnil Hkelvin Hidot Hother s.
  assert (∀ n s, (String.length s ≤ n)%nat → P s) as Hall; [|by apply (Hall (String.length s))].
  clear s. induction n as [|n IH]; intros s Hlen.
  - destruct s; [exact Hnil|simpl in Hlen; lia].
  - destruct s as [|c rest]; [exact Hnil|].
    destruct (startsWith (String c rest) kelvinSign) eqn:E1.
    { destruct (startsWith_inv _ _ E1) as [t Ht]. rewrite Ht. apply Hkelvin, IH.
      injection Ht as _ ->. simpl in Hlen. change ("" +:+ t) with t in Hlen. lia. }
    destruct (startsWith (String c rest) capitalIWithDot) eqn:E2.
    { destruct (startsWith_inv _ _ E2) as [t Ht]. rewrite Ht. apply Hidot, IH.
      injection Ht as _ ->. simpl in Hlen. change ("" +:+ t) with t in Hlen. lia. }
    apply Hother; [assumption..|]. apply IH. simpl in Hlen. lia.
Qed.

Lemma lowerChar_ascii (c : ascii) : isAscii (lowerChar c) = isAscii c.
Proof. by destruct c as [[] [] [] [] [] [] [] []]. Qed.

Lemma isAscii_not_lead (c : ascii) (rest : string) :
  isAscii c = true →
  startsWith (String c rest) kelvinSign = false ∧
  startsWith (String c rest) capitalIWithDot = false.
Proof. by destruct c as [[] [] [] [] [] [] [] []]. Qed.

(** A segment whose lower-case form is ASCII is lower-cased on its own,
    whatever follows it. *)
Lemma toLowerCase_app_ascii (mid post : string) :
  asciiString (toLowerCase mid) = true →
  toLowerCase (mid +:+ post) = toLowerCase mid +:+ toLowerCase post.
Proof.
  revert mid. apply (toLowerCase_cases (λ mid, asciiString (toLowerCase mid) = true →
    toLowerCase (mid +:+ post) = toLowerCase mid +:+ toLowerCase post)).
  - reflexivity.
  - intros rest IH H. change ((kelvinSign +:+ rest) +:+ post) with (kelvinSign +:+ (rest +:+ post)).
    rewrite !lower_kelvin in *. simpl in H. simpl. by rewrite IH.
  - intros rest _ H. rewrite lower_idot in H. discriminate H.
  - intros c rest H1 H2 IH H. rewrite (lower_other _ _ H1 H2) in H |- *.
    simpl in H. apply andb_true_iff in H as [Hc H]. rewrite lowerChar_ascii in Hc.
    destruct (isAscii_not_lead c (rest +:+ post) Hc) as [H1' H2'].
    change (String c rest +:+ post) with (String c (rest +:+ post)).
    rewrite (lower_other _ _ H1' H2'). simpl. by rewrite IH.
Qed.

Lemma startsWith_app_clean (c : ascii) (rest tail lead : string) :
  startsCharacter tail = true →
  lead = kelvinSign ∨ lead = capitalIWithDot →
  startsWith (String c rest) lead = false →
  startsWith (String c (rest +:+ tail)) lead = false.
Proof.
  intros Htail Hlead H.
  destruct Hlead as [-> | ->]; unfold kelvinSign, capitalIWithDot in *; cbn [startsWith] in *.
  - destruct (Ascii.eqb "226" c); [|reflexivity].
    destruct rest as [|d rest]; rewrite ?append_cons, ?append_nil.
    + destruct tail as [|e tail]; [reflexivity|].
      destruct (Ascii.eqb_spec "132" e) as [<-|]; [discriminate Htail|reflexivity].
    + destruct (Ascii.eqb "132" d); [|reflexivity].
      destruct rest as [|e rest]; rewrite ?append_cons, ?append_nil; [|exact H].
      destruct tail as [|e tail]; [reflexivity|].
      destruct (Ascii.eqb_spec "170" e) as [<-|]; [discriminate Htail|reflexivity].
  - destruct (Ascii.eqb "196" c); [|reflexivity].
    destruct rest as [|d rest]; rewrite ?append_cons, ?append_nil; [|exact H].
    destruct tail as [|e tail]; [reflexivity|].
    destruct (Ascii.eqb_spec "176" e) as [<-|]; [discriminate Htail|reflexivity].
Qed.

(** Lower-casing distributes over a split at the start of a character. *)
Lemma toLowerCase_app_clean (pre tail : string) :
  startsCharacter tail = true →
  toLowerCase (pre +:+ tail) = toLowerCase pre +:+ toLowerCase tail.
Proof.
  intros Htail. revert pre.
  apply (toLowerCase_cases (λ pre,
    toLowerCase (pre +:+ tail) = toLowerCase pre +:+ toLowerCase tail)).
  - reflexivity.
  - intros rest IH. change ((kelvinSign +:+ rest) +:+ tail) with (kelvinSign +:+ (rest +:+ tail)).
    rewrite !lower_kelvin. simpl. by rewrite IH.
  - intros rest IH.
    change ((capitalIWithDot +:+ rest) +:+ tail) with (capitalIWithDot +:+ (rest +:+ tail)).
    rewrite !lower_idot. simpl. by rewrite IH.
  - intros c rest H1 H2 IH.
    change (String c rest +:+ tail) with (String c (rest +:+ tail)).
    rewrite (lower_other c rest H1 H2).
    rewrite (lower_other c (rest +:+ tail)).
    + simpl. by rewrite IH.
    + apply startsWith_app_clean; auto.
    + apply startsWith_app_clean; auto.
Qed.

Lemma startsWith_nil (s : string) : startsWith s "" = true.
Proof. by destruct s. Qed.

Lemma startsWith_segment (s t p : string) :
  startsWith s p = true → startsWith (s +:+ t) p = true.
Proof.
  revert s. induction p as [|c p IH]; intros s H; [apply startsWith_nil|].
  destruct s as [|d s]; [discriminate H|]. rewrite append_cons. cbn [startsWith] in *.
  destruct (Ascii.eqb c d); [by apply IH|discriminate H].
Qed.

Lemma startsWith_app_false (s t p : string) :
  startsWith (s +:+ t) p = false → startsWith s p = false.
Proof.
  intros H. destruct (startsWith s p) eqn:E; [|reflexivity].
  by rewrite (startsWith_segment _ t _ E) in H.
Qed.

Lemma plainKeyword_ascii (k : string) : plainKeyword k = true → asciiString k = true.
Proof.
  induction k as [|c k IH]; [reflexivity|]. cbn [plainKeyword asciiString].
  rewrite !andb_true_iff. intros [[Hc _] Hk]. auto.
Qed.

(** A segment that lower-cases to ASCII starts a character. *)
Lemma ascii_segment_starts (mid post : string) :
  mid ≠ "" → asciiString (toLowerCase mid) = true → startsCharacter (mid +:+ post) = true.
Proof.
  intros Hmid H. destruct mid as [|c rest]; [done|]. rewrite append_cons.
  destruct c as [[] [] [] [] [] [] [] []]; try reflexivity; simpl in H; discriminate H.
Qed.

Lemma occursIn_includes (keyword text : string) :
  asciiString keyword = true → occursIn keyword text →
  includes (toLowerCase text) keyword = true.
Proof.
  intros Hascii (pre & mid & post & -> & Hmid).
  destruct (decide (mid = "")) as [->|Hne].
  { simpl in Hmid. subst keyword. apply includes_startsWith, startsWith_nil. }
  rewrite <- Hmid in Hascii.
  rewrite toLowerCase_app_clean by (by apply ascii_segment_starts).
  rewrite toLowerCase_app_ascii by assumption.
  rewrite Hmid. apply includes_app.
Qed.

(** A keyword at the start of the lower-cased text is the lower-case form
    of a prefix of the text. *)
Lemma startsWith_lower_inv (text keyword : string) :
  plainKeyword keyword = true →
  startsWith (toLowerCase text) keyword = true →
  ∃ mid post, text = mid +:+ post ∧ toLowerCase mid = keyword.
Proof.
  revert text keyword.
  apply (toLowerCase_cases (λ text, ∀ keyword,
    plainKeyword keyword = true →
    startsWith (toLowerCase text) keyword = true →
    ∃ mid post, text = mid +:+ post ∧ toLowerCase mid = keyword)).
  - intros [|c k] _ H; [by exists "", ""|discriminate H].
  - intros rest IH [|c k] Hk H; [by exists "", (kelvinSign +:+ rest)|].
    rewrite lower_kelvin in H. cbn [startsWith plainKeyword] in H, Hk.
    apply andb_true_iff in Hk as [_ Hk].
    destruct (Ascii.eqb_spec c "k") as [->|]; [|discriminate H].
    destruct (IH k Hk H) as (mid & post & -> & Hmid).
    exists (kelvinSign +:+ mid), post. split; [reflexivity|].
    by rewrite lower_kelvin, Hmid.
  - intros rest _ [|c k] Hk H; [by exists "", (capitalIWithDot +:+ rest)|].
    rewrite lower_idot in H. cbn [startsWith plainKeyword] in H, Hk.
    destruct (Ascii.eqb_spec c "i") as [->|]; [|discriminate H].
    destruct k as [|d k]; [cbn in Hk; discriminate Hk|]. cbn [startsWith] in H.
    destruct (Ascii.eqb_spec d "204") as [->|]; [|discriminate H].
    cbn in Hk. discriminate Hk.
  - intros c rest H1 H2 IH [|d k] Hk H; [by exists "", (String c rest)|].
    rewrite (lower_other _ _ H1 H2) in H. cbn [startsWith plainKeyword] in H, Hk.
    apply andb_true_iff in Hk as [_ Hk].
    destruct (Ascii.eqb_spec d (lowerChar c)) as [->|]; [|discriminate H].
    destruct (IH k Hk H) as (mid & post & -> & Hmid).
    exists (String c mid), post. split; [reflexivity|].
    rewrite lower_other, Hmid; [reflexivity|by eapply startsWith_app_false..].
Qed.

Lemma occursIn_cons (keyword pre text : string) :
  occursIn keyword text → occursIn keyword (pre +:+ text).
Proof.
  intros (p & mid & post & -> & Hmid). exists (pre +:+ p), mid, post. split; [|exact Hmid].
  induction pre as [|c pre IH]; [reflexivity|]. rewrite !append_cons. by rewrite IH.
Qed.

Lemma includes_occursIn (keyword text : string) :
  plainKeyword keyword = true →
  includes (toLowerCase text) keyword = true → occursIn keyword text.
Proof.
  intros Hk. revert text.
  assert (∀ text, startsWith (toLowerCase text) keyword = true → occursIn keyword text)
    as Hstart.
  { intros text H. destruct (startsWith_lower_inv text keyword Hk H) as (mid & post & -> & Hmid).
    by exists "", mid, post. }
  assert (∀ c rest, isAscii c = false → startsWith (String c rest) keyword = true →
                    keyword = "") as Hhead.
  { intros c rest Hc H. destruct keyword as [|d k]; [reflexivity|].
    cbn [startsWith plainKeyword] in H, Hk.
    destruct (Ascii.eqb_spec d c) as [->|]; [|discriminate H].
    rewrite Hc in Hk. discriminate Hk. }
  apply (toLowerCase_cases (λ text,
    includes (toLowerCase text) keyword = true → occursIn keyword text)).
  - intros H. apply Hstart. simpl in H |- *. by destruct (startsWith "" keyword).
  - intros rest IH H.
    destruct (startsWith (toLowerCase (kelvinSign +:+ rest)) keyword) eqn:E; [by apply Hstart|].
    rewrite lower_kelvin in H, E. cbn [includes] in H. rewrite E in H.
    by apply occursIn_cons, IH.
  - intros rest IH H.
    destruct (startsWith (toLowerCase (capitalIWithDot +:+ rest)) keyword) eqn:E;
      [by apply Hstart|].
    rewrite lower_idot in H, E. cbn [includes] in H. rewrite E in H.
    destruct (startsWith (String "204" _) keyword) eqn:E1.
    { apply Hhead in E1; [|reflexivity]. subst keyword. by rewrite startsWith_nil in E. }
    destruct (startsWith (String "135" _) keyword) eqn:E2.
    { apply Hhead in E2; [|reflexivity]. subst keyword. by rewrite startsWith_nil in E. }
    by apply occursIn_cons, IH.
  - intros c rest H1 H2 IH H.
    destruct (startsWith (toLowerCase (String c rest)) keyword) eqn:E; [by apply Hstart|].
    rewrite (lower_other _ _ H1 H2) in H, E. cbn [includes] in H. rewrite E in H.
    apply (occursIn_cons keyword (String c "") rest), IH, H.
Qed.

Lemma includes_iff_occursIn (keyword text : string) :
  plainKeyword keyword = true →
  includes (toLowerCase text) keyword = true ↔ occursIn keyword text.
Proof.
  intros Hk. split; [by apply includes_occursIn|].
  by apply occursIn_includes, plainKeyword_ascii.
Qed.

End JsStringFacts.

(* ===================================================================== *)
(** * Properties of the classifier *)
(* ===================================================================== *)

Module ClassifierFacts.
Import JsString JsStringFacts Classifier Notions.

Lemma keywords_plain (keyword : string) :
  In keyword (crisisKeywords ++ highRiskKeywords ++ moderateRiskKeywords) →
  plainKeyword keyword = true.
Proof.
  unfold crisisKeywords, highRiskKeywords, moderateRiskKeywords. simpl.
  intros H; repeat (destruct H as [<-|H]; [reflexivity|]); destruct H.
Qed.

(** A test of the classifier succeeds exactly when the message mentions a
    keyword of the list. *)
Lemma some_includes_iff (keywords : list string) (message : string) :
  (∀ keyword, In keyword keywords → plainKeyword keyword = true) →
  existsb (λ keyword, includes (toLowerCase message) keyword) keywords = true
  ↔ mentions keywords message.
Proof.
  intros Hplain. rewrite existsb_exists. unfold mentions.
  split; intros (keyword & Hin & H); exists keyword; (split; [exact Hin|]);
    by apply (includes_iff_occursIn keyword message (Hplain keyword Hin)).
Qed.

Lemma some_includes_false (keywords : list string) (message : string) :
  (∀ keyword, In keyword keywords → plainKeyword keyword = true) →
  ¬ mentions keywords message →
  existsb (λ keyword, includes (toLowerCase message) keyword) keywords = false.
Proof.
  intros Hplain Hnot. apply not_true_is_false. intros H. apply Hnot.
  by apply some_includes_iff.
Qed.

(** C2: the lists are tested in the order of severity, and the first list
    of which the message mentions a keyword, in any letter case and at any
    position, decides.  A message that mentions a crisis keyword is
    classified [crisis], whatever else it contains (in particular high- or
    moderate-risk keywords); without one, a high-risk keyword makes it
    [high], also when a moderate-risk keyword stands before it; without
    either, a moderate-risk keyword makes it [moderate]; and a message that
    mentions none is [low]. *)
Theorem severity_order_decides (message : string) :
  (mentions crisisKeywords message → assessRiskBasedOnKeywords message = "crisis") ∧
  (¬ mentions crisisKeywords message → mentions highRiskKeywords message →
   assessRiskBasedOnKeywords message = "high") ∧
  (¬ mentions crisisKeywords message → ¬ mentions highRiskKeywords message →
   mentions moderateRiskKeywords message →
   assessRiskBasedOnKeywords message = "moderate") ∧
  (¬ mentions crisisKeywords message → ¬ mentions highRiskKeywords message →
   ¬ mentions moderateRiskKeywords message →
   assessRiskBasedOnKeywords message = "low").
Proof.
  assert (∀ keyword, In keyword crisisKeywords → plainKeyword keyword = true) as Hcrisis.
  { intros keyword H. apply keywords_plain, in_or_app. by left. }
  assert (∀ keyword, In keyword highRiskKeywords → plainKeyword keyword = true) as Hhigh.
  { intros keyword H. apply keywords_plain, in_or_app. right. apply in_or_app. by left. }
  assert (∀ keyword, In keyword moderateRiskKeywords → plainKeyword keyword = true)
    as Hmoderate.
  { intros keyword H. apply keywords_plain, in_or_app. right. apply in_or_app. by right. }
  unfold assessRiskBasedOnKeywords. cbv zeta.
  split; [|split; [|split]].
  - intros H. apply (some_includes_iff _ _ Hcrisis) in H. by rewrite H.
  - intros H1 H2. rewrite (some_includes_false _ _ Hcrisis H1).
    apply (some_includes_iff _ _ Hhigh) in H2. by rewrite H2.
  - intros H1 H2 H3. rewrite (some_includes_false _ _ Hcrisis H1).
    rewrite (some_includes_false _ _ Hhigh H2).
    apply (some_includes_iff _ _ Hmoderate) in H3. by rewrite H3.
  - intros H1 H2 H3. rewrite (some_includes_false _ _ Hcrisis H1).
    rewrite (some_includes_false _ _ Hhigh H2).
    by rewrite (some_includes_false _ _ Hmoderate H3).
Qed.

Lemma severity_order_decides_witness :
  assessRiskBasedOnKeywords "I am SAD and Worthless" = "high".
Proof.
  destruct (severity_order_decides "I am SAD and Worthless") as (_ & Hhigh & _).
  apply Hhigh.
  - intros H. apply some_includes_iff in H.
    + vm_compute in H. discriminate H.
    + intros keyword Hin. apply keywords_plain, in_or_app. by left.
  - exists "worthless". split; [simpl; tauto|].
    exists "I am SAD and ", "Worthless", "". split; reflexivity.
Defined.

(** The Kelvin sign is a letter k in another case. *)
Lemma kelvin_sign_is_a_k :
  assessRiskBasedOnKeywords ("I will " +:+ kelvinSign +:+ "ILL myself") = "crisis".
Proof. reflexivity. Qed.

(** C8: the empty message is classified [low]. *)
Theorem classify_empty : assessRiskBasedOnKeywords "" = "low".
Proof. reflexivity. Qed.

End ClassifierFacts.

(* ===================================================================== *)
(** * Properties of the questionnaire scoring *)
(* ===================================================================== *)

Module ScoringFacts.
Import Server Notions.

Lemma fold_total (scores : list Z) (acc : Z) :
  fold_left (λ sum score, sum + score) scores acc = acc + sumOf scores.
Proof.
  revert acc; induction scores as [|s scores IH]; intros acc; simpl.
  - lia.
  - rewrite IH. lia.
Qed.

Lemma total_sumOf (scores : list Z) : total scores = sumOf scores.
Proof. unfold total. rewrite fold_total. lia. Qed.

Lemma sumOf_bounds (items : list Z) :
  Forall (λ item, 0 ≤ item ≤ 3) items →
  0 ≤ sumOf items ≤ 3 * Z.of_nat (length items).
Proof.
  induction 1 as [|item items Hitem _ IH]; simpl length; simpl sumOf; lia.
Qed.

(** The PHQ-9 branch on any list of scores, by the value of the total. *)
Lemma score_phq9 (scores : list Z) :
  scoreAssessment "PHQ-9" scores =
    let t := sumOf scores in
    if t <=? 4 then ("Minimal Depression", "low")
    else if t <=? 9 then ("Mild Depression", "low")
    else if t <=? 14 then ("Moderate Depression", "moderate")
    else if t <=? 19 then ("Moderately Severe Depression", "high")
    else ("Severe Depression", "crisis").
Proof.
  unfold scoreAssessment. rewrite total_sumOf. simpl.
  repeat case_match; reflexivity.
Qed.

Lemma score_gad7 (scores : list Z) :
  scoreAssessment "GAD-7" scores =
    let t := sumOf scores in
    if t <=? 4 then ("Minimal Anxiety", "low")
    else if t <=? 9 then ("Mild Anxiety", "low")
    else if t <=? 14 then ("Moderate Anxiety", "moderate")
    else ("Severe Anxiety", "high").
Proof.
  unfold scoreAssessment. rewrite total_sumOf. simpl.
  repeat case_match; reflexivity.
Qed.

Lemma score_other (type : string) (scores : list Z) :
  type ≠ "PHQ-9" → type ≠ "GAD-7" → scoreAssessment type scores = ("", "low").
Proof.
  intros H1 H2. unfold scoreAssessment.
  apply String.eqb_neq in H1, H2. rewrite H1, H2. reflexivity.
Qed.

Ltac thresholds :=
  repeat match goal with
         | |- context [?a <=? ?b] => destruct (Z.leb_spec a b)
         end; try reflexivity; try lia.

(** C3: for a valid PHQ-9 submission (9 items, each in [0,3]) the total is
    the sum of the items, it lies in 0..27, and the severity label and the
    tier follow the inclusive threshold table; the boundary totals
    0,4,5,9,10,14,15,19,20,27 give the tiers low, low, low, low, moderate,
    moderate, high, high, crisis, crisis. *)
Theorem phq9_table (scores : list Z) :
  validItems 9 scores →
  let t := total scores in
  t = sumOf scores ∧ 0 ≤ t ≤ 27 ∧
  (0 ≤ t ≤ 4 → scoreAssessment "PHQ-9" scores = ("Minimal Depression", "low")) ∧
  (5 ≤ t ≤ 9 → scoreAssessment "PHQ-9" scores = ("Mild Depression", "low")) ∧
  (10 ≤ t ≤ 14 → scoreAssessment "PHQ-9" scores = ("Moderate Depression", "moderate")) ∧
  (15 ≤ t ≤ 19 →
     scoreAssessment "PHQ-9" scores = ("Moderately Severe Depression", "high")) ∧
  (20 ≤ t ≤ 27 → scoreAssessment "PHQ-9" scores = ("Severe Depression", "crisis")) ∧
  Forall (λ '(boundary, tier), t = boundary → (scoreAssessment "PHQ-9" scores).2 = tier)
    [(0, "low"); (4, "low"); (5, "low"); (9, "low"); (10, "moderate"); (14, "moderate");
     (15, "high"); (19, "high"); (20, "crisis"); (27, "crisis")].
Proof.
  intros [Hlen Hitems] t. subst t.
  pose proof (sumOf_bounds _ Hitems) as Hb. rewrite Hlen in Hb.
  rewrite total_sumOf, score_phq9. cbv zeta.
  split; [reflexivity|]. split; [lia|].
  do 5 (split; [intros; thresholds|]).
  repeat constructor; intros Ht; rewrite Ht; reflexivity.
Qed.

Lemma phq9_table_witness :
  scoreAssessment "PHQ-9" [3; 3; 3; 3; 3; 3; 3; 3; 3] = ("Severe Depression", "crisis").
Proof.
  assert (validItems 9 [3; 3; 3; 3; 3; 3; 3; 3; 3]) as Hvalid.
  { split; [reflexivity|]. repeat constructor; lia. }
  destruct (phq9_table _ Hvalid) as (_ & _ & _ & _ & _ & _ & Hsevere & _).
  apply Hsevere. vm_compute. split; discriminate.
Defined.

(** C4: for a valid GAD-7 submission (7 items, each in [0,3]) the total
    lies in 0..21 and the label and tier follow the table; the tier is
    never crisis. *)
Theorem gad7_table (scores : list Z) :
  validItems 7 scores →
  let t := total scores in
  t = sumOf scores ∧ 0 ≤ t ≤ 21 ∧
  (0 ≤ t ≤ 4 → scoreAssessment "GAD-7" scores = ("Minimal Anxiety", "low")) ∧
  (5 ≤ t ≤ 9 → scoreAssessment "GAD-7" scores = ("Mild Anxiety", "low")) ∧
  (10 ≤ t ≤ 14 → scoreAssessment "GAD-7" scores = ("Moderate Anxiety", "moderate")) ∧
  (15 ≤ t ≤ 21 → scoreAssessment "GAD-7" scores = ("Severe Anxiety", "high")) ∧
  Forall (λ '(boundary, tier), t = boundary → (scoreAssessment "GAD-7" scores).2 = tier)
    [(0, "low"); (4, "low"); (5, "low"); (9, "low"); (10, "moderate"); (14, "moderate");
     (15, "high"); (21, "high")] ∧
  (scoreAssessment "GAD-7" scores).2 ≠ "crisis".
Proof.
  intros [Hlen Hitems] t. subst t.
  pose proof (sumOf_bounds _ Hitems) as Hb. rewrite Hlen in Hb.
  rewrite total_sumOf, score_gad7. cbv zeta.
  split; [reflexivity|]. split; [lia|].
  do 4 (split; [intros; thresholds|]).
  split.
  - repeat constructor; intros Ht; rewrite Ht; reflexivity.
  - repeat case_match; discriminate.
Qed.

Lemma gad7_table_witness :
  scoreAssessment "GAD-7" [3; 3; 3; 3; 3; 3; 3] = ("Severe Anxiety", "high").
Proof.
  assert (validItems 7 [3; 3; 3; 3; 3; 3; 3]) as Hvalid.
  { split; [reflexivity|]. repeat constructor; lia. }
  destruct (gad7_table _ Hvalid) as (_ & _ & _ & _ & _ & Hsevere & _).
  apply Hsevere. vm_compute. split; discriminate.
Defined.

End ScoringFacts.

(* ===================================================================== *)
(** * Properties of the handlers *)
(* ===================================================================== *)

Module ServerFacts.
Import JsString JsStringFacts Platform Server Notions ScoringFacts.

(** ** Keys *)

Lemma clash_startsWith (p q rest : string) :
  clash p q = true → startsWith (q +:+ rest) p = false.
Proof.
  revert q; induction p as [|c p IH]; intros [|d q] H; simpl in *; try discriminate.
  destruct (Ascii.eqb c d); [auto|reflexivity].
Qed.

Lemma startsWith_clash (key p q : string) :
  startsWith key p = true → clash q p = true → startsWith key q = false.
Proof.
  intros Hp Hc. destruct (startsWith_inv _ _ Hp) as [rest ->].
  now apply clash_startsWith.
Qed.

Lemma startsWith_differ (key key' p : string) :
  startsWith key p = true → startsWith key' p = false → key ≠ key'.
Proof. intros H1 H2 ->. congruence. Qed.

Lemma riskCounterKey_not_appointment (key : string) :
  isRiskCounterKey key = true → isAppointmentKey key = false.
Proof.
  unfold isRiskCounterKey, isAppointmentKey. intros H.
  rewrite (startsWith_clash key _ "appointment:" H eq_refl).
  rewrite (startsWith_clash key _ "student-appointment:" H eq_refl).
  rewrite (startsWith_clash key _ "counsellor-appointment:" H eq_refl).
  reflexivity.
Qed.

(** ** Dates *)

Lemma epochDay_tomorrow (now : Z) :
  epochDay (now + 24 * 60 * 60 * 1000) = epochDay now + 1.
Proof.
  unfold epochDay, msPerDay. rewrite <- (Z.div_add now 1) by lia. f_equal.
Qed.

(** ** The typing of analytics keys *)

Lemma analyticsTyped_empty : analyticsTyped ∅.
Proof. intros key v _ H. rewrite lookup_empty in H. discriminate. Qed.

Lemma analyticsTyped_insert (s : Store) (key : string) (v : Value) :
  analyticsTyped s →
  startsWith key "analytics:" = false ∨ (∃ c, v = VCounts c) →
  analyticsTyped (<[key := v]> s).
Proof.
  intros Hs Hv key' v' Hpre Hlook.
  destruct (decide (key = key')) as [<-|Hne].
  - rewrite lookup_insert_eq in Hlook. injection Hlook as <-.
    destruct Hv as [Hv|Hv]; [congruence|assumption].
  - rewrite lookup_insert_ne in Hlook by assumption. eauto.
Qed.

(** ** Effects of the blocks of the chat handler *)

Lemma strictEq_true (r : option string) (lit : string) :
  strictEq r lit = true ↔ r = Some lit.
Proof.
  destruct r as [r|]; simpl; [|split; discriminate].
  rewrite String.eqb_eq. split; congruence.
Qed.

Lemma escalates_iff (r : option string) :
  strictEq r "crisis" || strictEq r "high" = true ↔ r = Some "crisis" ∨ r = Some "high".
Proof. rewrite orb_true_iff, !strictEq_true. reflexivity. Qed.

Lemma appointment_keys (id a b : string) :
  isAppointmentKey ("appointment:" +:+ id) = true ∧
  isAppointmentKey ("student-appointment:" +:+ a +:+ ":" +:+ id) = true ∧
  isAppointmentKey ("counsellor-appointment:" +:+ b +:+ ":" +:+ id) = true.
Proof. repeat split. Qed.

Lemma insert_other (s : Store) (key key' : string) (v : Value) (p : string → bool) :
  p key = true → p key' = false → <[key := v]> s !! key' = s !! key'.
Proof. intros H1 H2. apply lookup_insert_ne. intros ->. congruence. Qed.

(** What the escalation block leaves alone. *)
Lemma createAutomaticAppointment_effect (user : User.t) (r : option string) (w : World) :
  ∃ w', createAutomaticAppointment user r w = Some (tt, w') ∧
        clock w' = clock w ∧
        (∀ key, isAppointmentKey key = false → store w' !! key = store w !! key).
Proof.
  unfold createAutomaticAppointment.
  destruct (strictEq r "crisis" || strictEq r "high"); [|by exists w].
  unfold mbind, M_bind, Kv.getByPrefix. fold (counsellorPool w).
  destruct (counsellorPool w) as [|first rest]; [by exists w|].
  simpl. eexists. split; [reflexivity|]. split; [reflexivity|].
  intros key Hkey. simpl.
  destruct (appointment_keys (uuid w (uuids w)) (User.id user) (Profile.id first))
    as (K1 & K2 & K3).
  rewrite (insert_other _ _ _ _ _ K3 Hkey), (insert_other _ _ _ _ _ K2 Hkey),
    (insert_other _ _ _ _ _ K1 Hkey).
  reflexivity.
Qed.

(** C5: the escalation block of the chat handler.  For the tiers low and
    moderate (and any value other than high and crisis) it leaves the world
    as it is; so it does for high and crisis when there is no counsellor,
    without failing.  For high and crisis with a non-empty pool it stores,
    under its three keys, one appointment: assigned to the first counsellor
    of the pool, status auto-scheduled, dated the day after the current
    date (the current date being [isoDate (epochDay now)]), at 10:00, with
    the tier copied. *)
Theorem escalation_rule (user : User.t) (riskLevel : option string) (w : World) :
  (riskLevel = Some "low" ∨ riskLevel = Some "moderate"
   ∨ (riskLevel ≠ Some "high" ∧ riskLevel ≠ Some "crisis") →
     createAutomaticAppointment user riskLevel w = Some (tt, w)) ∧
  (riskLevel = Some "high" ∨ riskLevel = Some "crisis" →
     (counsellorPool w = [] →
        createAutomaticAppointment user riskLevel w = Some (tt, w)) ∧
     (∀ first rest, counsellorPool w = first :: rest →
        let now := clock w (ticks w) in
        let id := uuid w (uuids w) in
        ∃ appointment w',
          createAutomaticAppointment user riskLevel w = Some (tt, w') ∧
          appointment =
            Appointment.mk id (User.id user) (Profile.id first)
              (isoDate (epochDay now + 1)) "10:00" "auto-scheduled" riskLevel
              (clock w (S (ticks w))) ∧
          store w' =
            <["counsellor-appointment:" +:+ Profile.id first +:+ ":" +:+ id :=
                VAppointment appointment]>
              (<["student-appointment:" +:+ User.id user +:+ ":" +:+ id :=
                   VAppointment appointment]>
                 (<["appointment:" +:+ id := VAppointment appointment]> (store w))))).
Proof.
  split.
  - intros Hr. unfold createAutomaticAppointment.
    assert (strictEq riskLevel "crisis" || strictEq riskLevel "high" = false) as ->;
      [|reflexivity].
    apply not_true_iff_false. rewrite escalates_iff.
    destruct Hr as [-> | [-> | [H1 H2]]]; intros [?|?]; congruence.
  - intros Hr. unfold createAutomaticAppointment.
    assert (strictEq riskLevel "crisis" || strictEq riskLevel "high" = true) as ->.
    { apply escalates_iff. tauto. }
    unfold mbind, M_bind, Kv.getByPrefix. fold (counsellorPool w).
    split.
    + intros ->. reflexivity.
    + intros first rest ->. simpl.
      eexists _, _. split; [reflexivity|]. rewrite epochDay_tomorrow.
      split; reflexivity.
Qed.

Lemma escalation_rule_witness :
  ∃ w', createAutomaticAppointment sam (Some "crisis") exampleWorld = Some (tt, w') ∧
        store w' !! "appointment:uuid-0" =
          Some (VAppointment
                  (Appointment.mk "uuid-0" "s1" "c1" "2026-11-02" "10:00" "auto-scheduled"
                     (Some "crisis") 1793557200124)).
Proof.
  destruct (escalation_rule sam (Some "crisis") exampleWorld) as [_ Hescalate].
  destruct (Hescalate (or_intror eq_refl)) as [_ Hpool].
  destruct (Hpool (Profile.mk "c1" "carol@campus.example" "Carol" "counsellor" 0) [])
    as (a & w' & Hrun & -> & Hstore).
  { vm_compute. reflexivity. }
  exists w'. split; [exact Hrun|].
  rewrite Hstore. vm_compute. reflexivity.
Defined.

End ServerFacts.

(* ===================================================================== *)
(** * Properties of the chat handler and of the daily risk counters *)
(* ===================================================================== *)

Module ChatFacts.
Import JsString JsStringFacts Platform Server Notions ServerFacts.

(** ** Objects used as counters *)

(** An object all of whose properties are numbers is stored as [VCounts]. *)
Lemma objectValue_counts (c : Counts) : objectValue (JsObject.ofCounts c) = VCounts c.
Proof. reflexivity. Qed.

Lemma properties_objectValue (o : JsObject.t) : properties (objectValue o) = Some o.
Proof.
  destruct o as [c texts]. unfold objectValue. cbn [JsObject.texts JsObject.numbers].
  case_decide as H; simpl; [by rewrite H|reflexivity].
Qed.

Lemma not_inherited (name : string) :
  JsObject.inherited name = false → JsObject.inheritedName name = None.
Proof. unfold JsObject.inherited. by destruct (JsObject.inheritedName name). Qed.

(** Counting a name that is not inherited, or that the object has as a
    number of its own, adds one to its count. *)
Lemma countOne_counts (c : Counts) (name : string) :
  JsObject.inherited name = false ∨ is_Some (c !! name) →
  JsObject.countOne (JsObject.ofCounts c) name
  = JsObject.ofCounts (<[name := default 0 (c !! name) + 1]> c).
Proof.
  intros H. unfold JsObject.countOne, JsObject.ofCounts. cbn [JsObject.numbers JsObject.texts].
  destruct (c !! name) as [n|]; simpl; [reflexivity|].
  destruct H as [H|[? [=]]]. by rewrite (not_inherited _ H).
Qed.

(** Counting a name never lowers a count. *)
Lemma countOne_monotone (o : JsObject.t) (level name : string) :
  default 0 (JsObject.numbers o !! name)
  ≤ default 0 (JsObject.numbers (JsObject.countOne o level) !! name).
Proof.
  assert (∀ n, (∀ m, JsObject.numbers o !! level = Some m → m ≤ n) →
               (JsObject.numbers o !! level = None → 0 ≤ n) →
               default 0 (JsObject.numbers o !! name)
               ≤ default 0 (<[level := n]> (JsObject.numbers o) !! name)) as Hinsert.
  { intros n Hsome Hnone. destruct (decide (level = name)) as [->|Hne].
    - rewrite lookup_insert_eq. simpl.
      destruct (JsObject.numbers o !! name) as [m|]; simpl; auto.
    - rewrite lookup_insert_ne by assumption. lia. }
  unfold JsObject.countOne.
  destruct (JsObject.numbers o !! level) as [n|] eqn:E; cbn [JsObject.numbers].
  { apply Hinsert; [|congruence]. intros m Hm. assert (m = n) as -> by congruence. lia. }
  destruct (JsObject.inheritedName level) as [i|]; cbn [JsObject.numbers].
  - destruct (JsObject.texts o !! i) as [[|ch s]|]; cbn [JsObject.numbers].
    + apply Hinsert; [congruence|lia].
    + lia.
    + destruct i; cbn [JsObject.numbers]; lia.
  - apply Hinsert; [congruence|lia].
Qed.

Lemma countAt_counter (s : Store) (key name : string) (c : Counts) :
  s !! key = Some (VCounts c) → countAt s key name = default 0 (c !! name).
Proof. unfold countAt. now intros ->. Qed.

Lemma countAt_unset (s : Store) (key name : string) :
  s !! key = None → countAt s key name = 0.
Proof. unfold countAt. now intros ->. Qed.

Lemma countAt_same (s s' : Store) (key name : string) :
  s' !! key = s !! key → countAt s' key name = countAt s key name.
Proof. unfold countAt. now intros ->. Qed.

Lemma countAt_properties (s : Store) (key name : string) (v : Value) (o : JsObject.t) :
  s !! key = Some v → properties v = Some o →
  countAt s key name = default 0 (JsObject.numbers o !! name).
Proof.
  unfold countAt. intros -> Ho. by destruct v; try discriminate Ho; injection Ho as <-.
Qed.

Lemma default_count_incremented (c : Counts) (level name : string) :
  default 0 (c !! name) ≤ default 0 (<[level := default 0 (c !! level) + 1]> c !! name).
Proof.
  destruct (decide (level = name)) as [->|Hne].
  - rewrite lookup_insert_eq. simpl. lia.
  - rewrite lookup_insert_ne by assumption. lia.
Qed.

Lemma defaultRiskAnalytics_nonneg (name : string) :
  0 ≤ default 0 (defaultRiskAnalytics !! name).
Proof.
  unfold defaultRiskAnalytics.
  repeat (rewrite lookup_insert; case_decide; [simpl; lia|]).
  rewrite lookup_empty. simpl. lia.
Qed.

(** The analytics block of the chat handler, run in a world whose object
    under today's risk key, if any, is an object used as a counter. *)
Lemma storeRiskAnalytics_run (r : option string) (w : World) :
  let key := riskKey (epochDay (clock w (ticks w))) in
  (∀ v, store w !! key = Some v → is_Some (properties v)) →
  ∃ w', storeRiskAnalytics r w = Some (tt, w') ∧
        clock w' = clock w ∧
        (∀ key', key' ≠ key → store w' !! key' = store w !! key') ∧
        (∀ name, countAt (store w) key name ≤ countAt (store w') key name) ∧
        (∀ v, store w' !! key = Some v → is_Some (properties v)) ∧
        (¬ Server.truthy r = true → store w' = store w) ∧
        (∀ level c, r = Some level → level ≠ "" →
           JsObject.inherited level = false ∨ is_Some (c !! level) →
           store w !! key = None ∧ c = defaultRiskAnalytics
           ∨ store w !! key = Some (VCounts c) →
           store w' !! key = Some (VCounts (<[level := default 0 (c !! level) + 1]> c))).
Proof.
  intros key Htyped. unfold storeRiskAnalytics, mbind, M_bind, Env.dateNow, Kv.get.
  cbn [store clock ticks].
  change ("analytics:risk:" +:+ isoDate (epochDay (clock w (ticks w)))) with key.
  clearbody key.
  destruct r as [[|ch level]|].
  - eexists. split; [reflexivity|]. split; [reflexivity|]. split; [done|].
    split; [intros name; simpl; lia|]. split; [exact Htyped|]. split; [done|].
    intros level c [= <-] H. done.
  - set (name := String ch level).
    assert (∃ o, counterObject (store w !! key) defaultRiskAnalytics
                   (mkWorld (store w) (clock w) (S (ticks w)) (uuid w) (uuids w))
                 = Some (o, mkWorld (store w) (clock w) (S (ticks w)) (uuid w) (uuids w))
                 ∧ (∀ n, countAt (store w) key n ≤ default 0 (JsObject.numbers o !! n))
                 ∧ (∀ c, store w !! key = None ∧ c = defaultRiskAnalytics
                         ∨ store w !! key = Some (VCounts c) →
                         o = JsObject.ofCounts c))
      as (o & -> & Hcounts & Ho).
    { destruct (store w !! key) as [v|] eqn:E.
      - destruct (Htyped v eq_refl) as [o Hv]. exists o. unfold counterObject. rewrite Hv.
        split; [reflexivity|]. split.
        + intros n. rewrite (countAt_properties _ _ n v o E Hv). lia.
        + intros c [[[=] _]|[= ->]]. by injection Hv as <-.
      - exists (JsObject.ofCounts defaultRiskAnalytics). split; [reflexivity|]. split.
        + intros n. rewrite (countAt_unset _ _ _ E).
          apply defaultRiskAnalytics_nonneg.
        + by intros c [[_ ->]|[=]]. }
    eexists. split; [reflexivity|]. cbn. split; [reflexivity|].
    split; [intros key' Hne; by rewrite lookup_insert_ne|].
    split; [|split; [|split]].
    + intros n. etransitivity; [apply Hcounts|].
      erewrite (countAt_properties _ key n (objectValue _));
        [|apply lookup_insert_eq|apply properties_objectValue].
      apply countOne_monotone.
    + intros v. rewrite lookup_insert_eq. intros [= <-].
      rewrite properties_objectValue. eauto.
    + intros H. by destruct H.
    + intros level' c [= <-] _ Hname Hc. rewrite lookup_insert_eq.
      rewrite (Ho c Hc), countOne_counts by assumption. by rewrite objectValue_counts.
  - eexists. split; [reflexivity|]. split; [reflexivity|]. split; [done|].
    split; [intros name; simpl; lia|]. split; [exact Htyped|]. split; [done|].
    intros level c [=].
Qed.

(** The same block when the object under today's key holds numbers only. *)
Lemma storeRiskAnalytics_effect (r : option string) (w : World) :
  let key := riskKey (epochDay (clock w (ticks w))) in
  (∀ v, store w !! key = Some v → ∃ c, v = VCounts c) →
  ∃ w', storeRiskAnalytics r w = Some (tt, w') ∧
        clock w' = clock w ∧
        (∀ key', key' ≠ key → store w' !! key' = store w !! key') ∧
        (∀ name, countAt (store w) key name ≤ countAt (store w') key name) ∧
        (∀ level, r = Some level → level ≠ "" → JsObject.inherited level = false →
           ∃ c, (store w !! key = None ∧ c = defaultRiskAnalytics
                 ∨ store w !! key = Some (VCounts c)) ∧
                store w' !! key =
                  Some (VCounts (<[level := default 0 (c !! level) + 1]> c))).
Proof.
  intros key Htyped.
  destruct (storeRiskAnalytics_run r w) as (w' & Hrun & Hclock & Hframe & Hmono & _ & _ & Hcount).
  { intros v Hv. destruct (Htyped v Hv) as [c ->]. simpl. eauto. }
  exists w'. split; [exact Hrun|]. split; [exact Hclock|]. split; [exact Hframe|].
  split; [exact Hmono|].
  intros level Hr Hne Hname. fold key in Hcount.
  destruct (store w !! key) as [v|] eqn:E.
  - destruct (Htyped v eq_refl) as [c ->]. exists c. split; [by right|].
    apply Hcount; auto.
  - exists defaultRiskAnalytics. split; [by left|]. apply Hcount; auto.
Qed.

Lemma riskKey_is_riskCounterKey (day : Z) : isRiskCounterKey (riskKey day) = true.
Proof. reflexivity. Qed.

Lemma chatKey_not_riskCounterKey (rest : string) :
  isRiskCounterKey ("chat:" +:+ rest) = false.
Proof. reflexivity. Qed.

(** One chat submission: which risk counter it touches, and how. *)
Lemma post_chat_run (user : User.t) (body : ChatBody) (w : World) :
  (∀ n v, store w !! riskKey (epochDay (clock w n)) = Some v → is_Some (properties v)) →
  ∃ chatMessage w' n,
    post_chat (Some user) body w = Some (json_chat chatMessage, w') ∧
    clock w' = clock w ∧
    let key := riskKey (epochDay (clock w n)) in
    (∀ key', isRiskCounterKey key' = true → key' ≠ key →
             store w' !! key' = store w !! key') ∧
    (∀ name, countAt (store w) key name ≤ countAt (store w') key name) ∧
    (∀ v, store w' !! key = Some v → is_Some (properties v)) ∧
    (∀ level c, riskLevel body = Some level → level ≠ "" →
       JsObject.inherited level = false ∨ is_Some (c !! level) →
       store w !! key = None ∧ c = defaultRiskAnalytics
       ∨ store w !! key = Some (VCounts c) →
       store w' !! key = Some (VCounts (<[level := default 0 (c !! level) + 1]> c))).
Proof.
  intros Htyped.
  unfold post_chat, mbind, M_bind, Env.randomUUID, Env.dateNow, Kv.set.
  cbn [store clock ticks uuid uuids].
  set (chatKey := "chat:" +:+ User.id user +:+ ":" +:+ pretty (clock w (S (ticks w)))).
  set (chatMessage := ChatMessage.mk _ _ _ _ _ _).
  set (w1 := mkWorld _ _ _ _ _).
  assert (∀ key, isRiskCounterKey key = true → store w1 !! key = store w !! key) as Hw1.
  { intros key Hkey. apply lookup_insert_ne. intros <-.
    unfold chatKey in Hkey. by rewrite chatKey_not_riskCounterKey in Hkey. }
  destruct (createAutomaticAppointment_effect user (riskLevel body) w1)
    as (w2 & -> & Hclock2 & Hframe2).
  assert (∀ key, isRiskCounterKey key = true → store w2 !! key = store w !! key) as Hw2.
  { intros key Hkey. rewrite Hframe2 by now apply riskCounterKey_not_appointment. auto. }
  change (clock w1) with (clock w) in Hclock2.
  destruct (storeRiskAnalytics_run (riskLevel body) w2)
    as (w3 & -> & Hclock3 & Hframe3 & Hmono3 & Htyped3 & _ & Hcount3).
  { rewrite Hclock2. intros v. rewrite Hw2 by apply riskKey_is_riskCounterKey.
    apply Htyped. }
  rewrite Hclock2 in Hframe3, Hmono3, Htyped3, Hcount3.
  exists chatMessage, w3, (ticks w2). split; [reflexivity|].
  split; [congruence|]. cbv zeta.
  pose proof (Hw2 _ (riskKey_is_riskCounterKey (epochDay (clock w (ticks w2))))) as Hkey.
  split; [|split; [|split]].
  - intros key' Hrisk Hne. rewrite Hframe3 by assumption. auto.
  - intros name. rewrite <- (countAt_same _ _ _ name Hkey). apply Hmono3.
  - exact Htyped3.
  - intros level c Hlevel Hne Hname Hc. apply Hcount3; try assumption.
    by rewrite Hkey.
Qed.

(** The same when the objects under the risk keys hold numbers only. *)
Lemma post_chat_effect (user : User.t) (body : ChatBody) (w : World) :
  (∀ n v, store w !! riskKey (epochDay (clock w n)) = Some v → ∃ c, v = VCounts c) →
  ∃ chatMessage w' n,
    post_chat (Some user) body w = Some (json_chat chatMessage, w') ∧
    clock w' = clock w ∧
    let key := riskKey (epochDay (clock w n)) in
    (∀ key', isRiskCounterKey key' = true → key' ≠ key →
             store w' !! key' = store w !! key') ∧
    (∀ name, countAt (store w) key name ≤ countAt (store w') key name) ∧
    (∀ level, riskLevel body = Some level → level ≠ "" →
       JsObject.inherited level = false →
       ∃ c, (store w !! key = None ∧ c = defaultRiskAnalytics
             ∨ store w !! key = Some (VCounts c)) ∧
            store w' !! key =
              Some (VCounts (<[level := default 0 (c !! level) + 1]> c))).
Proof.
  intros Htyped.
  destruct (post_chat_run user body w)
    as (msg & w' & n & Hrun & Hclock & Hframe & Hmono & _ & Hcount).
  { intros n v Hv. destruct (Htyped n v Hv) as [c ->]. simpl. eauto. }
  exists msg, w', n. split; [exact Hrun|]. split; [exact Hclock|]. cbv zeta in *.
  split; [exact Hframe|]. split; [exact Hmono|].
  intros level Hlevel Hne Hname.
  destruct (store w !! riskKey (epochDay (clock w n))) as [v|] eqn:E.
  - destruct (Htyped n v E) as [c ->]. exists c. split; [by right|].
    apply Hcount; auto.
  - exists defaultRiskAnalytics. split; [by left|]. apply Hcount; auto.
Qed.

Lemma defaultRiskAnalytics_high_insert (n : Z) (name : string) :
  default 0 (<["high" := n]> defaultRiskAnalytics !! name) =
    if decide (name = "high") then n else 0.
Proof.
  unfold defaultRiskAnalytics.
  case_decide as H; [subst; by rewrite lookup_insert_eq|].
  rewrite lookup_insert_ne by congruence.
  repeat (rewrite lookup_insert; case_decide; [reflexivity|]).
  by rewrite lookup_empty.
Qed.

(** The counter after a run of high-tier chat submissions, from a state in
    which [k] of them were already counted. *)
Lemma post_chats_high (requests : list (User.t * ChatBody)) (w : World) (day : Z) (k : Z) :
  (∀ n, epochDay (clock w n) = day) →
  Forall (λ request, riskLevel request.2 = Some "high") requests →
  (k = 0 ∧ store w !! riskKey day = None
   ∨ store w !! riskKey day = Some (VCounts (<["high" := k]> defaultRiskAnalytics))) →
  ∃ w', post_chats requests w = Some (tt, w') ∧
        (requests = [] ∧ store w' !! riskKey day = store w !! riskKey day
         ∨ store w' !! riskKey day =
             Some (VCounts (<["high" := k + Z.of_nat (length requests)]>
                              defaultRiskAnalytics))).
Proof.
  revert w k. induction requests as [|[user body] requests IH]; intros w k Hday Hhigh Hk.
  - exists w. split; [reflexivity|]. by left.
  - apply Forall_cons in Hhigh as [Hbody Hhigh]. simpl in Hbody.
    destruct (post_chat_effect user body w) as (msg & w1 & n & Hrun & Hclock & _ & _ & Hcount).
    { intros n v. rewrite Hday. destruct Hk as [[_ ->]| ->]; [discriminate|].
      intros [= <-]. eauto. }
    rewrite Hday in Hcount.
    destruct (Hcount "high" Hbody) as (c & Hc & Hc1); [discriminate|reflexivity|].
    assert (store w1 !! riskKey day =
              Some (VCounts (<["high" := k + 1]> defaultRiskAnalytics))) as Hk1.
    { rewrite Hc1. destruct Hc as [[Hnone ->]|Hsome].
      - destruct Hk as [[-> _]|Hk]; [|congruence]. reflexivity.
      - destruct Hk as [[_ Hk]|Hk]; [congruence|].
        rewrite Hk in Hsome. injection Hsome as <-.
        rewrite lookup_insert_eq, insert_insert_eq. reflexivity. }
    destruct (IH w1 (k + 1)) as (w' & Hrest & Hfinal).
    { intros m. rewrite Hclock. apply Hday. }
    { assumption. }
    { by right. }
    exists w'. split.
    + cbn [post_chats]. unfold mbind, M_bind. rewrite Hrun. exact Hrest.
    + right. destruct Hfinal as [[-> Hsame]|Hfinal].
      * rewrite Hsame, Hk1. reflexivity.
      * rewrite Hfinal. do 3 f_equal. simpl length. lia.
Qed.

Lemma post_chat_monotone (user : option User.t) (body : ChatBody) (w : World) :
  analyticsTyped (store w) →
  ∃ response w',
    post_chat user body w = Some (response, w') ∧
    ∀ key name, isRiskCounterKey key = true →
                countAt (store w) key name ≤ countAt (store w') key name.
Proof.
  intros Htyped. destruct user as [user|].
  - destruct (post_chat_effect user body w) as (msg & w' & n & Hrun & _ & Hframe & Hmono & _).
    { intros n v. by apply Htyped. }
    exists (json_chat msg), w'. split; [exact Hrun|].
    intros key name Hkey.
    destruct (decide (key = riskKey (epochDay (clock w n)))) as [->|Hne].
    + apply Hmono.
    + rewrite (countAt_same (store w) (store w') key name) by now apply Hframe. lia.
  - exists (json_error "Unauthorized" 401), w. split; [reflexivity|]. intros; lia.
Qed.

(** C6: starting from a day with no counter record, [N] chat submissions of
    tier high, all handled on that day, leave that day's counter at [N] for
    high and 0 for every other tier; and no chat submission ever lowers a
    count of a daily risk counter. *)
Theorem risk_counter_counts (requests : list (User.t * ChatBody)) (w : World) (day : Z) :
  (∀ n, epochDay (clock w n) = day) →
  store w !! riskKey day = None →
  Forall (λ request, riskLevel request.2 = Some "high") requests →
  (∃ w', post_chats requests w = Some (tt, w') ∧
         countAt (store w') (riskKey day) "high" = Z.of_nat (length requests) ∧
         countAt (store w') (riskKey day) "low" = 0 ∧
         countAt (store w') (riskKey day) "moderate" = 0 ∧
         countAt (store w') (riskKey day) "crisis" = 0 ∧
         (∀ name, name ≠ "high" → countAt (store w') (riskKey day) name = 0) ∧
         (requests ≠ [] →
            store w' !! riskKey day =
              Some (VCounts (<["high" := Z.of_nat (length requests)]>
                               defaultRiskAnalytics)))) ∧
  (∀ user body w1,
     analyticsTyped (store w1) →
     ∃ response w2,
       post_chat user body w1 = Some (response, w2) ∧
       ∀ key name, isRiskCounterKey key = true →
                   countAt (store w1) key name ≤ countAt (store w2) key name).
Proof.
  intros Hday Hunset Hhigh. split.
  - destruct (post_chats_high requests w day 0 Hday Hhigh) as (w' & Hrun & Hfinal);
      [by left|].
    exists w'. split; [exact Hrun|].
    assert (∀ name, countAt (store w') (riskKey day) name =
                    if decide (name = "high") then Z.of_nat (length requests) else 0)
      as Hcounts.
    { intros name. destruct Hfinal as [[-> Hsame]|Hfinal].
      - rewrite countAt_unset by congruence. by case_decide.
      - rewrite (countAt_counter _ _ _ _ Hfinal).
        apply defaultRiskAnalytics_high_insert. }
    rewrite !Hcounts. repeat (split; [reflexivity|]).
    split.
    + intros name Hname. rewrite Hcounts. by case_decide.
    + intros Hne. destruct Hfinal as [[-> _]|Hfinal]; [done|exact Hfinal].
  - apply post_chat_monotone.
Qed.

Lemma risk_counter_counts_witness :
  ∃ w', post_chats [(sam, mkChatBody "I feel hopeless" true (Some "high"));
                    (sam, mkChatBody "It is all so overwhelming" true (Some "high"))]
          exampleWorld = Some (tt, w') ∧
        countAt (store w') (riskKey 20758) "high" = 2 ∧
        countAt (store w') (riskKey 20758) "crisis" = 0.
Proof.
  destruct (risk_counter_counts
              [(sam, mkChatBody "I feel hopeless" true (Some "high"));
               (sam, mkChatBody "It is all so overwhelming" true (Some "high"))]
              exampleWorld 20758) as [(w' & Hrun & Hhigh & _ & _ & Hcrisis & _) _].
  - intros n. unfold exampleWorld, epochDay, msPerDay. cbn [clock].
    symmetry. apply (Z.div_unique _ _ _ (66000123 + Z.of_nat (n `min` 1000))); lia.
  - vm_compute. reflexivity.
  - repeat constructor.
  - exists w'. repeat split; assumption.
Defined.

End ChatFacts.

(* ===================================================================== *)
(** * Properties of the assessment handler *)
(* ===================================================================== *)

Module AssessmentFacts.
Import JsString JsStringFacts Platform Server Notions ScoringFacts ServerFacts ChatFacts.

Lemma assessmentKey_not_counterKey (rest : string) (day : Z) :
  "assessment:" +:+ rest ≠ assessmentCounterKey day.
Proof.
  apply not_eq_sym, (startsWith_differ _ _ "analytics:"); reflexivity.
Qed.

(** One authenticated assessment submission, run in a world whose object
    under today's assessment counter key, if any, is an object used as a
    counter. *)
Lemma post_assessment_run (user : User.t) (body : AssessmentBody) (w : World) :
  let key := "assessment:" +:+ User.id user +:+ ":" +:+ uuid w (uuids w) in
  let counter := assessmentCounterKey (epochDay (clock w (S (ticks w)))) in
  (∀ v, store w !! counter = Some v → is_Some (properties v)) →
  ∃ assessment w' o,
    post_assessment (Some user) body w = Some (json_assessment assessment, w') ∧
    assessment =
      Assessment.mk (uuid w (uuids w)) (User.id user) (type body) (scores body)
        (responses body) (scoreAssessment (type body) (scores body)).1
        (scoreAssessment (type body) (scores body)).2 (clock w (ticks w)) ∧
    (store w !! counter = None ∧ o = JsObject.ofCounts ∅
     ∨ ∃ v, store w !! counter = Some v ∧ properties v = Some o) ∧
    store w' =
      <[counter := objectValue (JsObject.countOne o (type body))]>
        (<[key := VAssessment assessment]> (store w)).
Proof.
  intros key counter Htyped.
  unfold post_assessment.
  destruct (scoreAssessment (type body) (scores body)) as [result riskLevel].
  unfold storeAssessmentAnalytics, mbind, M_bind, Env.randomUUID, Env.dateNow, Kv.set, Kv.get.
  cbn [store clock ticks uuid uuids fst snd].
  change ("analytics:assessment:" +:+ isoDate (epochDay (clock w (S (ticks w)))))
    with counter.
  change ("assessment:" +:+ User.id user +:+ ":" +:+ uuid w (uuids w)) with key.
  assert (key ≠ counter) as Hne by apply assessmentKey_not_counterKey.
  clearbody key counter.
  rewrite lookup_insert_ne by assumption.
  destruct (store w !! counter) as [v|] eqn:E.
  - destruct (Htyped v eq_refl) as [o Ho]. unfold counterObject. rewrite Ho. cbn.
    eexists _, _, o. split; [reflexivity|]. split; [reflexivity|]. split; [right; eauto|].
    reflexivity.
  - cbn.
    eexists _, _, (JsObject.ofCounts ∅). split; [reflexivity|]. split; [reflexivity|].
    split; [by left|]. reflexivity.
Qed.

(** The same when the object under the counter key holds numbers only. *)
Lemma post_assessment_effect (user : User.t) (body : AssessmentBody) (w : World) :
  let key := "assessment:" +:+ User.id user +:+ ":" +:+ uuid w (uuids w) in
  let counter := assessmentCounterKey (epochDay (clock w (S (ticks w)))) in
  (∀ v, store w !! counter = Some v → ∃ c, v = VCounts c) →
  ∃ assessment w' c,
    post_assessment (Some user) body w = Some (json_assessment assessment, w') ∧
    assessment =
      Assessment.mk (uuid w (uuids w)) (User.id user) (type body) (scores body)
        (responses body) (scoreAssessment (type body) (scores body)).1
        (scoreAssessment (type body) (scores body)).2 (clock w (ticks w)) ∧
    (store w !! counter = None ∧ c = ∅ ∨ store w !! counter = Some (VCounts c)) ∧
    store w' =
      <[counter := objectValue (JsObject.countOne (JsObject.ofCounts c) (type body))]>
        (<[key := VAssessment assessment]> (store w)).
Proof.
  intros key counter Htyped.
  destruct (post_assessment_run user body w) as (a & w' & o & Hrun & Ha & Ho & Hstore).
  { intros v Hv. destruct (Htyped v Hv) as [c ->]. simpl. eauto. }
  fold key counter in Ho, Hstore.
  destruct Ho as [[Hnone ->]|(v & Hv & Ho)].
  - exists a, w', ∅.
    split; [exact Hrun|]. split; [exact Ha|]. split; [by left|]. exact Hstore.
  - destruct (Htyped v Hv) as [c ->]. injection Ho as <-.
    exists a, w', c.
    split; [exact Hrun|]. split; [exact Ha|]. split; [by right|]. exact Hstore.
Qed.

Lemma analyticsTyped_at (s : Store) (key : string) :
  analyticsTyped s → startsWith key "analytics:" = true →
  ∀ v, s !! key = Some v → ∃ c, v = VCounts c.
Proof. intros Hs Hkey v. by apply Hs. Qed.

(** C1, as the code has it: the handler checks neither the number of items
    nor their range.  Every authenticated submission whose items are
    integers that are added without rounding is scored and stored, never
    rejected, however many items it has and however far they are from
    [0,3]; for PHQ-9 and GAD-7 the label and the tier are those of the
    threshold table at the raw sum of the submitted items. *)
Theorem scores_not_validated (user : User.t) (body : AssessmentBody) (w : World) :
  exactlySummed (scores body) →
  analyticsTyped (store w) →
  ∃ assessment w',
    post_assessment (Some user) body w = Some (json_assessment assessment, w') ∧
    store w' !! ("assessment:" +:+ User.id user +:+ ":" +:+ uuid w (uuids w))
      = Some (VAssessment assessment) ∧
    Assessment.scores assessment = scores body ∧
    let t := sumOf (scores body) in
    (type body = "PHQ-9" →
       (Assessment.result assessment, Assessment.riskLevel assessment) =
         if t <=? 4 then ("Minimal Depression", "low")
         else if t <=? 9 then ("Mild Depression", "low")
         else if t <=? 14 then ("Moderate Depression", "moderate")
         else if t <=? 19 then ("Moderately Severe Depression", "high")
         else ("Severe Depression", "crisis")) ∧
    (type body = "GAD-7" →
       (Assessment.result assessment, Assessment.riskLevel assessment) =
         if t <=? 4 then ("Minimal Anxiety", "low")
         else if t <=? 9 then ("Mild Anxiety", "low")
         else if t <=? 14 then ("Moderate Anxiety", "moderate")
         else ("Severe Anxiety", "high")).
Proof.
  intros _ Htyped.
  destruct (post_assessment_effect user body w) as (a & w' & c & Hrun & Ha & _ & Hstore).
  { by apply analyticsTyped_at. }
  exists a, w'. split; [exact Hrun|].
  split.
  { rewrite Hstore, lookup_insert_ne by apply not_eq_sym, assessmentKey_not_counterKey.
    apply lookup_insert_eq. }
  subst a. cbn [Assessment.scores Assessment.result Assessment.riskLevel].
  split; [reflexivity|]. cbv zeta.
  rewrite <- surjective_pairing.
  split; intros ->; [apply score_phq9 | apply score_gad7].
Qed.

Lemma scores_not_validated_witness :
  ∃ assessment w',
    post_assessment (Some sam) (mkAssessmentBody "GAD-7" [3; 3] [3; 3]) exampleWorld
      = Some (json_assessment assessment, w') ∧
    (Assessment.result assessment, Assessment.riskLevel assessment)
      = ("Mild Anxiety", "low").
Proof.
  destruct (scores_not_validated sam (mkAssessmentBody "GAD-7" [3; 3] [3; 3]) exampleWorld)
    as (a & w' & Hrun & _ & _ & _ & Hgad).
  - unfold exactlySummed. simpl. lia.
  - unfold exampleWorld. cbn [store].
    repeat (apply analyticsTyped_insert; [|left; reflexivity]).
    apply analyticsTyped_empty.
  - exists a, w'. split; [exact Hrun|]. exact (Hgad eq_refl).
Defined.

(** C1, as stated, fails: a PHQ-9 submission with a single item, and one
    with nine items outside [0,3], are both answered with a stored score
    and no error. *)
Lemma invalid_questionnaire_is_scored :
  length [3] ≠ 9%nat ∧
  (∃ assessment w',
     post_assessment (Some sam) (mkAssessmentBody "PHQ-9" [3] [3]) exampleWorld
       = Some (json_assessment assessment, w') ∧
     Assessment.result assessment = "Minimal Depression" ∧
     Assessment.riskLevel assessment = "low") ∧
  ¬ Forall (λ item, 0 ≤ item ≤ 3) [9; -2; 9; 0; 0; 7; 0; 0; 0] ∧
  (∃ assessment w',
     post_assessment (Some sam)
       (mkAssessmentBody "PHQ-9" [9; -2; 9; 0; 0; 7; 0; 0; 0] []) exampleWorld
       = Some (json_assessment assessment, w') ∧
     Assessment.result assessment = "Severe Depression" ∧
     Assessment.riskLevel assessment = "crisis").
Proof.
  assert (∀ body, ∃ assessment w',
            post_assessment (Some sam) body exampleWorld
              = Some (json_assessment assessment, w') ∧
            Assessment.result assessment = (scoreAssessment (type body) (scores body)).1 ∧
            Assessment.riskLevel assessment = (scoreAssessment (type body) (scores body)).2)
    as Hscored.
  { intros body.
    destruct (post_assessment_effect sam body exampleWorld) as (a & w' & c & Hrun & -> & _).
    - intros v Hv. vm_compute in Hv. discriminate.
    - eexists _, w'. split; [exact Hrun|]. split; reflexivity. }
  split; [discriminate|].
  split; [exact (Hscored (mkAssessmentBody "PHQ-9" [3] [3]))|].
  split; [|exact (Hscored (mkAssessmentBody "PHQ-9" [9; -2; 9; 0; 0; 7; 0; 0; 0] []))].
  intros H. apply Forall_cons in H as [H _]. lia.
Qed.

(** X24: a submission whose instrument is neither PHQ-9 nor GAD-7, and is
    not the name of a property that objects inherit, is answered like any
    other: the stored assessment has the empty severity label and the tier
    low, and the instrument's count in the day's assessment counter goes up
    by one. *)
Lemma unknown_instrument (user : User.t) (body : AssessmentBody) (w : World) :
  type body ≠ "PHQ-9" → type body ≠ "GAD-7" →
  JsObject.inherited (type body) = false →
  analyticsTyped (store w) →
  let key := "assessment:" +:+ User.id user +:+ ":" +:+ uuid w (uuids w) in
  let counter := assessmentCounterKey (epochDay (clock w (S (ticks w)))) in
  ∃ assessment w',
    post_assessment (Some user) body w = Some (json_assessment assessment, w') ∧
    Assessment.type assessment = type body ∧
    Assessment.result assessment = "" ∧
    Assessment.riskLevel assessment = "low" ∧
    store w' !! key = Some (VAssessment assessment) ∧
    countAt (store w') counter (type body) = countAt (store w) counter (type body) + 1.
Proof.
  intros Hphq Hgad Hname Htyped key counter.
  destruct (post_assessment_effect user body w) as (a & w' & c & Hrun & Ha & Hc & Hstore).
  { by apply analyticsTyped_at. }
  fold key counter in Hstore, Hc.
  exists a, w'. split; [exact Hrun|].
  rewrite (score_other _ _ Hphq Hgad) in Ha. subst a.
  do 3 (split; [reflexivity|]).
  split.
  { rewrite Hstore, lookup_insert_ne by apply not_eq_sym, assessmentKey_not_counterKey.
    apply lookup_insert_eq. }
  rewrite Hstore, countOne_counts, objectValue_counts by auto.
  erewrite countAt_counter by apply lookup_insert_eq.
  rewrite lookup_insert_eq. simpl.
  destruct Hc as [[Hnone ->]|Hsome].
  - rewrite (countAt_unset _ _ _ Hnone), lookup_empty. reflexivity.
  - rewrite (countAt_counter _ _ _ _ Hsome). reflexivity.
Qed.

Lemma unknown_instrument_witness :
  ∃ assessment w',
    post_assessment (Some sam) (mkAssessmentBody "DASS-21" [2; 1; 3] []) exampleWorld
      = Some (json_assessment assessment, w') ∧
    Assessment.result assessment = "" ∧
    Assessment.riskLevel assessment = "low" ∧
    countAt (store w') (assessmentCounterKey 20758) "DASS-21" = 1.
Proof.
  destruct (unknown_instrument sam (mkAssessmentBody "DASS-21" [2; 1; 3] []) exampleWorld)
    as (a & w' & Hrun & _ & Hresult & Hrisk & _ & Hcount).
  - discriminate.
  - discriminate.
  - reflexivity.
  - unfold exampleWorld. cbn [store].
    repeat (apply analyticsTyped_insert; [|left; reflexivity]).
    apply analyticsTyped_empty.
  - exists a, w'. split; [exact Hrun|]. split; [exact Hresult|]. split; [exact Hrisk|].
    exact Hcount.
Defined.

(** C9, on the code: for the instrument name [constructor], which is
    neither PHQ-9 nor GAD-7, the submission is answered and stored with the
    empty label and the tier low, but the day's assessment counter is not
    incremented: what the handler reads under that name is the function
    every object inherits, and what it stores is a text.  The count of the
    instrument is zero before and after. *)
Theorem inherited_instrument_is_not_counted :
  ∃ assessment w',
    post_assessment (Some sam) (mkAssessmentBody "constructor" [2; 1; 3] []) exampleWorld
      = Some (json_assessment assessment, w') ∧
    Assessment.result assessment = "" ∧
    Assessment.riskLevel assessment = "low" ∧
    store exampleWorld !! assessmentCounterKey 20758 = None ∧
    store w' !! assessmentCounterKey 20758
      = Some (VObject ∅ {[ JsObject.IConstructor :=
                             "function Object() { [native code] }1" ]}) ∧
    countAt (store w') (assessmentCounterKey 20758) "constructor" = 0.
Proof.
  destruct (post_assessment_effect sam (mkAssessmentBody "constructor" [2; 1; 3] [])
              exampleWorld) as (a & w' & c & Hrun & -> & Hc & Hstore).
  { intros v Hv. vm_compute in Hv. discriminate. }
  destruct Hc as [[_ ->]|Hc]; [|vm_compute in Hc; discriminate].
  eexists _, w'. split; [exact Hrun|]. split; [reflexivity|]. split; [reflexivity|].
  split; [reflexivity|].
  assert (store w' !! assessmentCounterKey 20758
          = Some (VObject ∅ {[ JsObject.IConstructor :=
                                 "function Object() { [native code] }1" ]}))
    as Hcounter.
  { rewrite Hstore. etransitivity; [apply lookup_insert_eq|]. vm_compute. reflexivity. }
  split; [exact Hcounter|]. unfold countAt. rewrite Hcounter. reflexivity.
Qed.

(** C10: whatever the computed tier, an assessment submission creates no
    appointment and touches no daily risk counter: the only keys it writes
    are the assessment record and the day's assessment counter. *)
Theorem assessment_writes_no_appointment
    (user : option User.t) (body : AssessmentBody) (w : World) :
  analyticsTyped (store w) →
  ∃ response w',
    post_assessment user body w = Some (response, w') ∧
    (∀ key, isAppointmentKey key = true ∨ isRiskCounterKey key = true →
            store w' !! key = store w !! key) ∧
    (∀ key, store w' !! key ≠ store w !! key →
            ∃ u, user = Some u ∧
                 (key = "assessment:" +:+ User.id u +:+ ":" +:+ uuid w (uuids w)
                  ∨ key = assessmentCounterKey (epochDay (clock w (S (ticks w)))))).
Proof.
  intros Htyped. destruct user as [user|].
  - destruct (post_assessment_effect user body w) as (a & w' & c & Hrun & _ & _ & Hstore).
    { by apply analyticsTyped_at. }
    exists (json_assessment a), w'. split; [exact Hrun|].
    rewrite Hstore. split.
    + intros key Hkey.
      assert (isAppointmentKey key || isRiskCounterKey key = true) as Hp
        by (apply orb_true_iff; exact Hkey).
      rewrite !lookup_insert_ne; [reflexivity| |]; intros <-; discriminate Hp.
    + intros key Hdiff. exists user. split; [reflexivity|].
      destruct (decide (key = assessmentCounterKey (epochDay (clock w (S (ticks w))))))
        as [->|Hne1]; [by right|].
      destruct (decide (key = "assessment:" +:+ User.id user +:+ ":" +:+ uuid w (uuids w)))
        as [->|Hne2]; [by left|].
      exfalso. apply Hdiff. by rewrite !lookup_insert_ne.
  - exists (json_error "Unauthorized" 401), w. split; [reflexivity|]. split; [done|].
    intros key Hdiff. by destruct Hdiff.
Qed.

Lemma assessment_writes_no_appointment_witness :
  ∃ assessment w',
    post_assessment (Some sam)
      (mkAssessmentBody "PHQ-9" [3; 3; 3; 3; 3; 3; 3; 3; 3] []) exampleWorld
      = Some (json_assessment assessment, w') ∧
    Assessment.riskLevel assessment = "crisis" ∧
    store w' !! "appointment:uuid-0" = None ∧
    store w' !! "student-appointment:s1:uuid-0" = None ∧
    store w' !! riskKey 20758 = None.
Proof.
  destruct (assessment_writes_no_appointment (Some sam)
              (mkAssessmentBody "PHQ-9" [3; 3; 3; 3; 3; 3; 3; 3; 3] []) exampleWorld)
    as (response & w' & Hrun & Hframe & _).
  - unfold exampleWorld. cbn [store].
    repeat (apply analyticsTyped_insert; [|left; reflexivity]).
    apply analyticsTyped_empty.
  - destruct (post_assessment_effect sam
                 (mkAssessmentBody "PHQ-9" [3; 3; 3; 3; 3; 3; 3; 3; 3] []) exampleWorld)
      as (a & w'' & c & Hrun' & -> & _).
    { intros v Hv. vm_compute in Hv. discriminate. }
    rewrite Hrun' in Hrun. injection Hrun as <- <-.
    eexists _, w''. split; [exact Hrun'|]. split; [reflexivity|].
    rewrite !Hframe by (vm_compute; tauto).
    vm_compute. repeat split.
Defined.

End AssessmentFacts.

(* ===================================================================== *)
(** * Well-typed stores: handlers return and keep the store well-typed *)
(* ===================================================================== *)

Module TypingFacts.
Import JsString JsStringFacts Platform Server Notions ServerFacts ChatFacts AssessmentFacts.

Lemma analyticsTyped_objects (s : Store) : analyticsTyped s → analyticsObjects s.
Proof. intros Hs key v Hkey Hv. destruct (Hs key v Hkey Hv) as [c ->]. simpl. eauto. Qed.

Lemma analyticsObjects_insert (s : Store) (key : string) (v : Value) :
  analyticsObjects s →
  startsWith key "analytics:" = false ∨ is_Some (properties v) →
  analyticsObjects (<[key := v]> s).
Proof.
  intros Hs Hv key' v' Hpre Hlook.
  destruct (decide (key = key')) as [->|Hne].
  - rewrite lookup_insert_eq in Hlook. injection Hlook as <-.
    destruct Hv as [Hv|Hv]; [congruence|exact Hv].
  - rewrite lookup_insert_ne in Hlook by assumption. by apply (Hs key').
Qed.

Lemma createAutomaticAppointment_typed (user : User.t) (r : option string) (w w' : World) :
  createAutomaticAppointment user r w = Some (tt, w') →
  analyticsTyped (store w) → analyticsTyped (store w').
Proof.
  unfold createAutomaticAppointment.
  destruct (strictEq r "crisis" || strictEq r "high"); [|by intros [= <-]].
  unfold mbind, M_bind, Kv.getByPrefix. fold (counsellorPool w).
  destruct (counsellorPool w) as [|first rest]; [by intros [= <-]|].
  simpl. intros [= <-] Htyped. simpl.
  repeat (apply analyticsTyped_insert; [|left; reflexivity]).
  assumption.
Qed.

Lemma createAutomaticAppointment_objects (user : User.t) (r : option string) (w w' : World) :
  createAutomaticAppointment user r w = Some (tt, w') →
  analyticsObjects (store w) → analyticsObjects (store w').
Proof.
  unfold createAutomaticAppointment.
  destruct (strictEq r "crisis" || strictEq r "high"); [|by intros [= <-]].
  unfold mbind, M_bind, Kv.getByPrefix. fold (counsellorPool w).
  destruct (counsellorPool w) as [|first rest]; [by intros [= <-]|].
  simpl. intros [= <-] Htyped. simpl.
  repeat (apply analyticsObjects_insert; [|left; reflexivity]).
  assumption.
Qed.

Lemma storeRiskAnalytics_objects (r : option string) (w : World) :
  analyticsObjects (store w) →
  ∃ w', storeRiskAnalytics r w = Some (tt, w') ∧ analyticsObjects (store w').
Proof.
  intros Htyped.
  destruct (storeRiskAnalytics_run r w) as (w' & Hrun & _ & Hframe & _ & Hkey & _).
  { intros v. by apply Htyped. }
  exists w'. split; [exact Hrun|]. intros key v Hpre Hv.
  destruct (decide (key = riskKey (epochDay (clock w (ticks w))))) as [->|Hne].
  - by apply Hkey.
  - rewrite Hframe in Hv by assumption. by apply (Htyped key).
Qed.

(** With a tier that is not an inherited name the risk counters keep
    holding numbers only. *)
Lemma storeRiskAnalytics_typed (r : option string) (w : World) :
  (∀ level, r = Some level → JsObject.inherited level = false) →
  analyticsTyped (store w) →
  ∃ w', storeRiskAnalytics r w = Some (tt, w') ∧ analyticsTyped (store w').
Proof.
  intros Hname Htyped.
  destruct (storeRiskAnalytics_run r w) as (w' & Hrun & _ & Hframe & _ & _ & Hsame & Hcount).
  { intros v Hv. eapply (analyticsTyped_objects _ Htyped); [|exact Hv]. reflexivity. }
  exists w'. split; [exact Hrun|].
  destruct r as [[|ch level]|]; [by rewrite Hsame| |by rewrite Hsame].
  intros key v Hpre Hv.
  destruct (decide (key = riskKey (epochDay (clock w (ticks w))))) as [->|Hne].
  - destruct (store w !! riskKey (epochDay (clock w (ticks w)))) as [v0|] eqn:E.
    + destruct (Htyped _ v0 Hpre E) as [c ->].
      rewrite (Hcount (String ch level) c eq_refl) in Hv; [| |left; by apply Hname|by right].
      * injection Hv as <-. eauto.
      * discriminate.
    + rewrite (Hcount (String ch level) defaultRiskAnalytics eq_refl) in Hv;
        [| |left; by apply Hname|by left].
      * injection Hv as <-. eauto.
      * discriminate.
  - rewrite Hframe in Hv by assumption. by apply (Htyped key).
Qed.

(** A chat submission on a store whose analytics objects are objects used
    as counters returns, and leaves such a store. *)
Lemma post_chat_total (user : option User.t) (body : ChatBody) (w : World) :
  analyticsObjects (store w) →
  ∃ response w', post_chat user body w = Some (response, w') ∧ analyticsObjects (store w').
Proof.
  intros Htyped. destruct user as [user|]; [|by exists (json_error "Unauthorized" 401), w].
  unfold post_chat, mbind, M_bind, Env.randomUUID, Env.dateNow, Kv.set.
  cbn [store clock ticks uuid uuids].
  set (chatMessage := ChatMessage.mk _ _ _ _ _ _).
  set (w1 := mkWorld _ _ _ _ _).
  assert (analyticsObjects (store w1)) as Hw1.
  { apply analyticsObjects_insert; [assumption|left; reflexivity]. }
  destruct (createAutomaticAppointment_effect user (riskLevel body) w1)
    as (w2 & E2 & _).
  rewrite E2.
  pose proof (createAutomaticAppointment_objects _ _ _ _ E2 Hw1) as Hw2.
  destruct (storeRiskAnalytics_objects (riskLevel body) w2 Hw2) as (w3 & -> & Hw3).
  by exists (json_chat chatMessage), w3.
Qed.

(** With a tier that is not an inherited name, a chat submission keeps the
    analytics objects numeric. *)
Lemma post_chat_typed (user : option User.t) (body : ChatBody) (w : World) :
  (∀ level, riskLevel body = Some level → JsObject.inherited level = false) →
  analyticsTyped (store w) →
  ∃ response w', post_chat user body w = Some (response, w') ∧ analyticsTyped (store w').
Proof.
  intros Hname Htyped.
  destruct user as [user|]; [|by exists (json_error "Unauthorized" 401), w].
  unfold post_chat, mbind, M_bind, Env.randomUUID, Env.dateNow, Kv.set.
  cbn [store clock ticks uuid uuids].
  set (chatMessage := ChatMessage.mk _ _ _ _ _ _).
  set (w1 := mkWorld _ _ _ _ _).
  assert (analyticsTyped (store w1)) as Hw1.
  { apply analyticsTyped_insert; [assumption|left; reflexivity]. }
  destruct (createAutomaticAppointment_effect user (riskLevel body) w1)
    as (w2 & E2 & _).
  rewrite E2.
  pose proof (createAutomaticAppointment_typed _ _ _ _ E2 Hw1) as Hw2.
  destruct (storeRiskAnalytics_typed (riskLevel body) w2 Hname Hw2) as (w3 & -> & Hw3).
  by exists (json_chat chatMessage), w3.
Qed.

(** An assessment submission on a store whose analytics objects are
    objects used as counters returns, and leaves such a store. *)
Lemma post_assessment_total (user : option User.t) (body : AssessmentBody) (w : World) :
  analyticsObjects (store w) →
  ∃ response w', post_assessment user body w = Some (response, w') ∧
                 analyticsObjects (store w').
Proof.
  intros Htyped. destruct user as [user|]; [|by exists (json_error "Unauthorized" 401), w].
  destruct (post_assessment_run user body w) as (a & w' & o & Hrun & _ & _ & Hstore).
  { intros v. by apply Htyped. }
  exists (json_assessment a), w'. split; [exact Hrun|]. rewrite Hstore.
  apply analyticsObjects_insert; [|right; rewrite properties_objectValue; eauto].
  apply analyticsObjects_insert; [assumption|left; reflexivity].
Qed.

End TypingFacts.

(* ===================================================================== *)
(** * Scenarios *)
(* ===================================================================== *)

Module Scenarios.
Import Platform Server Notions.

(** The end-to-end scenario of the chat path: the message is classified
    crisis, an appointment is scheduled for the student with the registered
    counsellor, and the day's crisis count becomes 1. *)
Example chat_crisis_end_to_end :
  let riskLevel := Classifier.assessRiskBasedOnKeywords "I want to kill myself" in
  let run :=
    post_chat (Some sam) (mkChatBody "I want to kill myself" true (Some riskLevel))
      exampleWorld in
  riskLevel = "crisis" ∧
  valueAfter run "appointment:uuid-1" =
    Some (VAppointment
            (Appointment.mk "uuid-1" "s1" "c1" "2026-11-02" "10:00" "auto-scheduled"
               (Some "crisis") 1793557200126)) ∧
  countAfter run (riskKey 20758) "crisis" = Some 1.
Proof. repeat split; vm_compute; reflexivity. Qed.

(** The same tier reached through a questionnaire schedules nothing. *)
Example assessment_crisis_end_to_end :
  let run :=
    post_assessment (Some sam)
      (mkAssessmentBody "PHQ-9" [3; 3; 3; 3; 3; 3; 3; 3; 3] [3; 3; 3; 3; 3; 3; 3; 3; 3])
      exampleWorld in
  valueAfter run "assessment:s1:uuid-0" =
    Some (VAssessment
            (Assessment.mk "uuid-0" "s1" "PHQ-9" [3; 3; 3; 3; 3; 3; 3; 3; 3]
               [3; 3; 3; 3; 3; 3; 3; 3; 3] "Severe Depression" "crisis" 1793557200123)) ∧
  valueAfter run "appointment:uuid-0" = None ∧
  valueAfter run "appointment:uuid-1" = None ∧
  countAfter run (assessmentCounterKey 20758) "PHQ-9" = Some 1 ∧
  countAfter run (riskKey 20758) "crisis" = Some 0.
Proof. repeat split; vm_compute; reflexivity. Qed.

End Scenarios.

(* ===================================================================== *)
(** * Properties of the dashboard statistics *)
(* ===================================================================== *)

Module DashboardFacts.
Import JsNumber AdminDashboard Notions.

(** C7, as stated, fails: for the counts {low: 3, crisis: 1} the crisis
    rate is the string "25.0", a percentage, and not the fraction 0.25. *)
Lemma crisis_rate_is_a_percentage :
  crisisRate <$> getOverallStats (Some [ <["low" := 3]> (<["crisis" := 1]> ∅) ])
    = Some "25.0" ∧
  crisisRate <$> getOverallStats (Some [ <["low" := 3]> (<["crisis" := 1]> ∅) ])
    ≠ Some "0.25".
Proof. split; [vm_compute; reflexivity | vm_compute; discriminate]. Qed.

(** C7, as the code has it: when the total of the last seven days is not
    positive the rate is the string "0" and nothing is divided; otherwise
    it is the percentage 100 * crisis / total written with one decimal,
    "25.0" for the counts {low: 3, crisis: 1}. *)
Theorem crisis_rate_percentage (riskAnalytics : option (list Counts)) :
  let riskData := processRiskData riskAnalytics in
  let total := fold_left (λ sum day, sum + Total day) riskData 0 in
  let crisis := fold_left (λ sum day, sum + Crisis day) riskData 0 in
  (total ≤ 0 → crisisRate <$> getOverallStats riskAnalytics = Some "0") ∧
  (0 < total →
     crisisRate <$> getOverallStats riskAnalytics =
       toFixed1 (PrimFloat.mul (PrimFloat.div (ofZ crisis) (ofZ total)) (ofZ 100))) ∧
  crisisRate <$> getOverallStats (Some [ <["low" := 3]> (<["crisis" := 1]> ∅) ])
    = Some "25.0".
Proof.
  intros riskData total crisis. unfold getOverallStats.
  fold riskData. fold total. fold crisis.
  split; [|split].
  - intros H. destruct (Z.ltb_spec 0 total); [lia|]. reflexivity.
  - intros H. destruct (Z.ltb_spec 0 total); [|lia].
    destruct (toFixed1 _); reflexivity.
  - vm_compute. reflexivity.
Qed.

Lemma crisis_rate_percentage_witness :
  crisisRate <$> getOverallStats (Some [∅; <["low" := 0]> ∅]) = Some "0".
Proof.
  destruct (crisis_rate_percentage (Some [∅; <["low" := 0]> ∅])) as [Hzero _].
  apply Hzero. vm_compute. discriminate.
Defined.

End DashboardFacts.

(* ===================================================================== *)
(** * Properties of [getByPrefix] *)
(* ===================================================================== *)

Module StoreFacts.
Import JsString JsStringFacts Platform Server Notions Handlers Views ServerFacts.

Lemma getByPrefix_values (prefix : string) (w : World) :
  Kv.getByPrefix prefix w = Some (valuesWithPrefix (store w) prefix, w).
Proof. reflexivity. Qed.

Lemma counsellorPool_values (w : World) :
  counsellorPool w = counsellorProfiles (valuesWithPrefix (store w) "user:").
Proof. reflexivity. Qed.

Lemma elem_of_prefixEntries (s : Store) (prefix key : string) (v : Value) :
  (key, v) ∈ List.filter (λ kv, startsWith kv.1 prefix) (map_to_list s) ↔
  startsWith key prefix = true ∧ s !! key = Some v.
Proof.
  rewrite list_elem_of_In, filter_In, <- list_elem_of_In, elem_of_map_to_list.
  simpl. tauto.
Qed.

(** [getByPrefix] returns exactly the values stored under the keys that
    start with the prefix. *)
Lemma elem_of_valuesWithPrefix (s : Store) (prefix : string) (v : Value) :
  v ∈ valuesWithPrefix s prefix ↔ ∃ key, startsWith key prefix = true ∧ s !! key = Some v.
Proof.
  unfold valuesWithPrefix. rewrite list_elem_of_fmap. split.
  - intros ([key v'] & -> & Hin). exists key. by apply elem_of_prefixEntries.
  - intros (key & Hkey & Hv). exists (key, v). split; [reflexivity|].
    by apply elem_of_prefixEntries.
Qed.

Lemma NoDup_prefixEntries (s : Store) (prefix : string) :
  NoDup (List.filter (λ kv, startsWith kv.1 prefix) (map_to_list s)).
Proof. apply NoDup_ListNoDup, List.NoDup_filter, NoDup_ListNoDup, NoDup_map_to_list. Qed.

(** The values under a prefix depend only on what is stored under the keys
    with that prefix. *)
Lemma valuesWithPrefix_ext (s s' : Store) (prefix : string) :
  (∀ key, startsWith key prefix = true → s !! key = s' !! key) →
  valuesWithPrefix s prefix ≡ₚ valuesWithPrefix s' prefix.
Proof.
  intros Hsame. unfold valuesWithPrefix. apply fmap_Permutation.
  apply NoDup_Permutation; [apply NoDup_prefixEntries..|].
  intros [key v]. rewrite !elem_of_prefixEntries.
  split; intros [Hkey Hv]; (split; [assumption|]);
    [rewrite <- Hsame | rewrite Hsame]; assumption.
Qed.

Lemma filter_Permutation {A} (f : A → bool) (l l' : list A) :
  l ≡ₚ l' → List.filter f l ≡ₚ List.filter f l'.
Proof.
  induction 1 as [|x l l' _ IH|x y l|l l' l'' _ IH1 _ IH2]; simpl.
  - reflexivity.
  - destruct (f x); [by constructor|assumption].
  - destruct (f x), (f y); try reflexivity. apply perm_swap.
  - by etransitivity.
Qed.

Lemma valuesWithPrefix_insert_fresh (s : Store) (prefix key : string) (v : Value) :
  s !! key = None → startsWith key prefix = true →
  valuesWithPrefix (<[key := v]> s) prefix ≡ₚ v :: valuesWithPrefix s prefix.
Proof.
  intros Hfresh Hkey. unfold valuesWithPrefix.
  rewrite (filter_Permutation _ _ _ (map_to_list_insert s key v Hfresh)).
  simpl. rewrite Hkey. reflexivity.
Qed.

Lemma valuesWithPrefix_insert_other (s : Store) (prefix key : string) (v : Value) :
  startsWith key prefix = false →
  valuesWithPrefix (<[key := v]> s) prefix ≡ₚ valuesWithPrefix s prefix.
Proof.
  intros Hkey. apply valuesWithPrefix_ext. intros key' Hkey'.
  apply lookup_insert_ne. intros ->. congruence.
Qed.

(** Writing under a key that is already set replaces its value in the
    listing. *)
Lemma valuesWithPrefix_insert_set (s : Store) (prefix key : string) (v old : Value) :
  s !! key = Some old → startsWith key prefix = true →
  valuesWithPrefix (<[key := v]> s) prefix ≡ₚ v :: valuesWithPrefix (delete key s) prefix ∧
  valuesWithPrefix s prefix ≡ₚ old :: valuesWithPrefix (delete key s) prefix.
Proof.
  intros Hold Hkey. split.
  - rewrite <- (insert_delete_eq s key v).
    apply valuesWithPrefix_insert_fresh; [apply lookup_delete_eq|assumption].
  - rewrite <- (insert_delete_id s key old Hold) at 1.
    apply valuesWithPrefix_insert_fresh; [apply lookup_delete_eq|assumption].
Qed.

End StoreFacts.

(* ===================================================================== *)
(** * What a chat submission stores *)
(* ===================================================================== *)

Module ChatStoreFacts.
Import JsString JsStringFacts Platform Server Notions Handlers Views.
Import ServerFacts ChatFacts AssessmentFacts TypingFacts StoreFacts.

Lemma elem_of_counsellorProfiles (p : Profile.t) (values : list Value) :
  p ∈ counsellorProfiles values ↔ VProfile p ∈ values ∧ Profile.role p = "counsellor".
Proof.
  unfold counsellorProfiles. rewrite list_elem_of_omap. split.
  - intros (v & Hv & Hp). destruct v as [q| | | | |]; try discriminate.
    destruct (String.eqb_spec (Profile.role q) "counsellor") as [Hrole|]; [|discriminate].
    injection Hp as ->. by split.
  - intros [Hv Hrole]. exists (VProfile p). split; [assumption|].
    rewrite Hrole. reflexivity.
Qed.

Lemma appointmentKey_not_riskCounter (key : string) :
  isAppointmentKey key = true → isRiskCounterKey key = false.
Proof.
  intros H. destruct (isRiskCounterKey key) eqn:E; [|reflexivity].
  apply riskCounterKey_not_appointment in E. congruence.
Qed.

(** The escalation block, by cases. *)
Lemma createAutomaticAppointment_cases (user : User.t) (r : option string) (w : World) :
  ∃ w', createAutomaticAppointment user r w = Some (tt, w') ∧
        clock w' = clock w ∧
        (((r ≠ Some "crisis" ∧ r ≠ Some "high") ∨ counsellorPool w = []) ∧ w' = w
         ∨ (r = Some "crisis" ∨ r = Some "high") ∧
           ∃ first rest,
             counsellorPool w = first :: rest ∧
             let id := uuid w (uuids w) in
             let appointment :=
               Appointment.mk id (User.id user) (Profile.id first)
                 (isoDate (epochDay (clock w (ticks w)) + 1)) "10:00" "auto-scheduled" r
                 (clock w (S (ticks w))) in
             store w' =
               <["counsellor-appointment:" +:+ Profile.id first +:+ ":" +:+ id :=
                   VAppointment appointment]>
                 (<["student-appointment:" +:+ User.id user +:+ ":" +:+ id :=
                      VAppointment appointment]>
                    (<["appointment:" +:+ id := VAppointment appointment]> (store w)))).
Proof.
  unfold createAutomaticAppointment.
  destruct (strictEq r "crisis" || strictEq r "high") eqn:E.
  - apply escalates_iff in E.
    unfold mbind, M_bind, Kv.getByPrefix. fold (counsellorPool w).
    destruct (counsellorPool w) as [|first rest] eqn:Hpool.
    + exists w. split; [reflexivity|]. split; [reflexivity|]. left. by split; [right|].
    + simpl. eexists. split; [reflexivity|]. split; [reflexivity|]. right.
      split; [assumption|]. exists first, rest. split; [reflexivity|].
      cbv zeta. simpl. rewrite epochDay_tomorrow. reflexivity.
  - exists w. split; [reflexivity|]. split; [reflexivity|]. left. split; [|reflexivity].
    left. apply not_true_iff_false in E. rewrite escalates_iff in E. tauto.
Qed.

Lemma counsellorPool_same (w w' : World) :
  (∀ key, startsWith key "user:" = true → store w' !! key = store w !! key) →
  ∀ p, p ∈ counsellorPool w' ↔ p ∈ counsellorPool w.
Proof.
  intros Hsame p. rewrite !counsellorPool_values, !elem_of_counsellorProfiles.
  by rewrite (valuesWithPrefix_ext _ _ _ Hsame).
Qed.

Lemma userKey_not_chat (uid rest : string) : startsWith ("chat:" +:+ rest) "user:" = false.
Proof. reflexivity. Qed.

(** What one authenticated chat submission leaves in the store. *)
Lemma post_chat_store_objects (user : User.t) (body : ChatBody) (w : World) :
  analyticsObjects (store w) →
  let chatKey := "chat:" +:+ User.id user +:+ ":" +:+ pretty (clock w (S (ticks w))) in
  let chatMessage :=
    ChatMessage.mk (uuid w (uuids w)) (User.id user) (message body) (isUser body)
      (if truthy (riskLevel body) then riskLevel body else None) (clock w (ticks w)) in
  ∃ w', post_chat (Some user) body w = Some (json_chat chatMessage, w') ∧
        clock w' = clock w ∧
        store w' !! chatKey = Some (VChatMessage chatMessage) ∧
        (∀ key, key ≠ chatKey → isAppointmentKey key = false →
                isRiskCounterKey key = false → store w' !! key = store w !! key) ∧
        ((riskLevel body ≠ Some "crisis" ∧ riskLevel body ≠ Some "high")
         ∨ counsellorPool w = [] →
           ∀ key, isAppointmentKey key = true → store w' !! key = store w !! key) ∧
        (riskLevel body = Some "crisis" ∨ riskLevel body = Some "high" →
         counsellorPool w ≠ [] →
           ∃ counsellor,
             counsellor ∈ counsellorPool w ∧
             let id := uuid w (S (uuids w)) in
             let appointment :=
               Appointment.mk id (User.id user) (Profile.id counsellor)
                 (isoDate (epochDay (clock w (S (S (ticks w)))) + 1)) "10:00"
                 "auto-scheduled" (riskLevel body) (clock w (S (S (S (ticks w))))) in
             store w' !! ("appointment:" +:+ id) = Some (VAppointment appointment) ∧
             store w' !! ("student-appointment:" +:+ User.id user +:+ ":" +:+ id)
               = Some (VAppointment appointment) ∧
             store w' !! ("counsellor-appointment:" +:+ Profile.id counsellor +:+ ":" +:+ id)
               = Some (VAppointment appointment)).
Proof.
  intros Htyped chatKey chatMessage.
  unfold post_chat, mbind, M_bind, Env.randomUUID, Env.dateNow, Kv.set.
  cbn [store clock ticks uuid uuids].
  fold chatKey. fold chatMessage.
  set (w1 := mkWorld _ _ _ _ _).
  assert (isAppointmentKey chatKey = false ∧ isRiskCounterKey chatKey = false
          ∧ startsWith chatKey "user:" = false) as (Hc1 & Hc2 & Hc3) by done.
  assert (∀ p, p ∈ counsellorPool w1 ↔ p ∈ counsellorPool w) as Hpool.
  { apply counsellorPool_same. intros key Hkey. apply lookup_insert_ne.
    intros <-. congruence. }
  destruct (createAutomaticAppointment_cases user (riskLevel body) w1)
    as (w2 & -> & Hclock2 & Hcases).
  change (clock w1) with (clock w) in Hclock2.
  destruct (storeRiskAnalytics_run (riskLevel body) w2)
    as (w3 & -> & Hclock3 & Hframe3 & _).
  { intros v Hv. apply (Htyped (riskKey (epochDay (clock w2 (ticks w2))))); [reflexivity|].
    rewrite <- Hv. symmetry.
    assert (store w1 !! riskKey (epochDay (clock w2 (ticks w2)))
            = store w !! riskKey (epochDay (clock w2 (ticks w2)))) as Hw1.
    { apply lookup_insert_ne. intros E. apply (f_equal isRiskCounterKey) in E.
      rewrite Hc2 in E. discriminate E. }
    destruct Hcases as [[_ ->]|(_ & first & rest & _ & Hstore)]; [exact Hw1|].
    rewrite Hstore. rewrite !lookup_insert_ne; [exact Hw1|..]; intros E;
      apply (f_equal isRiskCounterKey) in E; discriminate E. }
  assert (∀ key, isRiskCounterKey key = false → store w3 !! key = store w2 !! key) as Hw3.
  { intros key Hkey. apply Hframe3. intros ->. discriminate Hkey. }
  exists w3. split; [reflexivity|]. split; [congruence|].
  destruct Hcases as [[Hnone ->]|(Hlevel & first & rest & Hfirst & Hstore)].
  - split; [rewrite Hw3 by assumption; apply lookup_insert_eq|].
    split.
    { intros key Hne _ Hrisk. rewrite Hw3 by assumption. by apply lookup_insert_ne. }
    split.
    { intros _ key Hkey. rewrite Hw3 by now apply appointmentKey_not_riskCounter.
      apply lookup_insert_ne. intros <-. congruence. }
    intros Hlevel Hnonempty. exfalso. destruct Hnone as [[H1 H2]|Hempty].
    + destruct Hlevel; congruence.
    + destruct (counsellorPool w) as [|p pool] eqn:Hp; [done|].
      assert (p ∈ counsellorPool w1) as Hin by (apply Hpool; left).
      rewrite Hempty in Hin. by apply not_elem_of_nil in Hin.
  - cbv zeta in Hstore.
    change (uuid w1 (uuids w1)) with (uuid w (S (uuids w))) in Hstore.
    change (clock w1 (ticks w1)) with (clock w (S (S (ticks w)))) in Hstore.
    change (clock w1 (S (ticks w1))) with (clock w (S (S (S (ticks w))))) in Hstore.
    set (id := uuid w (S (uuids w))) in *.
    set (appointment := Appointment.mk _ _ _ _ _ _ _ _) in Hstore.
    destruct (appointment_keys id (User.id user) (Profile.id first)) as (K1 & K2 & K3).
    split.
    { rewrite Hw3 by assumption. rewrite Hstore.
      rewrite !lookup_insert_ne; [apply lookup_insert_eq|..]; intros E;
        apply (f_equal isAppointmentKey) in E; rewrite Hc1 in E;
        first [rewrite K1 in E | rewrite K2 in E | rewrite K3 in E]; discriminate E. }
    split.
    { intros key Hne Happ Hrisk. rewrite Hw3 by assumption. rewrite Hstore.
      rewrite (insert_other _ _ _ _ _ K3 Happ), (insert_other _ _ _ _ _ K2 Happ),
        (insert_other _ _ _ _ _ K1 Happ).
      by apply lookup_insert_ne. }
    split.
    { intros [[H1 H2]|Hempty]; [destruct Hlevel; congruence|].
      exfalso. assert (first ∈ counsellorPool w) as Hin.
      { apply Hpool. rewrite Hfirst. left. }
      rewrite Hempty in Hin. by apply not_elem_of_nil in Hin. }
    intros _ _. exists first. split; [apply Hpool; rewrite Hfirst; left|].
    cbv zeta. fold id. fold appointment.
    rewrite !Hw3 by now apply appointmentKey_not_riskCounter.
    rewrite Hstore. split; [|split].
    + rewrite lookup_insert_ne, lookup_insert_ne; [apply lookup_insert_eq|..]; intros E;
        apply (f_equal (λ k, startsWith k "appointment:")) in E; discriminate E.
    + rewrite lookup_insert_ne; [apply lookup_insert_eq|]. intros E.
      apply (f_equal (λ k, startsWith k "student-appointment:")) in E. discriminate E.
    + apply lookup_insert_eq.
Qed.

Lemma post_chat_store (user : User.t) (body : ChatBody) (w : World) :
  analyticsTyped (store w) →
  let chatKey := "chat:" +:+ User.id user +:+ ":" +:+ pretty (clock w (S (ticks w))) in
  let chatMessage :=
    ChatMessage.mk (uuid w (uuids w)) (User.id user) (message body) (isUser body)
      (if truthy (riskLevel body) then riskLevel body else None) (clock w (ticks w)) in
  ∃ w', post_chat (Some user) body w = Some (json_chat chatMessage, w') ∧
        clock w' = clock w ∧
        store w' !! chatKey = Some (VChatMessage chatMessage) ∧
        (∀ key, key ≠ chatKey → isAppointmentKey key = false →
                isRiskCounterKey key = false → store w' !! key = store w !! key) ∧
        ((riskLevel body ≠ Some "crisis" ∧ riskLevel body ≠ Some "high")
         ∨ counsellorPool w = [] →
           ∀ key, isAppointmentKey key = true → store w' !! key = store w !! key) ∧
        (riskLevel body = Some "crisis" ∨ riskLevel body = Some "high" →
         counsellorPool w ≠ [] →
           ∃ counsellor,
             counsellor ∈ counsellorPool w ∧
             let id := uuid w (S (uuids w)) in
             let appointment :=
               Appointment.mk id (User.id user) (Profile.id counsellor)
                 (isoDate (epochDay (clock w (S (S (ticks w)))) + 1)) "10:00"
                 "auto-scheduled" (riskLevel body) (clock w (S (S (S (ticks w))))) in
             store w' !! ("appointment:" +:+ id) = Some (VAppointment appointment) ∧
             store w' !! ("student-appointment:" +:+ User.id user +:+ ":" +:+ id)
               = Some (VAppointment appointment) ∧
             store w' !! ("counsellor-appointment:" +:+ Profile.id counsellor +:+ ":" +:+ id)
               = Some (VAppointment appointment)).
Proof. intros Htyped. by apply post_chat_store_objects, analyticsTyped_objects. Qed.

End ChatStoreFacts.

(* ===================================================================== *)
(** * Appointments: booking, escalation and the appointment route *)
(* ===================================================================== *)

Module AppointmentFacts.
Import JsString JsStringFacts Platform Server Notions Handlers Views.
Import ServerFacts ChatFacts TypingFacts StoreFacts ChatStoreFacts.

Lemma startsWith_app_both (a s p : string) :
  startsWith (a +:+ s) (a +:+ p) = startsWith s p.
Proof.
  induction a as [|c a IH]; simpl; [reflexivity|].
  by rewrite Ascii.eqb_refl.
Qed.

(** A key built for a user starts with the prefix read for that user. *)
Lemma userPrefix_startsWith (family uid id : string) :
  startsWith (family +:+ uid +:+ ":" +:+ id) (family +:+ uid +:+ ":") = true.
Proof. by rewrite !startsWith_app_both. Qed.

Lemma get_appointments_student (user : User.t) (w : World) (v : Value) :
  store w !! ("user:" +:+ User.id user) = Some v → roleIs v "student" = true →
  get_appointments (Some user) w =
    Some (reply_appointments
            (valuesWithPrefix (store w) ("student-appointment:" +:+ User.id user +:+ ":")),
          w).
Proof.
  intros Hv Hrole. unfold get_appointments, mbind, M_bind, Kv.get.
  rewrite Hv, Hrole. reflexivity.
Qed.

Lemma get_appointments_counsellor (user : User.t) (w : World) (v : Value) :
  store w !! ("user:" +:+ User.id user) = Some v →
  roleIs v "student" = false → roleIs v "counsellor" = true →
  get_appointments (Some user) w =
    Some (reply_appointments
            (valuesWithPrefix (store w)
               ("counsellor-appointment:" +:+ User.id user +:+ ":")),
          w).
Proof.
  intros Hv Hstudent Hrole. unfold get_appointments, mbind, M_bind, Kv.get.
  rewrite Hv, Hstudent, Hrole. reflexivity.
Qed.

(** The appointment route on a store that holds the appointment under the
    reader's keys. *)
Lemma get_appointments_holds
    (reader : User.t) (profile : Profile.t) (appointment : Appointment.t) (id : string)
    (w : World) :
  store w !! ("user:" +:+ User.id reader) = Some (VProfile profile) →
  (Profile.role profile = "student" ∧
   store w !! ("student-appointment:" +:+ User.id reader +:+ ":" +:+ id)
     = Some (VAppointment appointment))
  ∨ (Profile.role profile = "counsellor" ∧
     store w !! ("counsellor-appointment:" +:+ User.id reader +:+ ":" +:+ id)
       = Some (VAppointment appointment)) →
  ∃ appointments,
    get_appointments (Some reader) w = Some (reply_appointments appointments, w) ∧
    VAppointment appointment ∈ appointments.
Proof.
  intros Hprofile [[Hrole Hstored]|[Hrole Hstored]].
  - eexists. split.
    + apply (get_appointments_student _ _ _ Hprofile). simpl. by rewrite Hrole.
    + apply elem_of_valuesWithPrefix. eexists. split; [|exact Hstored].
      apply userPrefix_startsWith.
  - eexists. split.
    + apply (get_appointments_counsellor _ _ _ Hprofile); simpl; by rewrite Hrole.
    + apply elem_of_valuesWithPrefix. eexists. split; [|exact Hstored].
      apply userPrefix_startsWith.
Qed.

(** What booking leaves in the store. *)
Lemma post_appointment_store (user : User.t) (body : AppointmentBody) (w : World) :
  let id := uuid w (uuids w) in
  let appointment :=
    Appointment.mk id (User.id user) (counsellorId body) (date body) (time body)
      "scheduled" None (clock w (ticks w)) in
  ∃ w', post_appointment (Some user) body w = Some (reply_appointment appointment, w') ∧
        store w' =
          <["counsellor-appointment:" +:+ counsellorId body +:+ ":" +:+ id :=
              VAppointment appointment]>
            (<["student-appointment:" +:+ User.id user +:+ ":" +:+ id :=
                 VAppointment appointment]>
               (<["appointment:" +:+ id := VAppointment appointment]> (store w))).
Proof.
  intros id appointment.
  unfold post_appointment, mbind, M_bind, Env.randomUUID, Env.dateNow, Kv.set.
  cbn [store clock ticks uuid uuids].
  eexists. split; reflexivity.
Qed.

Lemma post_appointment_keeps_users (user : User.t) (body : AppointmentBody) (w w' : World)
    (reply : Reply) :
  post_appointment (Some user) body w = Some (reply, w') →
  ∀ key, startsWith key "user:" = true → store w' !! key = store w !! key.
Proof.
  destruct (post_appointment_store user body w) as (w1 & -> & Hstore).
  intros [= _ <-] key Hkey. rewrite Hstore.
  rewrite !lookup_insert_ne; [reflexivity|..]; intros <-; discriminate Hkey.
Qed.

(** X1: a booked appointment is stored with status scheduled and the
    details of the request, and the appointment route then lists it both
    for the student who booked it and for the counsellor it names, each read
    by the role of the stored profile. *)
Theorem booking_round_trip
    (student reader : User.t) (body : AppointmentBody) (w : World) (profile : Profile.t) :
  store w !! ("user:" +:+ User.id reader) = Some (VProfile profile) →
  (reader = student ∧ Profile.role profile = "student")
  ∨ (User.id reader = counsellorId body ∧ Profile.role profile = "counsellor") →
  ∃ appointment w1 appointments,
    post_appointment (Some student) body w = Some (reply_appointment appointment, w1) ∧
    Appointment.studentId appointment = User.id student ∧
    Appointment.counsellorId appointment = counsellorId body ∧
    Appointment.date appointment = date body ∧
    Appointment.time appointment = time body ∧
    Appointment.status appointment = "scheduled" ∧
    Appointment.riskLevel appointment = None ∧
    get_appointments (Some reader) w1 = Some (reply_appointments appointments, w1) ∧
    VAppointment appointment ∈ appointments.
Proof.
  intros Hprofile Hreader.
  destruct (post_appointment_store student body w) as (w1 & Hrun & Hstore).
  cbv zeta in Hrun, Hstore.
  set (id := uuid w (uuids w)) in *.
  set (appointment := Appointment.mk _ _ _ _ _ _ _ _) in *.
  destruct (get_appointments_holds reader profile appointment id w1) as (l & Hget & Hin).
  - rewrite (post_appointment_keeps_users _ _ _ _ _ Hrun) by reflexivity. exact Hprofile.
  - rewrite Hstore. destruct Hreader as [[-> Hrole]|[-> Hrole]]; [left|right].
    + split; [assumption|]. rewrite lookup_insert_ne; [apply lookup_insert_eq|].
      intros E. apply (f_equal (λ k, startsWith k "student-appointment:")) in E.
      discriminate E.
    + split; [assumption|]. apply lookup_insert_eq.
  - exists appointment, w1, l. split; [exact Hrun|]. repeat (split; [reflexivity|]).
    split; assumption.
Qed.

Lemma booking_round_trip_witness :
  ∃ appointment w1 appointments,
    post_appointment (Some sam) (mkAppointmentBody "c1" "2026-12-01" "09:00") exampleWorld
      = Some (reply_appointment appointment, w1) ∧
    Appointment.status appointment = "scheduled" ∧
    get_appointments (Some (User.mk "c1")) w1 = Some (reply_appointments appointments, w1) ∧
    VAppointment appointment ∈ appointments.
Proof.
  destruct (booking_round_trip sam (User.mk "c1")
              (mkAppointmentBody "c1" "2026-12-01" "09:00") exampleWorld
              (Profile.mk "c1" "carol@campus.example" "Carol" "counsellor" 0))
    as (a & w1 & l & Hrun & _ & _ & _ & _ & Hstatus & _ & Hget & Hin).
  - vm_compute. reflexivity.
  - right. split; reflexivity.
  - exists a, w1, l. repeat split; assumption.
Defined.

Lemma userKey_kept_by_chat_objects (user : User.t) (body : ChatBody) (w w' : World)
    (response : Response) :
  analyticsObjects (store w) →
  post_chat (Some user) body w = Some (response, w') →
  ∀ key, startsWith key "user:" = true → store w' !! key = store w !! key.
Proof.
  intros Htyped Hrun key Hkey.
  destruct (post_chat_store_objects user body w Htyped) as (w1 & Hrun1 & _ & _ & Hframe & _).
  rewrite Hrun1 in Hrun. injection Hrun as _ <-.
  apply Hframe.
  - intros ->. discriminate Hkey.
  - unfold isAppointmentKey.
    rewrite (startsWith_clash key "user:" "appointment:" Hkey eq_refl).
    rewrite (startsWith_clash key "user:" "student-appointment:" Hkey eq_refl).
    by rewrite (startsWith_clash key "user:" "counsellor-appointment:" Hkey eq_refl).
  - unfold isRiskCounterKey.
    by rewrite (startsWith_clash key "user:" "analytics:risk:" Hkey eq_refl).
Qed.

Lemma userKey_kept_by_chat (user : User.t) (body : ChatBody) (w w' : World)
    (response : Response) :
  analyticsTyped (store w) →
  post_chat (Some user) body w = Some (response, w') →
  ∀ key, startsWith key "user:" = true → store w' !! key = store w !! key.
Proof.
  intros Htyped. by apply userKey_kept_by_chat_objects, analyticsTyped_objects.
Qed.

(** X2: a chat submission of tier crisis or high, made while a counsellor
    is registered, puts an auto-scheduled appointment with one of the
    registered counsellors into the store; the appointment route then lists
    it for the student and for that counsellor, and the counsellor's
    emergency list shows it. *)
Theorem escalation_reaches_dashboards
    (student : User.t) (body : ChatBody) (w : World) (studentProfile : Profile.t) :
  analyticsTyped (store w) →
  riskLevel body = Some "crisis" ∨ riskLevel body = Some "high" →
  counsellorPool w ≠ [] →
  store w !! ("user:" +:+ User.id student) = Some (VProfile studentProfile) →
  Profile.role studentProfile = "student" →
  (∀ p, p ∈ counsellorPool w → store w !! ("user:" +:+ Profile.id p) = Some (VProfile p)) →
  ∃ chatMessage w1 appointment counsellor,
    post_chat (Some student) body w = Some (json_chat chatMessage, w1) ∧
    counsellor ∈ counsellorPool w ∧
    Appointment.studentId appointment = User.id student ∧
    Appointment.counsellorId appointment = Profile.id counsellor ∧
    Appointment.status appointment = "auto-scheduled" ∧
    Appointment.riskLevel appointment = riskLevel body ∧
    (∃ appointments,
       get_appointments (Some student) w1 = Some (reply_appointments appointments, w1) ∧
       VAppointment appointment ∈ appointments) ∧
    (∃ appointments,
       get_appointments (Some (User.mk (Profile.id counsellor))) w1
         = Some (reply_appointments appointments, w1) ∧
       VAppointment appointment ∈ appointments) ∧
    (∀ appointments,
       appointment ∈ appointments →
       appointment ∈ CounsellorDashboard.getEmergencyAppointments appointments).
Proof.
  intros Htyped Hlevel Hpool Hstudent Hrole Hstored.
  destruct (post_chat_store student body w Htyped) as (w1 & Hrun & _ & _ & _ & _ & Hsched).
  destruct (Hsched Hlevel Hpool) as (counsellor & Hin & Hk1 & Hk2 & Hk3).
  cbv zeta in Hk1, Hk2, Hk3.
  set (id := uuid w (S (uuids w))) in *.
  set (appointment := Appointment.mk _ _ _ _ _ _ _ _) in *.
  pose proof (userKey_kept_by_chat _ _ _ _ _ Htyped Hrun) as Husers.
  assert (Profile.role counsellor = "counsellor") as Hcrole.
  { by apply elem_of_counsellorProfiles in Hin as [_ ?]. }
  eexists _, w1, appointment, counsellor. split; [exact Hrun|].
  split; [assumption|]. do 4 (split; [reflexivity|]).
  split; [|split].
  - apply (get_appointments_holds student studentProfile appointment id).
    + by rewrite Husers.
    + left. by split.
  - apply (get_appointments_holds (User.mk (Profile.id counsellor)) counsellor appointment id).
    + rewrite Husers by reflexivity. by apply Hstored.
    + right. by split.
  - intros appointments Happ. unfold CounsellorDashboard.getEmergencyAppointments.
    apply list_elem_of_In, filter_In. split; [by apply list_elem_of_In|]. reflexivity.
Qed.

Lemma escalation_reaches_dashboards_witness :
  ∃ chatMessage w1 appointments,
    post_chat (Some sam) (mkChatBody "I feel hopeless" true (Some "high")) exampleWorld
      = Some (json_chat chatMessage, w1) ∧
    get_appointments (Some (User.mk "c1")) w1 = Some (reply_appointments appointments, w1) ∧
    ∃ appointment,
      VAppointment appointment ∈ appointments ∧
      Appointment.status appointment = "auto-scheduled".
Proof.
  destruct (escalation_reaches_dashboards sam
              (mkChatBody "I feel hopeless" true (Some "high")) exampleWorld
              (Profile.mk "s1" "sam@campus.example" "Sam" "student" 0))
    as (msg & w1 & a & c & Hrun & Hc & _ & Hcid & Hstatus & _ & _ & (l & Hget & Hin) & _).
  - unfold exampleWorld. cbn [store].
    repeat (apply analyticsTyped_insert; [|left; reflexivity]).
    apply analyticsTyped_empty.
  - by right.
  - vm_compute. discriminate.
  - vm_compute. reflexivity.
  - reflexivity.
  - intros p Hp. vm_compute in Hp.
    apply list_elem_of_singleton in Hp as ->. vm_compute. reflexivity.
  - assert (c = Profile.mk "c1" "carol@campus.example" "Carol" "counsellor" 0) as ->.
    { vm_compute in Hc. by apply list_elem_of_singleton in Hc. }
    exists msg, w1, l. split; [exact Hrun|]. split; [exact Hget|].
    exists a. by split.
Defined.

End AppointmentFacts.

(* ===================================================================== *)
(** * Accounts: signup, profiles, the counsellor list and the analytics route *)
(* ===================================================================== *)

Module AccountFacts.
Import JsString JsStringFacts Platform Server Notions Handlers Views.
Import ServerFacts ChatFacts StoreFacts ChatStoreFacts AppointmentFacts.

(** What a successful signup leaves in the store. *)
Lemma post_signup_store (user : AuthUser.t) (body : SignupBody) (w : World) :
  let profile :=
    Profile.mk (AuthUser.id user) (AuthUser.email user) (name body) (role body)
      (clock w (ticks w)) in
  ∃ w', post_signup (createUser_data user) body w = Some (reply_user user, w') ∧
        store w' = <["user:" +:+ AuthUser.id user := VProfile profile]> (store w) ∧
        clock w' = clock w ∧ uuid w' = uuid w ∧ uuids w' = uuids w.
Proof.
  intros profile.
  unfold post_signup, mbind, M_bind, Env.dateNow, Kv.set. cbn [store clock ticks uuid uuids].
  eexists. repeat split; reflexivity.
Qed.

(** X3: signup stores the profile under the new user's id, with the name
    and the role of the request, and the profile route returns it to that
    user; when the account cannot be created the answer is 400 with the
    provider's message and nothing is stored. *)
Theorem signup_profile_round_trip (created : CreateUserResult) (body : SignupBody) (w : World) :
  match created with
  | createUser_error message =>
      post_signup created body w = Some (reply_error message 400, w)
  | createUser_data user =>
      ∃ w1 profile,
        post_signup created body w = Some (reply_user user, w1) ∧
        profile = Profile.mk (AuthUser.id user) (AuthUser.email user) (name body)
                    (role body) (clock w (ticks w)) ∧
        get_profile (Some (User.mk (AuthUser.id user))) w1
          = Some (reply_profile (Some (VProfile profile)), w1) ∧
        ∀ key, key ≠ "user:" +:+ AuthUser.id user → store w1 !! key = store w !! key
  end.
Proof.
  destruct created as [message|user]; [reflexivity|].
  destruct (post_signup_store user body w) as (w1 & Hrun & Hstore & _).
  eexists w1, _. split; [exact Hrun|]. split; [reflexivity|]. split.
  - unfold get_profile, mbind, M_bind, Kv.get. cbn [User.id].
    rewrite Hstore, lookup_insert_eq. reflexivity.
  - intros key Hne. rewrite Hstore. by apply lookup_insert_ne.
Qed.

(** The counsellors the route lists are the escalation pool, as profiles
    and in the same order. *)
Lemma counsellors_filter (values : list Value) :
  List.filter (λ user, roleIs user "counsellor") values
    = VProfile <$> counsellorProfiles values.
Proof.
  induction values as [|v values IH]; [reflexivity|].
  unfold counsellorProfiles in *. simpl.
  destruct v as [p| | | | |]; simpl; try exact IH.
  destruct (String.eqb (Profile.role p) "counsellor"); simpl; by rewrite IH.
Qed.

Lemma counsellors_are_the_pool_list (w : World) :
  ∃ counsellors,
    get_counsellors w = Some (reply_counsellors counsellors, w) ∧
    counsellors = VProfile <$> counsellorPool w.
Proof.
  eexists. split; [|reflexivity].
  unfold get_counsellors, mbind, M_bind. rewrite getByPrefix_values.
  rewrite counsellors_filter. reflexivity.
Qed.

(** X4: the counsellor route takes no user and changes nothing.  It lists
    exactly the profiles with the role counsellor that are stored under
    user keys, and a profile is listed exactly when it is a member of the
    pool the chat handler escalates to. *)
Theorem counsellors_listed (w : World) :
  ∃ counsellors,
    get_counsellors w = Some (reply_counsellors counsellors, w) ∧
    (∀ v, v ∈ counsellors ↔
          ∃ key profile,
            startsWith key "user:" = true ∧ store w !! key = Some v ∧
            v = VProfile profile ∧ Profile.role profile = "counsellor") ∧
    (∀ profile, VProfile profile ∈ counsellors ↔ profile ∈ counsellorPool w).
Proof.
  destruct (counsellors_are_the_pool_list w) as (counsellors & Hget & ->).
  exists (VProfile <$> counsellorPool w). split; [exact Hget|].
  assert (∀ profile, VProfile profile ∈ VProfile <$> counsellorPool w
                     ↔ profile ∈ counsellorPool w) as Hpool.
  { intros profile. rewrite list_elem_of_fmap. split.
    - by intros (p & [= ->] & Hp).
    - intros Hp. by exists profile. }
  split; [|exact Hpool].
  intros v. split.
  - intros Hv. destruct (proj1 (list_elem_of_fmap _ _ _) Hv) as (profile & -> & Hp).
    rewrite counsellorPool_values in Hp.
    apply elem_of_counsellorProfiles in Hp as [Hin Hrole].
    apply elem_of_valuesWithPrefix in Hin as (key & Hkey & Hlookup).
    by exists key, profile.
  - intros (key & profile & Hkey & Hlookup & -> & Hrole). apply Hpool.
    rewrite counsellorPool_values. apply elem_of_counsellorProfiles. split; [|exact Hrole].
    apply elem_of_valuesWithPrefix. by exists key.
Qed.

(** X5: whoever signs up with the role counsellor joins the escalation
    pool at once: the counsellor route lists the new profile, and from then
    on every chat submission of tier crisis or high is given an
    auto-scheduled appointment with a counsellor of the pool. *)
Theorem signup_counsellor_joins_pool (user : AuthUser.t) (body : SignupBody) (w : World) :
  role body = "counsellor" →
  analyticsTyped (store w) →
  ∃ w1 profile,
    post_signup (createUser_data user) body w = Some (reply_user user, w1) ∧
    Profile.id profile = AuthUser.id user ∧
    profile ∈ counsellorPool w1 ∧
    (∃ counsellors,
       get_counsellors w1 = Some (reply_counsellors counsellors, w1) ∧
       VProfile profile ∈ counsellors) ∧
    ∀ student chat,
      riskLevel chat = Some "crisis" ∨ riskLevel chat = Some "high" →
      ∃ chatMessage w2 appointment counsellor,
        post_chat (Some student) chat w1 = Some (json_chat chatMessage, w2) ∧
        counsellor ∈ counsellorPool w1 ∧
        store w2 !! ("appointment:" +:+ uuid w1 (S (uuids w1)))
          = Some (VAppointment appointment) ∧
        Appointment.studentId appointment = User.id student ∧
        Appointment.counsellorId appointment = Profile.id counsellor ∧
        Appointment.status appointment = "auto-scheduled".
Proof.
  intros Hrole Htyped.
  destruct (post_signup_store user body w) as (w1 & Hrun & Hstore & _).
  cbv zeta in Hstore. set (profile := Profile.mk _ _ _ _ _) in Hstore.
  assert (profile ∈ counsellorPool w1) as Hin.
  { rewrite counsellorPool_values. apply elem_of_counsellorProfiles. split; [|exact Hrole].
    apply elem_of_valuesWithPrefix. exists ("user:" +:+ AuthUser.id user).
    split; [reflexivity|]. rewrite Hstore. apply lookup_insert_eq. }
  assert (analyticsTyped (store w1)) as Htyped1.
  { rewrite Hstore. apply analyticsTyped_insert; [assumption|by left]. }
  exists w1, profile. split; [exact Hrun|]. split; [reflexivity|]. split; [exact Hin|].
  split.
  { destruct (counsellors_are_the_pool_list w1) as [l [Hget Hl]].
    exists l. split; [exact Hget|]. rewrite Hl. by apply list_elem_of_fmap_2. }
  intros student chat Hlevel.
  destruct (post_chat_store student chat w1 Htyped1) as (w2 & Hchat & _ & _ & _ & _ & Hsched).
  destruct (Hsched Hlevel) as (counsellor & Hc & Hk1 & _).
  { intros Hempty. rewrite Hempty in Hin. by apply not_elem_of_nil in Hin. }
  eexists _, w2, _, counsellor. split; [exact Hchat|]. split; [exact Hc|].
  split; [exact Hk1|]. by repeat split.
Qed.

Lemma signup_counsellor_joins_pool_witness :
  ∃ w1 profile,
    post_signup (createUser_data (AuthUser.mk "c2" "dan@campus.example"))
      (mkSignupBody "dan@campus.example" "secret" "Dan" "counsellor") exampleWorld
      = Some (reply_user (AuthUser.mk "c2" "dan@campus.example"), w1) ∧
    Profile.id profile = "c2" ∧
    profile ∈ counsellorPool w1.
Proof.
  destruct (signup_counsellor_joins_pool (AuthUser.mk "c2" "dan@campus.example")
              (mkSignupBody "dan@campus.example" "secret" "Dan" "counsellor") exampleWorld)
    as (w1 & profile & Hrun & Hid & Hin & _).
  - reflexivity.
  - unfold exampleWorld. cbn [store].
    repeat (apply analyticsTyped_insert; [|left; reflexivity]).
    apply analyticsTyped_empty.
  - by exists w1, profile.
Defined.

End AccountFacts.

(* ===================================================================== *)
(** * The analytics route *)
(* ===================================================================== *)

Module AnalyticsFacts.
Import JsString JsStringFacts Platform Server Notions Handlers Views.
Import ServerFacts ChatFacts StoreFacts ChatStoreFacts AppointmentFacts AccountFacts.

Lemma get_analytics_admin (user : User.t) (w : World) (v : Value) :
  store w !! ("user:" +:+ User.id user) = Some v → roleIs v "admin" = true →
  get_analytics (Some user) w =
    Some (reply_analytics
            (mkAnalytics (valuesWithPrefix (store w) "analytics:risk:")
               (valuesWithPrefix (store w) "analytics:assessment:")
               (countByRole (valuesWithPrefix (store w) "user:"))
               (length (valuesWithPrefix (store w) "appointment:"))
               (length (valuesWithPrefix (store w) "user:"))),
          w).
Proof.
  intros Hv Hrole. unfold get_analytics, mbind, M_bind, Kv.get.
  rewrite Hv, Hrole. reflexivity.
Qed.

(** An own property under a name that is not inherited is a number. *)
Lemma own_number (o : JsObject.t) (name : string) :
  JsObject.inherited name = false →
  o !! name = JsObject.PNumber <$> JsObject.numbers o !! name.
Proof.
  intros H. unfold lookup at 1, JsObject.own_property.
  destruct (JsObject.numbers o !! name); [reflexivity|].
  by rewrite (not_inherited _ H).
Qed.

(** Counting a name leaves the numbers under the other names as they are. *)
Lemma countOne_other (o : JsObject.t) (name role : string) :
  name ≠ role →
  JsObject.numbers (JsObject.countOne o name) !! role = JsObject.numbers o !! role.
Proof.
  intros Hne. unfold JsObject.countOne.
  destruct (JsObject.numbers o !! name) as [n|]; cbn [JsObject.numbers];
    [by rewrite lookup_insert_ne|].
  destruct (JsObject.inheritedName name) as [i|]; cbn [JsObject.numbers];
    [|by rewrite lookup_insert_ne].
  destruct (JsObject.texts o !! i) as [[|ch s]|]; cbn [JsObject.numbers];
    [by rewrite lookup_insert_ne|reflexivity|].
  by destruct i.
Qed.

(** Counting a name that is not inherited adds one to its number. *)
Lemma countOne_same (o : JsObject.t) (role : string) :
  JsObject.inherited role = false →
  JsObject.numbers (JsObject.countOne o role) !! role
  = Some (default 0 (JsObject.numbers o !! role) + 1).
Proof.
  intros H. unfold JsObject.countOne.
  destruct (JsObject.numbers o !! role) as [n|]; cbn [JsObject.numbers].
  - by rewrite lookup_insert_eq.
  - rewrite (not_inherited _ H). cbn [JsObject.numbers]. by rewrite lookup_insert_eq.
Qed.

(** The count the reduction leaves for a role, from any accumulator. *)
Lemma countByRole_acc (allUsers : list Value) (acc : JsObject.t) (role : string) :
  JsObject.inherited role = false →
  let counts :=
    fold_left (λ (acc : JsObject.t) user, JsObject.countOne acc (roleKey user))
              allUsers acc in
  default 0 (JsObject.numbers counts !! role)
  = default 0 (JsObject.numbers acc !! role) + Z.of_nat (usersWithRole role allUsers)
  ∧ (is_Some (JsObject.numbers counts !! role)
     ↔ is_Some (JsObject.numbers acc !! role) ∨ (0 < usersWithRole role allUsers)%nat).
Proof.
  intros Hrole. revert acc. induction allUsers as [|user allUsers IH]; intros acc; cbv zeta.
  - unfold usersWithRole. simpl. split; [lia|]. split; [by left|].
    intros [H|H]; [assumption|]. lia.
  - cbn [fold_left]. destruct (IH (JsObject.countOne acc (roleKey user)))
      as [IHcount IHsome]. rewrite IHcount, IHsome. clear IH IHcount IHsome.
    unfold usersWithRole. cbn [List.filter].
    destruct (String.eqb_spec (roleKey user) role) as [->|Hne].
    + rewrite (countOne_same _ _ Hrole). cbn [length default]. unfold id. split; [lia|].
      split; [intros _; right; lia|]. intros _. left. eauto.
    + rewrite (countOne_other _ _ _ Hne). by split.
Qed.

(** X6: an admin is served the analytics, in which [totalUsers] is the
    number of objects stored under user keys and [usersByRole] holds, for
    each role that is not the name of a property objects inherit, the
    number of those users that have it, a role nobody has being absent. *)
Theorem users_by_role (user : User.t) (w : World) (profile : Profile.t) :
  store w !! ("user:" +:+ User.id user) = Some (VProfile profile) →
  Profile.role profile = "admin" →
  let allUsers := valuesWithPrefix (store w) "user:" in
  ∃ analytics,
    get_analytics (Some user) w = Some (reply_analytics analytics, w) ∧
    totalUsers analytics = length allUsers ∧
    (0 < totalUsers analytics)%nat ∧
    ∀ role,
      JsObject.inherited role = false →
      usersByRole analytics !! role =
        if decide (usersWithRole role allUsers = 0%nat) then None
        else Some (JsObject.PNumber (Z.of_nat (usersWithRole role allUsers))).
Proof.
  intros Hprofile Hrole allUsers. eexists. split.
  { apply (get_analytics_admin _ _ _ Hprofile). simpl. by rewrite Hrole. }
  cbn [totalUsers usersByRole]. fold allUsers. split; [reflexivity|]. split.
  - assert (VProfile profile ∈ allUsers) as Hin.
    { apply elem_of_valuesWithPrefix. exists ("user:" +:+ User.id user). by split. }
    destruct allUsers; [by apply not_elem_of_nil in Hin|]. simpl. lia.
  - intros role Hname.
    destruct (countByRole_acc allUsers (JsObject.ofCounts ∅) role Hname) as [Hcount Hsome].
    rewrite (own_number _ _ Hname). unfold countByRole.
    cbn [JsObject.ofCounts JsObject.numbers] in Hcount, Hsome.
    rewrite lookup_empty in Hcount, Hsome. simpl in Hcount.
    case_decide as Hzero.
    + destruct (JsObject.numbers _ !! role) as [n|] eqn:E; [|reflexivity].
      exfalso. destruct (proj1 Hsome) as [[? [=]]|H]; [eauto|lia].
    + destruct (proj2 Hsome) as [n Hn]; [right; lia|].
      rewrite Hn in Hcount |- *. simpl in Hcount. simpl. by rewrite Hcount.
Qed.

Lemma users_by_role_witness :
  ∃ w1 analytics,
    post_signup (createUser_data (AuthUser.mk "a1" "root@campus.example"))
      (mkSignupBody "root@campus.example" "secret" "Root" "admin") exampleWorld
      = Some (reply_user (AuthUser.mk "a1" "root@campus.example"), w1) ∧
    get_analytics (Some (User.mk "a1")) w1 = Some (reply_analytics analytics, w1) ∧
    totalUsers analytics = 3%nat ∧
    usersByRole analytics !! "counsellor" = Some (JsObject.PNumber 1).
Proof.
  destruct (post_signup_store (AuthUser.mk "a1" "root@campus.example")
              (mkSignupBody "root@campus.example" "secret" "Root" "admin") exampleWorld)
    as (w1 & Hrun & Hstore & _).
  destruct (users_by_role (User.mk "a1") w1
              (Profile.mk "a1" "root@campus.example" "Root" "admin" 1793557200123))
    as (a & Hget & Htotal & _ & Hroles).
  - rewrite Hstore. apply lookup_insert_eq.
  - reflexivity.
  - exists w1, a. split; [exact Hrun|]. split; [exact Hget|].
    rewrite Htotal, (Hroles "counsellor" eq_refl).
    rewrite Hstore. split; vm_compute; reflexivity.
Defined.

(** X7: the role of a signup is taken from the request as it is.  A user
    who signs up with the role admin is served the analytics; with any other
    role the analytics route answers 403 and the appointment route answers
    by that role, with the empty list for a role that is neither student nor
    counsellor. *)
Theorem signup_role_decides_access (user : AuthUser.t) (body : SignupBody) (w : World) :
  ∃ w1,
    post_signup (createUser_data user) body w = Some (reply_user user, w1) ∧
    let reader := User.mk (AuthUser.id user) in
    (role body = "admin" →
       ∃ analytics,
         get_analytics (Some reader) w1 = Some (reply_analytics analytics, w1) ∧
         is_Some (usersByRole analytics !! "admin")) ∧
    (role body ≠ "admin" →
       get_analytics (Some reader) w1
         = Some (reply_error "Access denied - Admin only" 403, w1)) ∧
    (role body ≠ "student" → role body ≠ "counsellor" →
       get_appointments (Some reader) w1 = Some (reply_appointments [], w1)).
Proof.
  destruct (post_signup_store user body w) as (w1 & Hrun & Hstore & _).
  cbv zeta in Hstore. set (profile := Profile.mk _ _ _ _ _) in Hstore.
  assert (store w1 !! ("user:" +:+ AuthUser.id user) = Some (VProfile profile)) as Hprofile.
  { rewrite Hstore. apply lookup_insert_eq. }
  exists w1. split; [exact Hrun|]. cbv zeta. split; [|split].
  - intros Hrole.
    eexists. split.
    { apply (get_analytics_admin (User.mk (AuthUser.id user)) w1 (VProfile profile) Hprofile).
      unfold roleIs, profile. cbn [Profile.role]. by rewrite Hrole. }
    cbn [usersByRole]. rewrite (own_number _ "admin" eq_refl). apply fmap_is_Some.
    destruct (countByRole_acc (valuesWithPrefix (store w1) "user:") (JsObject.ofCounts ∅)
                "admin" eq_refl) as [_ Hsome].
    apply Hsome. right.
    assert (VProfile profile ∈ List.filter (λ u, String.eqb (roleKey u) "admin")
                                 (valuesWithPrefix (store w1) "user:")) as Hin.
    { apply list_elem_of_In, filter_In. split.
      - apply list_elem_of_In, elem_of_valuesWithPrefix.
        exists ("user:" +:+ AuthUser.id user). by split.
      - simpl. by rewrite Hrole. }
    unfold usersWithRole.
    destruct (List.filter _ _); [by apply not_elem_of_nil in Hin|]. simpl. lia.
  - intros Hrole. unfold get_analytics, mbind, M_bind, Kv.get. cbn [User.id].
    rewrite Hprofile. simpl. apply String.eqb_neq in Hrole. by rewrite Hrole.
  - intros Hstudent Hcounsellor. unfold get_appointments, mbind, M_bind, Kv.get.
    cbn [User.id]. rewrite Hprofile. simpl.
    apply String.eqb_neq in Hstudent, Hcounsellor. by rewrite Hstudent, Hcounsellor.
Qed.

Lemma signup_role_decides_access_witness :
  ∃ w1,
    post_signup (createUser_data (AuthUser.mk "u9" "eve@campus.example"))
      (mkSignupBody "eve@campus.example" "secret" "Eve" "student") exampleWorld
      = Some (reply_user (AuthUser.mk "u9" "eve@campus.example"), w1) ∧
    get_analytics (Some (User.mk "u9")) w1
      = Some (reply_error "Access denied - Admin only" 403, w1).
Proof.
  destruct (signup_role_decides_access (AuthUser.mk "u9" "eve@campus.example")
              (mkSignupBody "eve@campus.example" "secret" "Eve" "student") exampleWorld)
    as (w1 & Hrun & _ & Hdenied & _).
  exists w1. split; [exact Hrun|]. apply Hdenied. discriminate.
Defined.

(** X8: an authenticated user of whom no profile is stored is answered
    without a profile by the profile route and with status 500 by the
    appointment and analytics routes, and none of the three changes the
    store. *)
Theorem routes_without_profile (user : User.t) (w : World) :
  store w !! ("user:" +:+ User.id user) = None →
  get_profile (Some user) w = Some (reply_profile None, w) ∧
  get_appointments (Some user) w = Some (reply_error "Failed to fetch appointments" 500, w) ∧
  get_analytics (Some user) w = Some (reply_error "Failed to fetch analytics" 500, w).
Proof.
  intros Hnone.
  unfold get_profile, get_appointments, get_analytics, mbind, M_bind, Kv.get.
  rewrite Hnone. by repeat split.
Qed.

Lemma routes_without_profile_witness :
  get_appointments (Some (User.mk "ghost")) exampleWorld
    = Some (reply_error "Failed to fetch appointments" 500, exampleWorld).
Proof.
  apply (routes_without_profile (User.mk "ghost") exampleWorld).
  vm_compute. reflexivity.
Defined.

Lemma length_valuesWithPrefix_insert_other (s : Store) (prefix key : string) (v : Value) :
  startsWith key prefix = false →
  length (valuesWithPrefix (<[key := v]> s) prefix) = length (valuesWithPrefix s prefix).
Proof. intros H. by rewrite (valuesWithPrefix_insert_other _ _ _ _ H). Qed.

(** X9: booking an appointment under a fresh id raises the
    [totalAppointments] of the analytics by exactly one, although the
    appointment is stored under three keys, and leaves [totalUsers] as it
    was. *)
Theorem booking_counts_once
    (admin student : User.t) (body : AppointmentBody) (w : World) (profile : Profile.t) :
  store w !! ("user:" +:+ User.id admin) = Some (VProfile profile) →
  Profile.role profile = "admin" →
  store w !! ("appointment:" +:+ uuid w (uuids w)) = None →
  ∃ before appointment w1 after,
    get_analytics (Some admin) w = Some (reply_analytics before, w) ∧
    post_appointment (Some student) body w = Some (reply_appointment appointment, w1) ∧
    get_analytics (Some admin) w1 = Some (reply_analytics after, w1) ∧
    totalAppointments after = S (totalAppointments before) ∧
    totalUsers after = totalUsers before.
Proof.
  intros Hprofile Hrole Hfresh.
  destruct (post_appointment_store student body w) as (w1 & Hrun & Hstore).
  cbv zeta in Hrun, Hstore.
  assert (roleIs (VProfile profile) "admin" = true) as Hadmin by (simpl; by rewrite Hrole).
  eexists _, _, w1, _. split; [exact (get_analytics_admin _ _ _ Hprofile Hadmin)|].
  split; [exact Hrun|]. split.
  { apply (get_analytics_admin _ _ (VProfile profile)); [|exact Hadmin].
    by rewrite (post_appointment_keeps_users _ _ _ _ _ Hrun). }
  cbn [totalAppointments totalUsers]. rewrite Hstore. split.
  - rewrite !length_valuesWithPrefix_insert_other by reflexivity.
    by rewrite valuesWithPrefix_insert_fresh.
  - by rewrite !length_valuesWithPrefix_insert_other.
Qed.

Lemma booking_counts_once_witness :
  ∃ w0 before appointment w1 after,
    post_signup (createUser_data (AuthUser.mk "a1" "root@campus.example"))
      (mkSignupBody "root@campus.example" "secret" "Root" "admin") exampleWorld
      = Some (reply_user (AuthUser.mk "a1" "root@campus.example"), w0) ∧
    get_analytics (Some (User.mk "a1")) w0 = Some (reply_analytics before, w0) ∧
    post_appointment (Some sam) (mkAppointmentBody "c1" "2026-12-01" "09:00") w0
      = Some (reply_appointment appointment, w1) ∧
    get_analytics (Some (User.mk "a1")) w1 = Some (reply_analytics after, w1) ∧
    totalAppointments after = S (totalAppointments before).
Proof.
  destruct (post_signup_store (AuthUser.mk "a1" "root@campus.example")
              (mkSignupBody "root@campus.example" "secret" "Root" "admin") exampleWorld)
    as (w0 & Hrun & Hstore & _ & Huuid & Huuids).
  destruct (booking_counts_once (User.mk "a1") sam
              (mkAppointmentBody "c1" "2026-12-01" "09:00") w0
              (Profile.mk "a1" "root@campus.example" "Root" "admin" 1793557200123))
    as (before & a & w1 & after & H0 & Hbook & H1 & Hcount & _).
  - rewrite Hstore. apply lookup_insert_eq.
  - reflexivity.
  - rewrite Hstore, Huuid, Huuids. vm_compute. reflexivity.
  - by exists w0, before, a, w1, after.
Defined.

End AnalyticsFacts.

(* ===================================================================== *)
(** * The chat history *)
(* ===================================================================== *)

Module HistoryFacts.
Import Sorted.
Import JsString JsStringFacts Platform Server Notions Handlers Views.
Import ServerFacts ChatFacts TypingFacts StoreFacts ChatStoreFacts AppointmentFacts.

Lemma insertByTime_perm (x : Z * Value) (sorted : list (Z * Value)) :
  insertByTime x sorted ≡ₚ x :: sorted.
Proof.
  induction sorted as [|y sorted IH]; simpl; [reflexivity|].
  destruct (x.1 <=? y.1); [reflexivity|].
  rewrite IH. apply perm_swap.
Qed.

Lemma sortByTime_perm (keyed : list (Z * Value)) : sortByTime keyed ≡ₚ keyed.
Proof.
  induction keyed as [|x keyed IH]; simpl; [reflexivity|].
  by rewrite insertByTime_perm, IH.
Qed.

Lemma insertByTime_sorted (x : Z * Value) (sorted : list (Z * Value)) :
  StronglySorted (λ a b, a.1 ≤ b.1) sorted →
  StronglySorted (λ a b, a.1 ≤ b.1) (insertByTime x sorted).
Proof.
  induction 1 as [|y sorted Hsorted IH Hy]; simpl.
  - repeat constructor.
  - destruct (Z.leb_spec x.1 y.1) as [Hle|Hlt].
    + constructor; [by constructor|]. constructor; [assumption|].
      eapply Forall_impl; [exact Hy|]. simpl. intros; lia.
    + constructor; [assumption|].
      rewrite insertByTime_perm. constructor; [lia|assumption].
Qed.

Lemma sortByTime_sorted (keyed : list (Z * Value)) :
  StronglySorted (λ a b, a.1 ≤ b.1) (sortByTime keyed).
Proof.
  induction keyed as [|x keyed IH]; simpl; [constructor|].
  by apply insertByTime_sorted.
Qed.

(** Pairing each message with its time. *)
Lemma keyed_by_timestamp (messages : list Value) (keyed : list (Z * Value)) :
  mapM (λ v, (λ t, (t, v)) <$> timestampOf v) messages = Some keyed →
  keyed.*2 = messages ∧ Forall (λ y, timestampOf y.2 = Some y.1) keyed.
Proof.
  rewrite mapM_Some. induction 1 as [|v y messages keyed Hy _ [IH1 IH2]]; [by split|].
  destruct (timestampOf v) as [t|] eqn:Ht; [|discriminate]. injection Hy as <-.
  split; [cbn [fmap list_fmap snd]; by f_equal|]. by constructor.
Qed.

Lemma sorted_values (keyed : list (Z * Value)) :
  Forall (λ y, timestampOf y.2 = Some y.1) keyed →
  StronglySorted (λ a b, a.1 ≤ b.1) keyed →
  StronglySorted notLater (keyed.*2).
Proof.
  intros Hkeys. induction 1 as [|y keyed Hsorted IH Hy]; simpl; [constructor|].
  apply Forall_cons in Hkeys as [Hkey Hkeys].
  constructor; [by apply IH|].
  apply Forall_fmap. rewrite Forall_forall in Hy, Hkeys |- *.
  intros z Hz. unfold notLater. simpl. rewrite Hkey, (Hkeys z Hz). by apply Hy.
Qed.

Lemma sortByTimestamp_sorted (messages : list Value) (w : World) :
  Forall (λ v, is_Some (timestampOf v)) messages →
  ∃ sorted, sortByTimestamp messages w = Some (sorted, w) ∧
            sorted ≡ₚ messages ∧ StronglySorted notLater sorted.
Proof.
  intros Hall. unfold sortByTimestamp.
  destruct (mapM _ messages) as [keyed|] eqn:E.
  - destruct (keyed_by_timestamp _ _ E) as [Hvalues Hkeys].
    eexists. split; [reflexivity|]. split.
    + rewrite <- Hvalues. apply fmap_Permutation, sortByTime_perm.
    + apply sorted_values; [|apply sortByTime_sorted].
      by rewrite sortByTime_perm.
  - exfalso. assert (is_Some (mapM (λ v, (λ t, (t, v)) <$> timestampOf v) messages)) as [? ?];
      [|congruence].
    apply mapM_is_Some. eapply Forall_impl; [exact Hall|].
    intros v [t Ht]. simpl. rewrite Ht. by eexists.
Qed.

(** What the chat history route returns. *)
Lemma get_chat_values (requester : User.t) (userId : string) (w : World) :
  get_chat (Some requester) userId w
  = match sortByTimestamp (valuesWithPrefix (store w) ("chat:" +:+ userId +:+ ":")) w with
    | Some (sorted, w') => Some (reply_messages sorted, w')
    | None => None
    end.
Proof. reflexivity. Qed.

(** X10: the chat history route serves any authenticated requester, also
    one who is not the owner of the history.  When every object stored
    under the owner's chat keys carries a timestamp, the answer holds exactly
    those objects, each once, in ascending order of time, and the store is
    left as it was. *)
Theorem chat_history_sorted (requester : User.t) (userId : string) (w : World) :
  let stored := valuesWithPrefix (store w) ("chat:" +:+ userId +:+ ":") in
  Forall (λ v, is_Some (timestampOf v)) stored →
  ∃ messages,
    get_chat (Some requester) userId w = Some (reply_messages messages, w) ∧
    messages ≡ₚ stored ∧
    StronglySorted notLater messages.
Proof.
  intros stored Hall. unfold get_chat, mbind, M_bind. rewrite getByPrefix_values.
  fold stored. destruct (sortByTimestamp_sorted stored w Hall) as (sorted & -> & Hperm & Hs).
  by exists sorted.
Qed.

Lemma chat_history_sorted_witness :
  get_chat (Some (User.mk "c1")) "s1" exampleChatWorld
    = Some (reply_messages
              [VChatMessage (ChatMessage.mk "m-1" "s1" "I feel sad" true (Some "moderate")
                               1793557100100);
               VChatMessage (ChatMessage.mk "m-2" "s1" "and worried" true (Some "moderate")
                               1793557100900)],
            exampleChatWorld).
Proof.
  destruct (chat_history_sorted (User.mk "c1") "s1" exampleChatWorld)
    as (messages & Hget & _ & _).
  - vm_compute. repeat constructor; by eexists.
  - assert (fst <$> get_chat (Some (User.mk "c1")) "s1" exampleChatWorld
            = Some (reply_messages
                      [VChatMessage (ChatMessage.mk "m-1" "s1" "I feel sad" true
                                       (Some "moderate") 1793557100100);
                       VChatMessage (ChatMessage.mk "m-2" "s1" "and worried" true
                                       (Some "moderate") 1793557100900)])) as Hvalue
      by (vm_compute; reflexivity).
    rewrite Hget in Hvalue |- *. by injection Hvalue as ->.
Defined.

Lemma startsWith_app_l (key a b : string) :
  startsWith key (a +:+ b) = true → startsWith key a = true.
Proof.
  revert key. induction a as [|c a IH]; intros key; simpl; [reflexivity|].
  destruct key as [|d key]; [discriminate|].
  destruct (Ascii.eqb c d); [apply IH|discriminate].
Qed.

(** Keys of the chat family are neither appointment keys nor keys of risk
    counters. *)
Lemma chatKey_family (key rest : string) :
  startsWith key ("chat:" +:+ rest) = true →
  isAppointmentKey key = false ∧ isRiskCounterKey key = false.
Proof.
  intros H. apply (startsWith_app_l key "chat:") in H.
  unfold isAppointmentKey, isRiskCounterKey.
  rewrite (startsWith_clash key "chat:" "appointment:" H eq_refl).
  rewrite (startsWith_clash key "chat:" "student-appointment:" H eq_refl).
  rewrite (startsWith_clash key "chat:" "counsellor-appointment:" H eq_refl).
  by rewrite (startsWith_clash key "chat:" "analytics:risk:" H eq_refl).
Qed.

(** After a chat submission the keys of the chat family read as after a
    single write of the message under its key. *)
Lemma post_chat_history (user : User.t) (body : ChatBody) (w : World) :
  analyticsObjects (store w) →
  let chatKey := "chat:" +:+ User.id user +:+ ":" +:+ pretty (clock w (S (ticks w))) in
  ∃ chatMessage w',
    post_chat (Some user) body w = Some (json_chat chatMessage, w') ∧
    ChatMessage.message chatMessage = message body ∧
    ChatMessage.isUser chatMessage = isUser body ∧
    ChatMessage.timestamp chatMessage = clock w (ticks w) ∧
    clock w' = clock w ∧
    analyticsObjects (store w') ∧
    ∀ rest key,
      startsWith key ("chat:" +:+ rest) = true →
      store w' !! key = <[chatKey := VChatMessage chatMessage]> (store w) !! key.
Proof.
  intros Htyped chatKey.
  destruct (post_chat_store_objects user body w Htyped)
    as (w' & Hrun & Hclock & Hkey & Hframe & _).
  eexists _, w'. split; [exact Hrun|]. do 3 (split; [reflexivity|]).
  split; [exact Hclock|]. split.
  { destruct (TypingFacts.post_chat_total (Some user) body w Htyped) as (r & w2 & Hrun2 & Ht).
    rewrite Hrun in Hrun2. by injection Hrun2 as _ <-. }
  intros rest key Hpre.
  destruct (decide (key = chatKey)) as [->|Hne].
  - fold chatKey in Hkey. by rewrite Hkey, lookup_insert_eq.
  - rewrite lookup_insert_ne by done.
    destruct (chatKey_family key rest Hpre) as [H1 H2]. by apply Hframe.
Qed.

(** X11: a message posted to the chat route is in the history the chat
    history route then returns for its author, with the text and the time of
    the post. *)
Theorem posted_message_is_listed (user reader : User.t) (body : ChatBody) (w : World) :
  analyticsTyped (store w) →
  Forall (λ v, is_Some (timestampOf v))
         (valuesWithPrefix (store w) ("chat:" +:+ User.id user +:+ ":")) →
  ∃ chatMessage w1 messages,
    post_chat (Some user) body w = Some (json_chat chatMessage, w1) ∧
    ChatMessage.message chatMessage = message body ∧
    ChatMessage.timestamp chatMessage = clock w (ticks w) ∧
    get_chat (Some reader) (User.id user) w1 = Some (reply_messages messages, w1) ∧
    VChatMessage chatMessage ∈ messages ∧
    StronglySorted notLater messages.
Proof.
  intros Htyped Hall.
  destruct (post_chat_history user body w (analyticsTyped_objects _ Htyped))
    as (msg & w1 & Hrun & Hmsg & _ & Htime & _ & _ & Hhist).
  set (chatKey := "chat:" +:+ User.id user +:+ ":" +:+ pretty (clock w (S (ticks w)))) in *.
  set (prefix := "chat:" +:+ User.id user +:+ ":") in *.
  assert (startsWith chatKey prefix = true) as Hpre by apply userPrefix_startsWith.
  assert (∃ messages,
            get_chat (Some reader) (User.id user) w1 = Some (reply_messages messages, w1) ∧
            messages ≡ₚ valuesWithPrefix (store w1) prefix ∧
            StronglySorted notLater messages) as (messages & Hget & Hperm & Hs).
  { rewrite get_chat_values. fold prefix.
    destruct (sortByTimestamp_sorted (valuesWithPrefix (store w1) prefix) w1)
      as (sorted & -> & Hperm & Hs); [|by exists sorted]. rewrite (valuesWithPrefix_ext _ _ prefix (Hhist (User.id user +:+ ":"))).
    apply Forall_forall. intros v Hv.
    apply elem_of_valuesWithPrefix in Hv as (key & Hkey & Hlook).
    destruct (decide (chatKey = key)) as [<-|Hne].
    - rewrite lookup_insert_eq in Hlook. injection Hlook as <-. by eexists.
    - rewrite lookup_insert_ne in Hlook by done.
      rewrite Forall_forall in Hall. apply Hall, elem_of_valuesWithPrefix. eauto. }
  exists msg, w1, messages. split; [exact Hrun|]. split; [exact Hmsg|].
  split; [exact Htime|]. split; [exact Hget|]. split; [|exact Hs].
  rewrite Hperm. fold prefix.
  rewrite (valuesWithPrefix_ext _ _ prefix (Hhist (User.id user +:+ ":"))).
  apply elem_of_valuesWithPrefix. exists chatKey. split; [exact Hpre|].
  apply lookup_insert_eq.
Qed.

Lemma posted_message_is_listed_witness :
  ∃ chatMessage w1 messages,
    post_chat (Some sam) (mkChatBody "I feel stressed" true (Some "moderate"))
      exampleChatWorld = Some (json_chat chatMessage, w1) ∧
    get_chat (Some sam) "s1" w1 = Some (reply_messages messages, w1) ∧
    VChatMessage chatMessage ∈ messages.
Proof.
  destruct (posted_message_is_listed sam sam
              (mkChatBody "I feel stressed" true (Some "moderate")) exampleChatWorld)
    as (msg & w1 & messages & Hrun & _ & _ & Hget & Hin & _).
  - unfold exampleChatWorld, exampleWorld. cbn [store].
    repeat (apply analyticsTyped_insert; [|left; reflexivity]).
    apply analyticsTyped_empty.
  - vm_compute. repeat constructor; by eexists.
  - by exists msg, w1, messages.
Defined.

(** X12: the key of a chat message is made of the author and the
    millisecond of the post.  When two posts of one author read the same
    millisecond, the second takes the place of the first: the history after
    the second post is the history after the first with the first message
    replaced by the second. *)
Theorem same_millisecond_overwrites
    (user : User.t) (first second : ChatBody) (w : World) (t : Z) :
  analyticsTyped (store w) →
  (∀ n, clock w n = t) →
  ∃ m1 w1 m2 w2 others,
    post_chat (Some user) first w = Some (json_chat m1, w1) ∧
    post_chat (Some user) second w1 = Some (json_chat m2, w2) ∧
    ChatMessage.message m1 = message first ∧
    ChatMessage.message m2 = message second ∧
    valuesWithPrefix (store w1) ("chat:" +:+ User.id user +:+ ":")
      ≡ₚ VChatMessage m1 :: others ∧
    valuesWithPrefix (store w2) ("chat:" +:+ User.id user +:+ ":")
      ≡ₚ VChatMessage m2 :: others.
Proof.
  intros Htyped Hclock.
  destruct (post_chat_history user first w (analyticsTyped_objects _ Htyped))
    as (m1 & w1 & Hrun1 & Hm1 & _ & _ & Hclock1 & Htyped1 & Hhist1).
  destruct (post_chat_history user second w1 Htyped1)
    as (m2 & w2 & Hrun2 & Hm2 & _ & _ & _ & _ & Hhist2).
  rewrite Hclock1, !Hclock in Hhist2. rewrite !Hclock in Hhist1.
  set (key := "chat:" +:+ User.id user +:+ ":" +:+ pretty t) in *.
  set (prefix := "chat:" +:+ User.id user +:+ ":") in *.
  assert (startsWith key prefix = true) as Hpre by apply userPrefix_startsWith.
  assert (store w1 !! key = Some (VChatMessage m1)) as Hk1.
  { rewrite (Hhist1 _ _ Hpre). apply lookup_insert_eq. }
  exists m1, w1, m2, w2, (valuesWithPrefix (delete key (store w1)) prefix).
  split; [exact Hrun1|]. split; [exact Hrun2|]. split; [exact Hm1|]. split; [exact Hm2|].
  split.
  - by apply (valuesWithPrefix_insert_set _ _ _ (VChatMessage m1) _ Hk1).
  - rewrite (valuesWithPrefix_ext _ _ prefix (Hhist2 (User.id user +:+ ":"))).
    by apply (valuesWithPrefix_insert_set _ _ _ _ _ Hk1).
Qed.

Lemma same_millisecond_overwrites_witness :
  ∃ m1 w1 m2 w2 others,
    post_chat (Some sam) (mkChatBody "I feel sad" true (Some "moderate"))
      (mkWorld ∅ (λ _, 1793557200123) 0 (λ n, pretty n) 0) = Some (json_chat m1, w1) ∧
    post_chat (Some sam) (mkChatBody "I hear you" false None) w1 = Some (json_chat m2, w2) ∧
    valuesWithPrefix (store w1) "chat:s1:" ≡ₚ VChatMessage m1 :: others ∧
    valuesWithPrefix (store w2) "chat:s1:" ≡ₚ VChatMessage m2 :: others.
Proof.
  destruct (same_millisecond_overwrites sam
              (mkChatBody "I feel sad" true (Some "moderate"))
              (mkChatBody "I hear you" false None)
              (mkWorld ∅ (λ _, 1793557200123) 0 (λ n, pretty n) 0) 1793557200123)
    as (m1 & w1 & m2 & w2 & others & H1 & H2 & _ & _ & Hh1 & Hh2).
  - apply analyticsTyped_empty.
  - reflexivity.
  - by exists m1, w1, m2, w2, others.
Defined.

(** A chat post without a tier. *)
Lemma post_chat_without_tier (user : User.t) (body : ChatBody) (w : World) :
  truthy (riskLevel body) = false →
  ∃ chatMessage w',
    post_chat (Some user) body w = Some (json_chat chatMessage, w') ∧
    ChatMessage.message chatMessage = message body ∧
    ChatMessage.riskLevel chatMessage = None ∧
    clock w' = clock w ∧ uuid w' = uuid w ∧
    store w' =
      <["chat:" +:+ User.id user +:+ ":" +:+ pretty (clock w (S (ticks w))) :=
          VChatMessage chatMessage]> (store w).
Proof.
  intros Hfalsy.
  unfold post_chat, createAutomaticAppointment, storeRiskAnalytics.
  unfold mbind, M_bind, Env.randomUUID, Env.dateNow, Kv.set, Kv.get.
  cbn [store clock ticks uuid uuids]. rewrite Hfalsy.
  destruct (riskLevel body) as [[|c level]|]; [|discriminate|].
  - simpl. eexists _, _. by repeat split.
  - simpl. eexists _, _. by repeat split.
Qed.

(** X13: a chat post without a tier, as the reply of the assistant is
    posted, stores the message and nothing else: no counter is touched and
    no appointment is made, whatever the store holds. *)
Theorem post_without_tier_only_stores (user : User.t) (body : ChatBody) (w : World) :
  truthy (riskLevel body) = false →
  ∃ chatMessage w',
    post_chat (Some user) body w = Some (json_chat chatMessage, w') ∧
    ChatMessage.message chatMessage = message body ∧
    ChatMessage.riskLevel chatMessage = None ∧
    clock w' = clock w ∧ uuid w' = uuid w ∧
    store w' =
      <["chat:" +:+ User.id user +:+ ":" +:+ pretty (clock w (S (ticks w))) :=
          VChatMessage chatMessage]> (store w).
Proof.
  intros Hfalsy.
  unfold post_chat, createAutomaticAppointment, storeRiskAnalytics.
  unfold mbind, M_bind, Env.randomUUID, Env.dateNow, Kv.set, Kv.get.
  cbn [store clock ticks uuid uuids]. rewrite Hfalsy.
  destruct (riskLevel body) as [[|c level]|]; [|discriminate|].
  - simpl. eexists _, _. by repeat split.
  - simpl. eexists _, _. by repeat split.
Qed.

Lemma post_without_tier_only_stores_witness :
  ∃ chatMessage w',
    post_chat (Some sam) (mkChatBody "I hear you" false None) exampleWorld
      = Some (json_chat chatMessage, w') ∧
    store w' = <["chat:s1:1793557200124" := VChatMessage chatMessage]> (store exampleWorld).
Proof.
  destruct (post_without_tier_only_stores sam (mkChatBody "I hear you" false None)
              exampleWorld eq_refl) as (m & w' & Hrun & _ & _ & _ & _ & Hstore).
  by exists m, w'.
Defined.

End HistoryFacts.

(* ===================================================================== *)
(** * Sending a message from the student dashboard *)
(* ===================================================================== *)

Module SendFacts.
Import JsString JsStringFacts Classifier Platform Server Notions Handlers Views.
Import StudentDashboard.
Import ServerFacts ChatFacts StoreFacts ChatStoreFacts AppointmentFacts HistoryFacts.

(** ** White space *)

Lemma length_append (s t : string) :
  String.length (s +:+ t) = (String.length s + String.length t)%nat.
Proof. induction s as [|c s IH]; [reflexivity|]. rewrite append_cons. simpl. by rewrite IH. Qed.

Lemma dropPrefix_Some (s p rest : string) : dropPrefix s p = Some rest → s = p +:+ rest.
Proof.
  revert s. induction p as [|c p IH]; intros s; simpl; [by intros [= ->]|].
  destruct s as [|d s]; [discriminate|].
  destruct (Ascii.eqb_spec c d) as [->|]; [|discriminate].
  intros H. rewrite append_cons. by rewrite (IH _ H).
Qed.

Lemma dropOneOf_Some (prefixes : list string) (s rest : string) :
  dropOneOf prefixes s = Some rest → ∃ p, p ∈ prefixes ∧ s = p +:+ rest.
Proof.
  induction prefixes as [|p prefixes IH]; simpl; [discriminate|].
  destruct (dropPrefix s p) as [r|] eqn:E.
  - intros [= ->]. exists p. split; [left|]. by apply dropPrefix_Some.
  - intros H. destruct (IH H) as (q & Hq & ->). exists q. split; [by right|reflexivity].
Qed.

(** No white space character is the start of another: a text that starts
    with one loses exactly that one. *)
Lemma dropWhiteSpace_space (space rest : string) :
  space ∈ whiteSpace → dropWhiteSpace (space +:+ rest) = Some rest.
Proof.
  unfold whiteSpace. intros H.
  repeat (apply elem_of_cons in H as [->|H]; [reflexivity|]).
  by apply not_elem_of_nil in H.
Qed.

Lemma whiteSpace_nonempty (space : string) :
  space ∈ whiteSpace → (0 < String.length space)%nat.
Proof.
  unfold whiteSpace. intros H.
  repeat (apply elem_of_cons in H as [->|H]; [simpl; lia|]).
  by apply not_elem_of_nil in H.
Qed.

Lemma dropWhiteSpace_shorter (s rest : string) :
  dropWhiteSpace s = Some rest → (String.length rest < String.length s)%nat.
Proof.
  intros H. destruct (dropOneOf_Some _ _ _ H) as (space & Hspace & ->).
  rewrite length_append. pose proof (whiteSpace_nonempty _ Hspace). lia.
Qed.

Lemma trimStartFrom_join (spaces : list string) (steps : nat) :
  Forall (λ space, space ∈ whiteSpace) spaces → (length spaces ≤ steps)%nat →
  trimStartFrom steps (join spaces) = "".
Proof.
  intros Hall. revert steps. induction Hall as [|space spaces Hspace _ IH]; intros steps Hlen.
  - by destruct steps.
  - destruct steps as [|steps]; [simpl in Hlen; lia|].
    cbn [join trimStartFrom]. rewrite (dropWhiteSpace_space _ _ Hspace).
    apply IH. simpl in Hlen. lia.
Qed.

Lemma length_join (spaces : list string) :
  Forall (λ space, space ∈ whiteSpace) spaces →
  (length spaces ≤ String.length (join spaces))%nat.
Proof.
  induction 1 as [|space spaces Hspace _ IH]; [reflexivity|].
  cbn [join]. rewrite length_append. pose proof (whiteSpace_nonempty _ Hspace).
  simpl. lia.
Qed.

Lemma trimStart_blank (s : string) : blank s → trimStart s = "".
Proof.
  intros (spaces & Hall & ->). apply trimStartFrom_join; [assumption|].
  by apply length_join.
Qed.

Lemma trimStartFrom_empty (steps : nat) (s : string) : trimStartFrom steps s = "" → blank s.
Proof.
  revert s. induction steps as [|steps IH]; intros s; simpl.
  - intros ->. by exists [].
  - destruct (dropWhiteSpace s) as [rest|] eqn:E; [|intros ->; by exists []].
    intros H. destruct (IH _ H) as (spaces & Hall & ->).
    destruct (dropOneOf_Some _ _ _ E) as (space & Hspace & ->).
    exists (space :: spaces). split; [by constructor|reflexivity].
Qed.

(** After [trimStart] no white space is left at the start. *)
Lemma trimStartFrom_done (steps : nat) (s : string) :
  (String.length s ≤ steps)%nat → dropWhiteSpace (trimStartFrom steps s) = None.
Proof.
  revert s. induction steps as [|steps IH]; intros s Hlen; simpl.
  - by destruct s; [|simpl in Hlen; lia].
  - destruct (dropWhiteSpace s) as [rest|] eqn:E; [|exact E].
    apply IH. pose proof (dropWhiteSpace_shorter _ _ E). lia.
Qed.

Lemma trimStart_idempotent (s : string) : trimStart (trimStart s) = trimStart s.
Proof.
  pose proof (trimStartFrom_done (String.length s) s (le_n _)) as H.
  fold (trimStart s) in H. unfold trimStart at 1.
  destruct (String.length (trimStart s)); simpl; [reflexivity|]. by rewrite H.
Qed.

Lemma trimEnd_empty (s : string) : trimEnd s = "" → trimStart s = "".
Proof.
  destruct s as [|c s]; [reflexivity|]. simpl.
  by destruct (trimStart (String c s)).
Qed.

(** [trim] leaves nothing exactly of the messages made of white space. *)
Lemma trim_empty_iff (s : string) : trim s = "" ↔ blank s.
Proof.
  unfold trim. split.
  - intros H. apply trimEnd_empty in H. rewrite trimStart_idempotent in H.
    by apply (trimStartFrom_empty (String.length s)).
  - intros H. by rewrite (trimStart_blank _ H).
Qed.

(** ** The reply *)

(** The classifier answers with one of the four tiers. *)
Lemma classifier_tiers (message : string) :
  assessRiskBasedOnKeywords message ∈ ["crisis"; "high"; "moderate"; "low"].
Proof.
  unfold assessRiskBasedOnKeywords.
  repeat case_match; repeat first [by left | right].
Qed.

Lemma categoryResponses_length (riskLevel : string) :
  riskLevel ∈ ["crisis"; "high"; "moderate"; "low"] →
  length (categoryResponses riskLevel) = 2%nat.
Proof.
  intros H. repeat (apply elem_of_cons in H as [->|H]; [reflexivity|]).
  by apply not_elem_of_nil in H.
Qed.

(** For a random number in [0, 1) the reply to a message of one of the
    four tiers is defined and is one of the responses of the category. *)
Lemma generateAIResponse_defined (message riskLevel : string) (random : QArith_base.Q) :
  riskLevel ∈ ["crisis"; "high"; "moderate"; "low"] →
  QArith_base.Qle (QArith_base.inject_Z 0) random →
  QArith_base.Qlt random (QArith_base.inject_Z 1) →
  ∃ reply, generateAIResponse message riskLevel random = Some reply ∧
           reply ∈ categoryResponses riskLevel.
Proof.
  intros Htier Hlow Hhigh. unfold generateAIResponse.
  rewrite (categoryResponses_length _ Htier).
  assert (0 ≤ Qround.Qfloor (QArith_base.Qmult random (QArith_base.inject_Z (Z.of_nat 2))) < 2)
    as Hindex.
  { destruct random as [n d].
    unfold QArith_base.Qle, QArith_base.Qlt in Hlow, Hhigh. simpl in Hlow, Hhigh.
    unfold Qround.Qfloor, QArith_base.Qmult. simpl. rewrite Pos.mul_1_r. split.
    - apply Z.div_pos; lia.
    - apply Z.div_lt_upper_bound; lia. }
  pose proof (categoryResponses_length riskLevel Htier) as Hlen.
  destruct (categoryResponses riskLevel !!
              Z.to_nat (Qround.Qfloor (QArith_base.Qmult random
                                         (QArith_base.inject_Z (Z.of_nat 2))))) as [reply|] eqn:E.
  - exists reply. split; [reflexivity|]. by eapply list_elem_of_lookup_2.
  - apply lookup_ge_None in E. lia.
Qed.

Lemma sendMessage_nonblank (user : option User.t) (currentMessage : string)
    (random : QArith_base.Q) (w : World) :
  trim currentMessage ≠ "" →
  sendMessage user currentMessage random w =
    (let riskLevel := assessRiskBasedOnKeywords currentMessage in
     post_chat user (mkChatBody currentMessage true (Some riskLevel));;
     match generateAIResponse currentMessage riskLevel random with
     | Some aiResponse => post_chat user (mkChatBody aiResponse false None);; mret tt
     | None => Env.stuck
     end) w.
Proof. intros H. unfold sendMessage. by destruct (trim currentMessage). Qed.

(** X14: a message made of white space only, of any of the characters
    that [trim] strips (the empty message included), is not sent: the store
    and the counters stay as they are. *)
Theorem blank_message_sends_nothing
    (user : option User.t) (currentMessage : string) (random : QArith_base.Q) (w : World) :
  blank currentMessage →
  sendMessage user currentMessage random w = Some (tt, w).
Proof.
  intros H. unfold sendMessage. by rewrite (proj2 (trim_empty_iff _) H).
Qed.

Lemma blank_message_sends_nothing_witness :
  sendMessage (Some sam) (" " +:+ utf8 [194; 160]%N +:+ utf8 [9]%N)
    (QArith_base.inject_Z 0) exampleWorld
  = Some (tt, exampleWorld).
Proof.
  apply blank_message_sends_nothing.
  exists [" "; utf8 [194; 160]%N; utf8 [9]%N]. split; [|reflexivity].
  repeat constructor; apply list_elem_of_In; simpl; tauto.
Defined.

Lemma defaultRiskAnalytics_zero (name : string) :
  default 0 (defaultRiskAnalytics !! name) = 0.
Proof.
  unfold defaultRiskAnalytics.
  repeat (rewrite lookup_insert; case_decide; [reflexivity|]).
  by rewrite lookup_empty.
Qed.

(** The two posts of [sendMessage], for an authenticated student. *)
Lemma sendMessage_posts
    (user : User.t) (currentMessage : string) (random : QArith_base.Q) (w : World) :
  analyticsTyped (store w) →
  trim currentMessage ≠ "" →
  QArith_base.Qle (QArith_base.inject_Z 0) random →
  QArith_base.Qlt random (QArith_base.inject_Z 1) →
  let tier := assessRiskBasedOnKeywords currentMessage in
  ∃ m1 w1 reply m2 w2,
    post_chat (Some user) (mkChatBody currentMessage true (Some tier)) w
      = Some (json_chat m1, w1) ∧
    reply ∈ categoryResponses tier ∧
    post_chat (Some user) (mkChatBody reply false None) w1 = Some (json_chat m2, w2) ∧
    sendMessage (Some user) currentMessage random w = Some (tt, w2) ∧
    ChatMessage.message m2 = reply ∧
    store w2 =
      <["chat:" +:+ User.id user +:+ ":" +:+ pretty (clock w1 (S (ticks w1))) :=
          VChatMessage m2]> (store w1).
Proof.
  intros Htyped Hnonblank Hlow Hhigh tier.
  destruct (post_chat_store user (mkChatBody currentMessage true (Some tier)) w Htyped)
    as (w1 & Hrun1 & _).
  destruct (generateAIResponse_defined currentMessage tier random
              (classifier_tiers currentMessage) Hlow Hhigh)
    as (reply & Hreply & Hin).
  destruct (post_chat_without_tier user (mkChatBody reply false None) w1 eq_refl)
    as (m2 & w2 & Hrun2 & Hm2 & _ & _ & _ & Hstore2).
  eexists _, w1, reply, m2, w2. split; [exact Hrun1|]. split; [exact Hin|].
  split; [exact Hrun2|]. split; [|by split].
  rewrite (sendMessage_nonblank _ _ _ _ Hnonblank). cbv zeta. fold tier.
  unfold mbind, M_bind at 1. rewrite Hrun1, Hreply.
  unfold mbind, M_bind. by rewrite Hrun2.
Qed.

(** X15: sending one message that is not made of white space only raises
    the day's count of the tier the classifier gives it by exactly one and
    leaves every other count as it was: the message is counted once, and
    the reply of the assistant, posted after it, is not counted. *)
Theorem message_counted_once
    (user : User.t) (currentMessage : string) (random : QArith_base.Q) (w : World)
    (day : Z) :
  analyticsTyped (store w) →
  (∀ n, epochDay (clock w n) = day) →
  ¬ blank currentMessage →
  QArith_base.Qle (QArith_base.inject_Z 0) random →
  QArith_base.Qlt random (QArith_base.inject_Z 1) →
  let tier := assessRiskBasedOnKeywords currentMessage in
  ∃ w',
    sendMessage (Some user) currentMessage random w = Some (tt, w') ∧
    countAt (store w') (riskKey day) tier = countAt (store w) (riskKey day) tier + 1 ∧
    (∀ name, name ≠ tier →
             countAt (store w') (riskKey day) name = countAt (store w) (riskKey day) name) ∧
    (∀ key, isRiskCounterKey key = true → key ≠ riskKey day →
            store w' !! key = store w !! key).
Proof.
  intros Htyped Hday Hblank Hlow Hhigh tier.
  assert (trim currentMessage ≠ "") as Hnonblank.
  { intros H. by apply Hblank, trim_empty_iff. }
  destruct (sendMessage_posts user currentMessage random w Htyped Hnonblank Hlow Hhigh)
    as (m1 & w1 & reply & m2 & w2 & Hrun1 & _ & _ & Hsend & _ & Hstore2).
  fold tier in Hrun1.
  destruct (post_chat_effect user (mkChatBody currentMessage true (Some tier)) w)
    as (m1' & w1' & n & Hrun1' & _ & Hframe & _ & Hcount).
  { intros k v. by apply Htyped. }
  rewrite Hrun1 in Hrun1'. injection Hrun1' as _ <-.
  rewrite Hday in Hframe, Hcount. cbv zeta in Hframe, Hcount.
  pose proof (classifier_tiers currentMessage) as Htier. fold tier in Htier.
  destruct (Hcount tier eq_refl) as (c & Hc & Hc1).
  { intros E. rewrite E in Htier.
    repeat (apply elem_of_cons in Htier as [Ht|Htier]; [discriminate|]).
    by apply not_elem_of_nil in Htier. }
  { repeat (apply elem_of_cons in Htier as [->|Htier]; [reflexivity|]).
    by apply not_elem_of_nil in Htier. }
  assert (∀ key, isRiskCounterKey key = true → store w2 !! key = store w1 !! key) as Hw2.
  { intros key Hkey. rewrite Hstore2. apply lookup_insert_ne. intros <-. discriminate Hkey. }
  assert (∀ name, countAt (store w) (riskKey day) name = default 0 (c !! name)) as Hbefore.
  { intros name. destruct Hc as [[Hnone ->]|Hsome].
    - by rewrite (countAt_unset _ _ _ Hnone), defaultRiskAnalytics_zero.
    - by rewrite (countAt_counter _ _ _ _ Hsome). }
  assert (store w2 !! riskKey day
          = Some (VCounts (<[tier := default 0 (c !! tier) + 1]> c))) as Hafter.
  { by rewrite Hw2. }
  exists w2. split; [exact Hsend|]. split; [|split].
  - rewrite (countAt_counter _ _ _ _ Hafter), lookup_insert_eq, Hbefore. reflexivity.
  - intros name Hne.
    rewrite (countAt_counter _ _ _ _ Hafter), lookup_insert_ne, Hbefore by done. reflexivity.
  - intros key Hkey Hne. rewrite Hw2 by assumption. by apply Hframe.
Qed.

Lemma message_counted_once_witness :
  ∃ w',
    sendMessage (Some sam) "I feel so worthless" (QArith_base.Qmake 3 4) exampleWorld
      = Some (tt, w') ∧
    countAt (store w') (riskKey 20758) "high" = 1.
Proof.
  destruct (message_counted_once sam "I feel so worthless" (QArith_base.Qmake 3 4)
              exampleWorld 20758) as (w' & Hsend & Hcount & _).
  - unfold exampleWorld. cbn [store].
    repeat (apply analyticsTyped_insert; [|left; reflexivity]).
    apply analyticsTyped_empty.
  - intros n. unfold exampleWorld, epochDay, msPerDay. cbn [clock].
    symmetry. apply (Z.div_unique _ _ _ (66000123 + Z.of_nat (n `min` 1000))); lia.
  - intros H. apply trim_empty_iff in H. vm_compute in H. discriminate H.
  - discriminate.
  - reflexivity.
  - exists w'. split; [exact Hsend|]. exact Hcount.
Defined.

(** X16: for a message classified crisis that is sent while no counsellor
    is registered, no appointment is stored, yet the reply of the assistant
    that is stored says that an appointment has been scheduled. *)
Theorem crisis_reply_without_appointment
    (user : User.t) (currentMessage : string) (random : QArith_base.Q) (w : World) :
  analyticsTyped (store w) →
  trim currentMessage ≠ "" →
  QArith_base.Qle (QArith_base.inject_Z 0) random →
  QArith_base.Qlt random (QArith_base.inject_Z 1) →
  assessRiskBasedOnKeywords currentMessage = "crisis" →
  counsellorPool w = [] →
  ∃ w' key reply,
    sendMessage (Some user) currentMessage random w = Some (tt, w') ∧
    (∀ key, isAppointmentKey key = true → store w' !! key = store w !! key) ∧
    store w' !! key = Some (VChatMessage reply) ∧
    ChatMessage.isUser reply = false ∧
    includes (ChatMessage.message reply) "appointment" = true ∧
    includes (ChatMessage.message reply) "scheduled" = true.
Proof.
  intros Htyped Hnonblank Hlow Hhigh Hcrisis Hpool.
  destruct (sendMessage_posts user currentMessage random w Htyped Hnonblank Hlow Hhigh)
    as (m1 & w1 & reply & m2 & w2 & Hrun1 & Hin & Hrun2 & Hsend & Hm2 & Hstore2).
  rewrite Hcrisis in Hrun1, Hin.
  destruct (post_chat_store user (mkChatBody currentMessage true (Some "crisis")) w Htyped)
    as (w1' & Hrun1' & _ & _ & _ & Hnone & _).
  rewrite Hrun1 in Hrun1'. injection Hrun1' as _ <-.
  destruct (post_chat_without_tier user (mkChatBody reply false None) w1 eq_refl)
    as (m2' & w2' & Hrun2' & _ & _ & _ & _ & _).
  assert (ChatMessage.isUser m2 = false) as Hbot.
  { revert Hrun2. unfold post_chat, mbind, M_bind, Env.randomUUID, Env.dateNow.
    cbn [store clock ticks uuid uuids]. destruct (Kv.set _ _ _) as [[[] ?]|]; [|discriminate].
    destruct (createAutomaticAppointment _ _ _) as [[[] ?]|]; [|discriminate].
    destruct (storeRiskAnalytics _ _) as [[[] ?]|]; [|discriminate].
    by intros [= <- _]. }
  eexists w2, _, m2. split; [exact Hsend|]. split.
  { intros key Hkey. rewrite Hstore2, lookup_insert_ne.
    - apply Hnone; [by right|assumption].
    - intros <-. discriminate Hkey. }
  split; [rewrite Hstore2; apply lookup_insert_eq|]. split; [exact Hbot|].
  rewrite Hm2. unfold categoryResponses in Hin. simpl in Hin. unfold crisisResponses in Hin.
  apply elem_of_cons in Hin as [->|Hin]; [by split; vm_compute|].
  apply list_elem_of_singleton in Hin as ->. by split; vm_compute.
Qed.

Lemma crisis_reply_without_appointment_witness :
  ∃ w' key reply,
    sendMessage (Some sam) "I want to die" (QArith_base.Qmake 1 4)
      (mkWorld ∅ (λ _, 1793557200123) 0 (λ n, pretty n) 0) = Some (tt, w') ∧
    store w' !! key = Some (VChatMessage reply) ∧
    includes (ChatMessage.message reply) "scheduled" = true.
Proof.
  destruct (crisis_reply_without_appointment sam "I want to die" (QArith_base.Qmake 1 4)
              (mkWorld ∅ (λ _, 1793557200123) 0 (λ n, pretty n) 0))
    as (w' & key & reply & Hsend & _ & Hstored & _ & _ & Hsays).
  - apply analyticsTyped_empty.
  - discriminate.
  - discriminate.
  - reflexivity.
  - reflexivity.
  - reflexivity.
  - exists w', key, reply. split; [exact Hsend|]. split; [exact Hstored|exact Hsays].
Defined.

End SendFacts.

(* ===================================================================== *)
(** * The counsellor dashboard *)
(* ===================================================================== *)

Module CounsellorFacts.
Import Platform Server Views CounsellorDashboard.

Lemma updateAppointmentStatus_withStatus
    (appointments : list Appointment.t) (appointmentId newStatus : string) :
  updateAppointmentStatus appointments appointmentId newStatus =
    map (λ apt, if String.eqb (Appointment.id apt) appointmentId
                then withStatus apt newStatus else apt) appointments.
Proof. reflexivity. Qed.

(** X17: status updates compose as writes do.  A later update of the same
    appointment replaces an earlier one, updates of different appointments
    commute, and no update changes the appointments listed or their ids. *)
Theorem status_updates_compose
    (appointments : list Appointment.t) (id1 id2 status1 status2 : string) :
  updateAppointmentStatus (updateAppointmentStatus appointments id1 status1) id1 status2
    = updateAppointmentStatus appointments id1 status2 ∧
  map Appointment.id (updateAppointmentStatus appointments id1 status1)
    = map Appointment.id appointments ∧
  (id1 ≠ id2 →
   updateAppointmentStatus (updateAppointmentStatus appointments id1 status1) id2 status2
     = updateAppointmentStatus (updateAppointmentStatus appointments id2 status2) id1 status1).
Proof.
  rewrite !updateAppointmentStatus_withStatus. rewrite !map_map. split; [|split].
  - apply map_ext. intros apt.
    destruct (String.eqb (Appointment.id apt) id1) eqn:E; simpl; by rewrite E.
  - apply map_ext. intros apt. by destruct (String.eqb (Appointment.id apt) id1).
  - intros Hne. apply map_ext. intros apt.
    destruct (String.eqb_spec (Appointment.id apt) id1) as [E1|E1];
      destruct (String.eqb_spec (Appointment.id apt) id2) as [E2|E2]; simpl.
    + congruence.
    + destruct (String.eqb_spec (Appointment.id apt) id2); [congruence|].
      destruct (String.eqb_spec (Appointment.id apt) id1); [reflexivity|congruence].
    + destruct (String.eqb_spec (Appointment.id apt) id2); [|congruence].
      destruct (String.eqb_spec (Appointment.id apt) id1); [congruence|reflexivity].
    + destruct (String.eqb_spec (Appointment.id apt) id2); [congruence|].
      destruct (String.eqb_spec (Appointment.id apt) id1); [congruence|reflexivity].
Qed.

Lemma status_updates_compose_witness :
  updateAppointmentStatus
    (updateAppointmentStatus
       [Appointment.mk "a1" "s1" "c1" "2026-11-02" "10:00" "scheduled" None 0;
        Appointment.mk "a2" "s2" "c1" "2026-11-02" "11:00" "scheduled" None 0]
       "a1" "completed") "a2" "cancelled"
  = updateAppointmentStatus
      (updateAppointmentStatus
         [Appointment.mk "a1" "s1" "c1" "2026-11-02" "10:00" "scheduled" None 0;
          Appointment.mk "a2" "s2" "c1" "2026-11-02" "11:00" "scheduled" None 0]
         "a2" "cancelled") "a1" "completed".
Proof.
  apply (status_updates_compose
           [Appointment.mk "a1" "s1" "c1" "2026-11-02" "10:00" "scheduled" None 0;
            Appointment.mk "a2" "s2" "c1" "2026-11-02" "11:00" "scheduled" None 0]
           "a1" "a2" "completed" "cancelled").
  discriminate.
Defined.

Lemma filter_map_commute {A} (f : A → A) (p q : A → bool) (l : list A) :
  (∀ x, p (f x) = q x) → List.filter p (map f l) = map f (List.filter q l).
Proof.
  intros H. induction l as [|x l IH]; simpl; [reflexivity|].
  rewrite H. destruct (q x); simpl; by rewrite IH.
Qed.

(** X18: cancelling an appointment takes it, and nothing else, off the
    list of today's appointments. *)
Theorem cancelling_hides_from_today
    (now : Z) (appointments : list Appointment.t) (appointmentId : string) :
  getTodaysAppointments now (updateAppointmentStatus appointments appointmentId "cancelled")
    = List.filter (λ apt, negb (String.eqb (Appointment.id apt) appointmentId))
        (getTodaysAppointments now appointments).
Proof.
  unfold getTodaysAppointments. rewrite updateAppointmentStatus_withStatus.
  induction appointments as [|apt appointments IH]; simpl; [reflexivity|].
  destruct (String.eqb (Appointment.id apt) appointmentId) eqn:E; simpl.
  - rewrite andb_false_r, IH.
    destruct (_ && _); simpl; [by rewrite E|reflexivity].
  - rewrite IH. destruct (_ && _); simpl; [by rewrite E|reflexivity].
Qed.

(** X19: the emergency list after a status update.  An updated appointment
    stays on the list exactly when its tier is crisis: a crisis appointment
    stays whatever status it is given, cancelled included, and an
    auto-scheduled appointment of another tier leaves the list as soon as
    its status changes. *)
Theorem emergency_list_after_update
    (appointments : list Appointment.t) (appointmentId newStatus : string) :
  newStatus ≠ "auto-scheduled" →
  getEmergencyAppointments (updateAppointmentStatus appointments appointmentId newStatus)
    = updateAppointmentStatus
        (List.filter
           (λ apt, if String.eqb (Appointment.id apt) appointmentId
                   then Server.strictEq (Appointment.riskLevel apt) "crisis"
                   else String.eqb (Appointment.status apt) "auto-scheduled"
                        || Server.strictEq (Appointment.riskLevel apt) "crisis")
           appointments)
        appointmentId newStatus.
Proof.
  intros Hstatus. apply String.eqb_neq in Hstatus.
  unfold getEmergencyAppointments. rewrite !updateAppointmentStatus_withStatus.
  apply filter_map_commute. intros apt.
  destruct (String.eqb (Appointment.id apt) appointmentId); [|reflexivity].
  simpl. by rewrite Hstatus.
Qed.

Lemma emergency_list_after_update_witness :
  getEmergencyAppointments
    (updateAppointmentStatus
       [Appointment.mk "a1" "s1" "c1" "2026-11-02" "10:00" "auto-scheduled" (Some "high") 0;
        Appointment.mk "a2" "s2" "c1" "2026-11-02" "10:00" "auto-scheduled" (Some "crisis") 0]
       "a1" "completed")
  = [Appointment.mk "a2" "s2" "c1" "2026-11-02" "10:00" "auto-scheduled" (Some "crisis") 0].
Proof.
  rewrite emergency_list_after_update by discriminate. reflexivity.
Defined.

End CounsellorFacts.

(* ===================================================================== *)
(** * The charts of the admin dashboard *)
(* ===================================================================== *)

Module ChartFacts.
Import Platform Server Notions Views AdminDashboard AdminCharts.

Lemma sliceLast_app {A} (n : nat) (older recent : list A) :
  length recent = n → sliceLast n (older ++ recent) = recent.
Proof.
  intros <-. unfold sliceLast. rewrite length_app.
  replace (length older + length recent - length recent)%nat with (length older) by lia.
  by rewrite drop_app_length.
Qed.

Lemma sliceLast_all {A} (n : nat) (xs : list A) :
  (length xs ≤ n)%nat → sliceLast n xs = xs.
Proof.
  intros H. unfold sliceLast.
  by replace (length xs - n)%nat with 0%nat by lia.
Qed.

Lemma sliceLast_length {A} (n : nat) (xs : list A) : (length (sliceLast n xs) ≤ n)%nat.
Proof. unfold sliceLast. rewrite length_drop. lia. Qed.

(** X20: the dashboard reads the last seven objects of the analytics and
    nothing before them: it never shows more than seven rows, and objects
    older than the last seven change neither the rows, nor the statistics,
    nor the pie chart. *)
Theorem last_seven_rows (older recent : list Counts) :
  length recent = 7%nat →
  processRiskData (Some (older ++ recent)) = processRiskData (Some recent) ∧
  getOverallStats (Some (older ++ recent)) = getOverallStats (Some recent) ∧
  getRiskPieData (Some (older ++ recent)) = getRiskPieData (Some recent) ∧
  length (processRiskData (Some (older ++ recent))) = 7%nat ∧
  ∀ riskAnalytics, (length (processRiskData riskAnalytics) ≤ 7)%nat.
Proof.
  intros Hlen.
  assert (processRiskData (Some (older ++ recent)) = processRiskData (Some recent)) as Hrows.
  { unfold processRiskData. rewrite map_app.
    rewrite sliceLast_app by (by rewrite length_map).
    symmetry. apply sliceLast_all. rewrite length_map. lia. }
  split; [exact Hrows|]. split; [|split; [|split]].
  - unfold getOverallStats. by rewrite Hrows.
  - unfold getRiskPieData. by rewrite Hrows.
  - rewrite Hrows. unfold processRiskData.
    rewrite sliceLast_all by (rewrite length_map; lia). by rewrite length_map.
  - intros [rows|]; [apply sliceLast_length|simpl; lia].
Qed.

Lemma last_seven_rows_witness :
  getRiskPieData
    (Some ([ <["crisis" := 40]> ∅ ] ++
           [ <["low" := 1]> ∅; ∅; ∅; ∅; ∅; ∅; <["high" := 2]> ∅ ]))
  = [ mkPieSlice "Low Risk" 1 "#00C49F"; mkPieSlice "High Risk" 2 "#FF8042" ].
Proof.
  destruct (last_seven_rows [ <["crisis" := 40]> ∅ ]
              [ <["low" := 1]> ∅; ∅; ∅; ∅; ∅; ∅; <["high" := 2]> ∅ ] eq_refl)
    as (_ & _ & -> & _).
  vm_compute. reflexivity.
Defined.

Lemma sum_from (field : RiskDay → Z) (riskData : list RiskDay) (start : Z) :
  fold_left (λ sum day, sum + field day) riskData start
    = start + fold_left (λ sum day, sum + field day) riskData 0.
Proof.
  revert start. induction riskData as [|day riskData IH]; intros start; simpl; [lia|].
  rewrite IH, (IH (0 + field day)). lia.
Qed.

Lemma sum_nonneg (field : RiskDay → Z) (riskData : list RiskDay) :
  Forall (λ day, 0 ≤ field day) riskData →
  0 ≤ fold_left (λ sum day, sum + field day) riskData 0.
Proof.
  induction 1 as [|day riskData Hday _ IH]; simpl; [lia|].
  rewrite sum_from. lia.
Qed.

Lemma totals_fold (riskData : list RiskDay) (a b c d : Z) :
  fold_left (λ acc day,
               mkRiskDay (Low acc + Low day) (Moderate acc + Moderate day)
                         (High acc + High day) (Crisis acc + Crisis day) 0)
            riskData (mkRiskDay a b c d 0)
  = mkRiskDay (a + fold_left (λ sum day, sum + Low day) riskData 0)
      (b + fold_left (λ sum day, sum + Moderate day) riskData 0)
      (c + fold_left (λ sum day, sum + High day) riskData 0)
      (d + fold_left (λ sum day, sum + Crisis day) riskData 0) 0.
Proof.
  revert a b c d. induction riskData as [|day riskData IH]; intros a b c d; simpl.
  - f_equal; lia.
  - rewrite IH.
    rewrite (sum_from Low _ (0 + _)), (sum_from Moderate _ (0 + _)),
      (sum_from High _ (0 + _)), (sum_from Crisis _ (0 + _)).
    f_equal; lia.
Qed.

Lemma total_is_sum_of_tiers (riskData : list RiskDay) :
  Forall (λ day, Total day = Low day + Moderate day + High day + Crisis day) riskData →
  fold_left (λ sum day, sum + Total day) riskData 0
  = fold_left (λ sum day, sum + Low day) riskData 0
    + fold_left (λ sum day, sum + Moderate day) riskData 0
    + fold_left (λ sum day, sum + High day) riskData 0
    + fold_left (λ sum day, sum + Crisis day) riskData 0.
Proof.
  induction 1 as [|day riskData Hday _ IH]; simpl; [reflexivity|].
  rewrite (sum_from Total), (sum_from Low), (sum_from Moderate), (sum_from High),
    (sum_from Crisis). lia.
Qed.

(** The rows made of counter objects with non-negative counts. *)
Lemma processRiskData_rows (rows : list Counts) :
  nonNegative rows →
  Forall (λ day, Total day = Low day + Moderate day + High day + Crisis day
                 ∧ 0 ≤ Low day ∧ 0 ≤ Moderate day ∧ 0 ≤ High day ∧ 0 ≤ Crisis day)
         (processRiskData (Some rows)).
Proof.
  intros Hrows. unfold processRiskData, sliceLast. apply Forall_drop, Forall_fmap.
  eapply Forall_impl; [exact Hrows|]. intros row Hrow. simpl.
  assert (∀ name, 0 ≤ default 0 (row !! name)) as Hcount.
  { intros name. destruct (row !! name) as [n|] eqn:E; simpl; [by eapply Hrow|lia]. }
  repeat split; by try apply Hcount.
Qed.

(** X21: when no count is negative the pie chart and the statistics agree:
    the slices add up to the total of interactions, every slice shown is
    positive, and the crisis and high-risk slices are there, with the numbers
    of crisis and high-risk cases, exactly when those numbers are
    positive. *)
Theorem pie_adds_up (rows : list Counts) (stats : OverallStats) :
  nonNegative rows →
  getOverallStats (Some rows) = Some stats →
  pieTotal (getRiskPieData (Some rows)) = totalInteractions stats ∧
  Forall (λ slice, 0 < value slice) (getRiskPieData (Some rows)) ∧
  (mkPieSlice "Crisis" (crisisCases stats) "#FF4444" ∈ getRiskPieData (Some rows)
   ↔ 0 < crisisCases stats) ∧
  (mkPieSlice "High Risk" (highRiskCases stats) "#FF8042" ∈ getRiskPieData (Some rows)
   ↔ 0 < highRiskCases stats).
Proof.
  intros Hrows Hstats.
  pose proof (processRiskData_rows rows Hrows) as Hdata.
  unfold getOverallStats in Hstats. unfold getRiskPieData.
  set (riskData := processRiskData (Some rows)) in *.
  assert (totalInteractions stats = fold_left (λ sum day, sum + Total day) riskData 0
          ∧ crisisCases stats = fold_left (λ sum day, sum + Crisis day) riskData 0
          ∧ highRiskCases stats = fold_left (λ sum day, sum + High day) riskData 0)
    as (-> & -> & ->).
  { cbv zeta in Hstats. unfold mbind, option_bind in Hstats.
    destruct (if 0 <? _ then _ else _) as [rate|]; [|discriminate].
    by injection Hstats as <-. }
  rewrite totals_fold, total_is_sum_of_tiers
    by (eapply Forall_impl; [exact Hdata|]; by intros day [? _]).
  assert (0 ≤ fold_left (λ sum day, sum + Low day) riskData 0) as HL
    by (apply sum_nonneg; eapply Forall_impl; [exact Hdata|]; by intros day (_ & ? & _)).
  assert (0 ≤ fold_left (λ sum day, sum + Moderate day) riskData 0) as HM
    by (apply sum_nonneg; eapply Forall_impl; [exact Hdata|]; by intros day (_ & _ & ? & _)).
  assert (0 ≤ fold_left (λ sum day, sum + High day) riskData 0) as HH
    by (apply sum_nonneg; eapply Forall_impl; [exact Hdata|];
        by intros day (_ & _ & _ & ? & _)).
  assert (0 ≤ fold_left (λ sum day, sum + Crisis day) riskData 0) as HC
    by (apply sum_nonneg; eapply Forall_impl; [exact Hdata|];
        by intros day (_ & _ & _ & _ & ?)).
  set (low := fold_left (λ sum day, sum + Low day) riskData 0) in *.
  set (moderate := fold_left (λ sum day, sum + Moderate day) riskData 0) in *.
  set (high := fold_left (λ sum day, sum + High day) riskData 0) in *.
  set (crisis := fold_left (λ sum day, sum + Crisis day) riskData 0) in *.
  clearbody low moderate high crisis. cbn [Low Moderate High Crisis].
  cbn [List.filter value].
  destruct (Z.ltb_spec 0 (0 + low)), (Z.ltb_spec 0 (0 + moderate)),
    (Z.ltb_spec 0 (0 + high)), (Z.ltb_spec 0 (0 + crisis));
    (split; [cbn; lia|]); (split; [repeat constructor; cbn; lia|]);
    rewrite ?elem_of_cons, ?elem_of_nil;
    split; split; intros Hx; try lia;
    repeat match goal with
           | H : _ ∨ _ |- _ => destruct H
           | H : mkPieSlice _ _ _ = mkPieSlice _ _ _ |- _ => injection H as ? ?
           | H : False |- _ => destruct H
           end; try discriminate; try lia;
    replace (0 + high) with high by lia; replace (0 + crisis) with crisis by lia; tauto.
Qed.

Lemma pie_adds_up_witness :
  pieTotal (getRiskPieData (Some [ <["low" := 3]> (<["crisis" := 1]> ∅) ])) = 4.
Proof.
  assert (∃ stats, getOverallStats (Some [ <["low" := 3]> (<["crisis" := 1]> ∅) ])
                   = Some stats ∧ totalInteractions stats = 4) as (stats & Hstats & Htotal).
  { eexists. split; [vm_compute; reflexivity|reflexivity]. }
  destruct (pie_adds_up [ <["low" := 3]> (<["crisis" := 1]> ∅) ] stats) as [Hsum _].
  - repeat constructor. intros name n Hn.
    destruct (decide (name = "low")) as [->|]; [rewrite lookup_insert_eq in Hn; by injection Hn as <-|].
    rewrite lookup_insert_ne in Hn by done.
    destruct (decide (name = "crisis")) as [->|]; [rewrite lookup_insert_eq in Hn; by injection Hn as <-|].
    rewrite lookup_insert_ne, lookup_empty in Hn by done. discriminate.
  - exact Hstats.
  - by rewrite Hsum.
Defined.

End ChartFacts.

(* ===================================================================== *)
(** * From the chat route to the charts *)
(* ===================================================================== *)

Module PipelineFacts.
Import JsString JsStringFacts Platform Server Notions Handlers Views.
Import AdminDashboard AdminCharts.
Import ServerFacts ChatFacts AssessmentFacts TypingFacts StoreFacts AppointmentFacts.
Import AnalyticsFacts.

(** What a run of chat submissions within one day leaves alone. *)
Lemma post_chats_frame (requests : list (User.t * ChatBody)) (w : World) (day : Z) :
  (∀ n, epochDay (clock w n) = day) →
  analyticsObjects (store w) →
  ∃ w', post_chats requests w = Some (tt, w') ∧
        analyticsObjects (store w') ∧
        (∀ key, startsWith key "user:" = true → store w' !! key = store w !! key) ∧
        (∀ key, isRiskCounterKey key = true → key ≠ riskKey day →
                store w' !! key = store w !! key).
Proof.
  revert w. induction requests as [|[user body] requests IH]; intros w Hday Htyped.
  - by exists w.
  - destruct (post_chat_total (Some user) body w Htyped) as (response & w1 & Hrun & Htyped1).
    destruct (post_chat_run user body w) as (msg & w1' & n & Hrun' & Hclock & Hframe & _).
    { intros n v. by apply Htyped. }
    rewrite Hrun in Hrun'. injection Hrun' as _ <-.
    rewrite Hday in Hframe. cbv zeta in Hframe.
    pose proof (userKey_kept_by_chat_objects user body w w1 response Htyped Hrun) as Husers.
    destruct (IH w1) as (w' & Hrest & Htyped' & Husers' & Hframe').
    { intros m. rewrite Hclock. apply Hday. }
    { assumption. }
    exists w'. split; [|split; [assumption|split]].
    + cbn [post_chats]. unfold mbind, M_bind. rewrite Hrun. exact Hrest.
    + intros key Hkey. rewrite Husers' by assumption. by apply Husers.
    + intros key Hkey Hne. rewrite Hframe' by assumption. by apply Hframe.
Qed.

(** The listing of a prefix under which one key is set. *)
Lemma valuesWithPrefix_single (s : Store) (prefix key : string) (v : Value) :
  startsWith key prefix = true → s !! key = Some v →
  (∀ key', startsWith key' prefix = true → key' ≠ key → s !! key' = None) →
  valuesWithPrefix s prefix = [v].
Proof.
  intros Hkey Hv Hothers.
  apply Permutation_singleton_r.
  rewrite (valuesWithPrefix_ext s (<[key := v]> ∅) prefix).
  - rewrite (valuesWithPrefix_insert_fresh ∅ prefix key v (lookup_empty _) Hkey).
    unfold valuesWithPrefix. by rewrite map_to_list_empty.
  - intros key' Hkey'. destruct (decide (key' = key)) as [->|Hne].
    + by rewrite lookup_insert_eq.
    + rewrite lookup_insert_ne, lookup_empty by done. by apply Hothers.
Qed.

(** The row and the pie of a single counter object that counts [n]
    high-tier messages. *)
Lemma charts_of_high_counter (n : Z) :
  0 < n →
  let rows := rowsOf [VCounts (<["high" := n]> defaultRiskAnalytics)] in
  processRiskData (Some rows) = [mkRiskDay 0 0 n 0 n] ∧
  getRiskPieData (Some rows) = [mkPieSlice "High Risk" n "#FF8042"].
Proof.
  intros Hn rows.
  assert (processRiskData (Some rows) = [mkRiskDay 0 0 n 0 n]) as Hrows.
  { unfold rows, rowsOf, processRiskData, sliceLast. cbn [map length Nat.sub drop].
    rewrite lookup_insert_eq.
    rewrite !lookup_insert_ne by discriminate.
    assert (defaultRiskAnalytics !! "low" = Some 0
            ∧ defaultRiskAnalytics !! "moderate" = Some 0
            ∧ defaultRiskAnalytics !! "crisis" = Some 0) as (-> & -> & ->)
      by (by vm_compute).
    simpl. f_equal. f_equal. lia. }
  split; [exact Hrows|].
  unfold getRiskPieData. rewrite Hrows. cbn [fold_left Low Moderate High Crisis].
  cbn [List.filter value]. change (0 <? 0 + 0) with false. cbv iota.
  replace (0 + n) with n by lia.
  by destruct (Z.ltb_spec 0 n); [|lia].
Qed.

(** X22: from the chat route to the charts of the admin.  After a run of
    high-tier chat submissions within one day, on a store that held no risk
    counter, the analytics route serves an admin one risk object, the
    counter with the number of submissions under high, and the dashboard
    makes of it one row and a pie of the single slice High Risk with that
    number. *)
Theorem high_chats_reach_the_charts
    (requests : list (User.t * ChatBody)) (admin : User.t) (v : Value)
    (w : World) (day : Z) :
  (∀ n, epochDay (clock w n) = day) →
  Forall (λ request, riskLevel request.2 = Some "high") requests →
  requests ≠ [] →
  analyticsTyped (store w) →
  (∀ key, isRiskCounterKey key = true → store w !! key = None) →
  store w !! ("user:" +:+ User.id admin) = Some v →
  roleIs v "admin" = true →
  let sent := Z.of_nat (length requests) in
  ∃ w' analytics,
    post_chats requests w = Some (tt, w') ∧
    get_analytics (Some admin) w' = Some (reply_analytics analytics, w') ∧
    riskAnalytics analytics = [VCounts (<["high" := sent]> defaultRiskAnalytics)] ∧
    processRiskData (Some (rowsOf (riskAnalytics analytics))) = [mkRiskDay 0 0 sent 0 sent] ∧
    getRiskPieData (Some (rowsOf (riskAnalytics analytics)))
      = [mkPieSlice "High Risk" sent "#FF8042"].
Proof.
  intros Hday Hhigh Hsome Htyped Hfresh Hadmin Hrole sent.
  destruct (post_chats_frame requests w day Hday (analyticsTyped_objects _ Htyped))
    as (w' & Hrun & Htyped' & Husers & Hframe).
  destruct (post_chats_high requests w day 0 Hday Hhigh) as (w'' & Hrun' & Hcount).
  { left. split; [reflexivity|]. apply Hfresh, riskKey_is_riskCounterKey. }
  rewrite Hrun in Hrun'. injection Hrun' as <-.
  destruct Hcount as [[-> _]|Hcount]; [done|]. rewrite Z.add_0_l in Hcount. fold sent in Hcount.
  assert (valuesWithPrefix (store w') "analytics:risk:"
          = [VCounts (<["high" := sent]> defaultRiskAnalytics)]) as Hrisk.
  { apply (valuesWithPrefix_single _ _ (riskKey day)).
    - apply (riskKey_is_riskCounterKey day).
    - exact Hcount.
    - intros key Hkey Hne. rewrite Hframe by assumption. by apply Hfresh. }
  eexists w', _. split; [exact Hrun|]. split.
  { apply (get_analytics_admin admin w' v); [|exact Hrole].
    rewrite Husers; [exact Hadmin|reflexivity]. }
  cbn [riskAnalytics]. rewrite Hrisk. split; [reflexivity|].
  apply charts_of_high_counter. unfold sent. destruct requests; [done|]. simpl length. lia.
Qed.

Lemma high_chats_reach_the_charts_witness :
  ∃ w' analytics,
    post_chats [(sam, mkChatBody "I feel hopeless" true (Some "high"));
                (sam, mkChatBody "It is all so overwhelming" true (Some "high"))]
      exampleAdminWorld = Some (tt, w') ∧
    get_analytics (Some (User.mk "a1")) w' = Some (reply_analytics analytics, w') ∧
    getRiskPieData (Some (rowsOf (riskAnalytics analytics)))
      = [mkPieSlice "High Risk" 2 "#FF8042"].
Proof.
  destruct (high_chats_reach_the_charts
              [(sam, mkChatBody "I feel hopeless" true (Some "high"));
               (sam, mkChatBody "It is all so overwhelming" true (Some "high"))]
              (User.mk "a1")
              (VProfile (Profile.mk "a1" "root@campus.example" "Root" "admin" 0))
              exampleAdminWorld 20758)
    as (w' & analytics & Hrun & Hget & _ & _ & Hpie).
  - intros n. unfold exampleAdminWorld, exampleWorld, epochDay, msPerDay. cbn [clock].
    symmetry. apply (Z.div_unique _ _ _ (66000123 + Z.of_nat (n `min` 1000))); lia.
  - repeat constructor.
  - discriminate.
  - unfold exampleAdminWorld, exampleWorld. cbn [store].
    repeat (apply analyticsTyped_insert; [|left; reflexivity]).
    apply analyticsTyped_empty.
  - intros key Hkey. unfold exampleAdminWorld, exampleWorld. cbn [store].
    rewrite !lookup_insert_ne, lookup_empty; [reflexivity|intros <-; discriminate..].
  - reflexivity.
  - reflexivity.
  - exists w', analytics. split; [exact Hrun|]. split; [exact Hget|]. exact Hpie.
Defined.

End PipelineFacts.

(* ===================================================================== *)
(** * The invariant of the store *)
(* ===================================================================== *)

Module InvariantFacts.
Import JsString JsStringFacts Platform Server Notions Handlers Views.
Import ServerFacts ChatFacts AssessmentFacts TypingFacts AppointmentFacts AccountFacts.

(** X23: that the objects under analytics keys are objects used as
    counters is an invariant of the routes that write: signup, booking,
    chat and assessment submissions leave such a store, whoever asks and
    whatever the body.  The counters keep holding numbers only as long as
    the tier or the instrument counted is not the name of a property that
    objects inherit. *)
Theorem write_routes_keep_counter_objects (w : World) :
  analyticsObjects (store w) →
  (∀ created body, ∃ reply w',
      post_signup created body w = Some (reply, w') ∧ analyticsObjects (store w')) ∧
  (∀ user body, ∃ reply w',
      post_appointment user body w = Some (reply, w') ∧ analyticsObjects (store w')) ∧
  (∀ user body, ∃ response w',
      post_chat user body w = Some (response, w') ∧ analyticsObjects (store w') ∧
      (analyticsTyped (store w) →
       (∀ level, riskLevel body = Some level → JsObject.inherited level = false) →
       analyticsTyped (store w'))) ∧
  (∀ user body, ∃ response w',
      post_assessment user body w = Some (response, w') ∧ analyticsObjects (store w') ∧
      (analyticsTyped (store w) → JsObject.inherited (type body) = false →
       analyticsTyped (store w'))).
Proof.
  intros Hobjects. split; [|split; [|split]].
  - intros [message|user] body.
    + by exists (reply_error message 400), w.
    + destruct (post_signup_store user body w) as (w' & Hrun & Hstore & _).
      exists (reply_user user), w'. split; [exact Hrun|]. rewrite Hstore.
      apply analyticsObjects_insert; [assumption|left; reflexivity].
  - intros [user|] body; [|by exists (reply_error "Unauthorized" 401), w].
    destruct (post_appointment_store user body w) as (w' & Hrun & Hstore).
    eexists _, w'. split; [exact Hrun|]. rewrite Hstore.
    repeat (apply analyticsObjects_insert; [|left; reflexivity]). assumption.
  - intros user body.
    destruct (post_chat_total user body w Hobjects) as (response & w' & Hrun & Hobjects').
    exists response, w'. split; [exact Hrun|]. split; [exact Hobjects'|].
    intros Htyped Hname.
    destruct (post_chat_typed user body w Hname Htyped) as (response' & w'' & Hrun' & Htyped').
    rewrite Hrun in Hrun'. by injection Hrun' as _ <-.
  - intros user body.
    destruct (post_assessment_total user body w Hobjects)
      as (response & w' & Hrun & Hobjects').
    exists response, w'. split; [exact Hrun|]. split; [exact Hobjects'|].
    intros Htyped Hname. destruct user as [user|]; [|by injection Hrun as _ <-].
    destruct (post_assessment_effect user body w) as (a & w'' & c & Hrun' & _ & _ & Hstore).
    { by apply analyticsTyped_at. }
    rewrite Hrun in Hrun'. injection Hrun' as _ <-.
    rewrite Hstore, countOne_counts, objectValue_counts by auto.
    apply analyticsTyped_insert; [|right; eauto].
    apply analyticsTyped_insert; [assumption|left; reflexivity].
Qed.

Lemma write_routes_keep_counter_objects_witness :
  ∃ response w',
    post_chat (Some sam) (mkChatBody "I feel hopeless" true (Some "high")) exampleWorld
      = Some (response, w') ∧
    analyticsTyped (store w').
Proof.
  assert (analyticsTyped (store exampleWorld)) as Htyped.
  { unfold exampleWorld. cbn [store].
    repeat (apply analyticsTyped_insert; [|left; reflexivity]).
    apply analyticsTyped_empty. }
  destruct (write_routes_keep_counter_objects exampleWorld) as (_ & _ & Hchat & _).
  - by apply analyticsTyped_objects.
  - destruct (Hchat (Some sam) (mkChatBody "I feel hopeless" true (Some "high")))
      as (response & w' & Hrun & _ & Hkeeps).
    exists response, w'. split; [exact Hrun|]. apply Hkeeps; [exact Htyped|].
    by intros level [= <-].
Defined.

End InvariantFacts.
